(** * Zazu parliament: coordination and adjudication core

    A shallow embedding of the request/reply call and the compliance wrapper
    of [agents/base_agent.py], of the adjudicator of
    [agents/sentinel_agent.py], of the approval gate and the sandbox of
    [agents/executor_agent.py], of the post-condition predicate of
    [agents/mirror_agent.py] and of the consensus aggregation of
    [core/chorus.py], followed by the properties established about them.

    Python dictionaries are insertion-ordered association lists over a JSON
    value type, exceptions are a result type threaded through a state monad
    that keeps the mutations made before a raise, and the collaborators
    (PostgreSQL tables, the logger, the Redis bus, the clock, the sandbox's
    operating system) are fields of one [World] record. *)

From Stdlib Require Import String Ascii List ZArith Lia Bool.
From Stdlib Require Import PrimFloat Uint63 DecimalString.
Import ListNotations.
Set Warnings "-register-all,-inexact-float".
Local Open Scope string_scope.
Local Open Scope Z_scope.

(** ** Python values *)

Module Py.

(** A JSON-shaped Python value.  A [JDict] keeps insertion order; the
    dictionaries built by the code have distinct keys, and lookup takes the
    first binding. *)
Inductive Json : Type :=
| JNull
| JBool (b : bool)
| JInt (z : Z)
| JFloat (f : float)
| JStr (s : string)
| JList (l : list Json)
| JDict (d : list (string * Json)).

Definition dict := list (string * Json).

(** Exceptions of the modelled paths. *)
Inductive Exn : Type :=
| RuntimeError (msg : string)
| ValueError (msg : string)
| KeyError (key : string)
| TypeError (msg : string)
| AttributeError (msg : string)
| ZeroDivisionError (msg : string)
| ExternalError (msg : string).

(** [str(e)]: a [KeyError] prints the repr of its key. *)
Definition exn_str (e : Exn) : string :=
  match e with
  | RuntimeError m | ValueError m | TypeError m | AttributeError m
  | ZeroDivisionError m | ExternalError m => m
  | KeyError k => "'" ++ k ++ "'"
  end.

Inductive Res (A : Type) : Type :=
| Ok (a : A)
| Raise (e : Exn).
Arguments Ok {A} a.
Arguments Raise {A} e.

(** [d.get(k)] *)
Fixpoint dict_get (k : string) (d : dict) : option Json :=
  match d with
  | [] => None
  | (k', v) :: d' => if String.eqb k k' then Some v else dict_get k d'
  end.

(** [d.get(k, default)] *)
Definition get_default (k : string) (default : Json) (d : dict) : Json :=
  match dict_get k d with Some v => v | None => default end.

(** [d[k]] on a value: [KeyError] on a dictionary without the key,
    [TypeError] on a value that is not a dictionary. *)
Definition getitem (v : Json) (k : string) : Res Json :=
  match v with
  | JDict d =>
      match dict_get k d with Some x => Ok x | None => Raise (KeyError k) end
  | _ => Raise (TypeError "string indices on a non-dict value")
  end.

(** [type(v).__name__] *)
Definition type_name (v : Json) : string :=
  match v with
  | JNull => "NoneType"
  | JBool _ => "bool"
  | JInt _ => "int"
  | JFloat _ => "float"
  | JStr _ => "str"
  | JList _ => "list"
  | JDict _ => "dict"
  end.

(** [v == s] for a string literal [s]. *)
Definition eq_str (v : Json) (s : string) : bool :=
  match v with JStr t => String.eqb t s | _ => false end.

(** [d.get(k, default)] on a value: only a dictionary has the method. *)
Definition get_method (v : Json) (k : string) (default : Json) : Res Json :=
  match v with
  | JDict d => Ok (get_default k default d)
  | _ => Raise (AttributeError "object has no attribute 'get'")
  end.

(** [v in l] for a list of strings [l]: equality with some element. *)
Definition in_strings (v : Json) (l : list string) : bool :=
  existsb (eq_str v) l.

(** [needle in hay] on strings. *)
Fixpoint contains (needle hay : string) : bool :=
  if String.prefix needle hay then true
  else match hay with
       | EmptyString => false
       | String _ hay' => contains needle hay'
       end.

(** [s in v] for a string literal [s]: a key of a dictionary, an element
    of a list, a substring of a string; other values are not iterable. *)
Definition in_json (s : string) (v : Json) : Res bool :=
  match v with
  | JDict d => Ok (match dict_get s d with Some _ => true | None => false end)
  | JList l => Ok (existsb (fun x => eq_str x s) l)
  | JStr t => Ok (contains s t)
  | _ => Raise (TypeError "argument is not iterable")
  end.

(** [s.startswith(p)] *)
Definition startswith (s p : string) : bool := String.prefix p s.

(** [c.lower()] for a code point below 256: [A-Z] and the Latin-1 capitals. *)
Definition lower_char (c : ascii) : ascii :=
  let n := nat_of_ascii c in
  if ((65 <=? n) && (n <=? 90))%nat then ascii_of_nat (n + 32)
  else if ((192 <=? n) && (n <=? 222) && negb (n =? 215))%nat
       then ascii_of_nat (n + 32)
       else c.

(** [s.lower()] *)
Fixpoint lower (s : string) : string :=
  match s with
  | EmptyString => EmptyString
  | String c s' => String (lower_char c) (lower s')
  end.

(** [s.replace(a, b)] for one-character [a] and [b]. *)
Fixpoint replace_char (a b : ascii) (s : string) : string :=
  match s with
  | EmptyString => EmptyString
  | String c s' =>
      String (if Ascii.eqb c a then b else c) (replace_char a b s')
  end.

(** [str(n)] for an integer. *)
Definition str_int (z : Z) : string := NilZero.string_of_int (Z.to_int z).

(** [a / b] on two integers: true division, a float; exact conversion of
    the operands for magnitudes below 2^53, which the counts here are. *)
Definition truediv (a b : Z) : Res float :=
  if b =? 0 then Raise (ZeroDivisionError "division by zero")
  else Ok (PrimFloat.div (PrimFloat.of_uint63 (Uint63.of_Z a))
                         (PrimFloat.of_uint63 (Uint63.of_Z b))).

(** [l[-w:]]: the last [w] elements for positive [w]; for [w <= 0] the
    slice starts at index [-w] (so [l[-0:]] is the whole list). *)
Definition last_slice {A : Type} (w : Z) (l : list A) : list A :=
  if 0 <? w then skipn (length l - Z.to_nat w) l
  else skipn (Z.to_nat (- w)) l.

(** A model of [json.dumps] with its default separators and ASCII escapes,
    for strings of code points below 256; the text of a float is left to
    [float_text]. *)
Definition quote : string := String (ascii_of_nat 34) EmptyString.

Definition hex_digit (n : nat) : string :=
  String (nth n ["0"; "1"; "2"; "3"; "4"; "5"; "6"; "7"; "8"; "9";
                 "a"; "b"; "c"; "d"; "e"; "f"]%char "0"%char) EmptyString.

Definition escape_char (c : ascii) : string :=
  let n := nat_of_ascii c in
  if (n =? 34)%nat then "\" ++ quote
  else if (n =? 92)%nat then "\\"
  else if (n =? 10)%nat then "\n"
  else if (n =? 13)%nat then "\r"
  else if (n =? 9)%nat then "\t"
  else if (n =? 8)%nat then "\b"
  else if (n =? 12)%nat then "\f"
  else if ((n <? 32) || (126 <? n))%nat
       then "\u00" ++ hex_digit (n / 16) ++ hex_digit (n mod 16)
       else String c EmptyString.

Fixpoint escape (s : string) : string :=
  match s with
  | EmptyString => EmptyString
  | String c s' => escape_char c ++ escape s'
  end.

Definition dumps_str (s : string) : string := quote ++ escape s ++ quote.

Fixpoint dumps_with (float_text : float -> string) (v : Json) : string :=
  match v with
  | JNull => "null"
  | JBool true => "true"
  | JBool false => "false"
  | JInt z => str_int z
  | JFloat f => float_text f
  | JStr s => dumps_str s
  | JList l =>
      "[" ++ (fix items (l : list Json) : string :=
                match l with
                | [] => ""
                | x :: l' =>
                    match l' with
                    | [] => dumps_with float_text x
                    | _ => dumps_with float_text x ++ ", " ++ items l'
                    end
                end) l ++ "]"
  | JDict d =>
      "{" ++ (fix items (d : list (string * Json)) : string :=
                match d with
                | [] => ""
                | (k, x) :: d' =>
                    match d' with
                    | [] => dumps_str k ++ ": " ++ dumps_with float_text x
                    | _ => dumps_str k ++ ": " ++ dumps_with float_text x
                             ++ ", " ++ items d'
                    end
                end) d ++ "}"
  end.

(** The state-and-exception monad: a raise keeps the state reached. *)
Definition M (S A : Type) : Type := S -> Res A * S.

Definition ret {S A : Type} (a : A) : M S A := fun s => (Ok a, s).

Definition bind {S A B : Type} (m : M S A) (k : A -> M S B) : M S B :=
  fun s => match m s with
           | (Ok a, s') => k a s'
           | (Raise e, s') => (Raise e, s')
           end.

Definition raise {S A : Type} (e : Exn) : M S A := fun s => (Raise e, s).

Definition get {S : Type} : M S S := fun s => (Ok s, s).

Definition modify {S : Type} (f : S -> S) : M S unit := fun s => (Ok tt, f s).

(** Lifting of a pure, fallible computation. *)
Definition lift {S A : Type} (r : Res A) : M S A := fun s => (r, s).

(** [try: body except Exception as e: handler(e)] *)
Definition try_except {S A : Type} (body : M S A) (handler : Exn -> M S A)
  : M S A :=
  fun s => match body s with
           | (Ok a, s') => (Ok a, s')
           | (Raise e, s') => handler e s'
           end.

(** [try: body finally: fin] *)
Definition try_finally {S A : Type} (body : M S A) (fin : M S unit)
  : M S A :=
  fun s => match body s with
           | (r, s') =>
               match fin s' with
               | (Ok _, s'') => (r, s'')
               | (Raise e, s'') => (Raise e, s'')
               end
           end.

End Py.

Import Py.

Declare Scope py_scope.
Delimit Scope py_scope with py.
Notation "x <- m ;; k" := (bind m (fun x => k))
  (at level 61, m at next level, right associativity) : py_scope.
Notation "m ;;; k" := (bind m (fun _ => k))
  (at level 61, right associativity) : py_scope.
Local Open Scope py_scope.

(** ** The constitution

    [core/constitution.json] is configuration loaded at start-up; the fields
    below are the entries the modelled code reads, named by their last key:
    [subsystems], [axioms.permissive_until_dangerous.restriction_thresholds],
    the [halt_conditions] of the two entries of
    [moral_physics.moral_regression_testing.pre_execution_checks],
    the two lists of [moral_physics.dual_anchoring],
    [operational_constraints.halt_repair_loop.max_repair_cycles] and
    [operational_constraints.anti_paralysis]: its [halt_threshold] and the
    integer of its [measurement_window] (the text [last_N_decisions]). *)

Record SubsystemConfig : Type := {
  authorities : list string;
  constraints : list string
}.

Record Constitution : Type := {
  subsystems : list (string * SubsystemConfig);
  restriction_thresholds : list string;
  coherence_halt_conditions : list string;
  boundary_halt_conditions : list string;
  protection_of_user_arc : list string;
  safeguarding_external_world : list string;
  cfg_max_repair_cycles : Z;
  cfg_halt_threshold : float;
  cfg_measurement_window : Z
}.

Inductive Mode : Type := INQUIRY | CREATION | EXECUTION.

Definition mode_value (m : Mode) : string :=
  match m with
  | INQUIRY => "inquiry"
  | CREATION => "creation"
  | EXECUTION => "execution"
  end.

(** ** The collaborators *)

(** Rows keep the JSON document handed to the driver, not its text. *)
Record EpisodicRow : Type := {
  ep_id : Z;
  ep_subsystem_id : string;
  ep_event_type : string;
  ep_mode : option string;
  ep_context : Json;
  ep_related_event_id : option Z
}.

Record ViolationRow : Type := {
  cv_subsystem_id : string;
  cv_violation_type : string;
  cv_severity : string;
  cv_description : string;
  cv_context : option Json
}.

Record HaltEventRow : Type := {
  he_id : Z;
  he_halted_subsystem : Json;
  he_halt_reason : string;
  he_repair_cycle_count : Z
}.

Inductive LogRecord : Type :=
| LogInfo (msg : string)
| LogWarning (msg : string)
| LogError (msg : string)
| LogReflective (entry : Json).

(** What a pub/sub connection yields from [listen()]. *)
Inductive Message : Type :=
| MSubscribe (channel : string)
| MUnsubscribe (channel : string)
| MMessage (channel : string) (data : Json).

(** A [redis.pubsub()] object: its subscriptions and the messages queued
    for it and not yet consumed. *)
Record PubSub : Type := {
  channels : list string;
  queue : list Message
}.

(** What this process did on the bus, in order. *)
Inductive BusEvent : Type :=
| EvPublish (channel : string) (data : Json)
| EvSubscribe (channel : string)
| EvUnsubscribe (channel : string).

(** What the sandbox did to the operating system, in order. *)
Inductive OsEvent : Type :=
| OsMkdirParents (path : string)
| OsWrite (path content : string)
| OsRead (path : string)
| OsShell (command cwd : string).

(** What running a shell command under the sandbox's timeout comes to. *)
Inductive ShellOutcome : Type :=
| Exited (returncode : Z) (stdout stderr : string)
| TimedOut
| SpawnFailed (msg : string).

(** The environment.  The stores and the bus are reachable: a call to them
    completes.  Serial ids are one more than the table's length.
    [peers] is what the other bus clients publish at once on seeing a
    message, before the publisher runs again; [later] is what they publish
    while a listener waits for its deadline.  Pub/sub delivers to the
    subscriptions that exist at publish time and keeps no backlog.
    [files] is the text of the files on disk, the latest binding of a path
    first; [write_error] is the operating system refusing to create or
    write a path (the text of the exception) and [shell] the outcome of a
    command run in a working directory. *)
Record World : Type := {
  episodic_memory : list EpisodicRow;
  constitutional_violations : list ViolationRow;
  halt_events : list HaltEventRow;
  logger : list LogRecord;
  bus : list BusEvent;
  pubsubs : list PubSub;
  peers : string -> Json -> list (string * Json);
  later : list (string * Json);
  clock : nat;
  files : list (string * string);
  os_trace : list OsEvent;
  write_error : string -> option string;
  shell : string -> Json -> ShellOutcome
}.

Definition set_episodic_memory (x : list EpisodicRow) (w : World) : World :=
  {| episodic_memory := x;
     constitutional_violations := constitutional_violations w;
     halt_events := halt_events w; logger := logger w; bus := bus w;
     pubsubs := pubsubs w; peers := peers w; later := later w;
     clock := clock w; files := files w; os_trace := os_trace w;
     write_error := write_error w; shell := shell w |}.

Definition set_constitutional_violations (x : list ViolationRow) (w : World) : World :=
  {| episodic_memory := episodic_memory w; constitutional_violations := x;
     halt_events := halt_events w; logger := logger w; bus := bus w;
     pubsubs := pubsubs w; peers := peers w; later := later w;
     clock := clock w; files := files w; os_trace := os_trace w;
     write_error := write_error w; shell := shell w |}.

Definition set_halt_events (x : list HaltEventRow) (w : World) : World :=
  {| episodic_memory := episodic_memory w;
     constitutional_violations := constitutional_violations w;
     halt_events := x; logger := logger w; bus := bus w;
     pubsubs := pubsubs w; peers := peers w; later := later w;
     clock := clock w; files := files w; os_trace := os_trace w;
     write_error := write_error w; shell := shell w |}.

Definition set_logger (x : list LogRecord) (w : World) : World :=
  {| episodic_memory := episodic_memory w;
     constitutional_violations := constitutional_violations w;
     halt_events := halt_events w; logger := x; bus := bus w;
     pubsubs := pubsubs w; peers := peers w; later := later w;
     clock := clock w; files := files w; os_trace := os_trace w;
     write_error := write_error w; shell := shell w |}.

Definition set_bus (x : list BusEvent) (w : World) : World :=
  {| episodic_memory := episodic_memory w;
     constitutional_violations := constitutional_violations w;
     halt_events := halt_events w; logger := logger w; bus := x;
     pubsubs := pubsubs w; peers := peers w; later := later w;
     clock := clock w; files := files w; os_trace := os_trace w;
     write_error := write_error w; shell := shell w |}.

Definition set_pubsubs (x : list PubSub) (w : World) : World :=
  {| episodic_memory := episodic_memory w;
     constitutional_violations := constitutional_violations w;
     halt_events := halt_events w; logger := logger w; bus := bus w;
     pubsubs := x; peers := peers w; later := later w; clock := clock w;
     files := files w; os_trace := os_trace w; write_error := write_error w;
     shell := shell w |}.

Definition set_later (x : list (string * Json)) (w : World) : World :=
  {| episodic_memory := episodic_memory w;
     constitutional_violations := constitutional_violations w;
     halt_events := halt_events w; logger := logger w; bus := bus w;
     pubsubs := pubsubs w; peers := peers w; later := x; clock := clock w;
     files := files w; os_trace := os_trace w; write_error := write_error w;
     shell := shell w |}.

Definition set_clock (x : nat) (w : World) : World :=
  {| episodic_memory := episodic_memory w;
     constitutional_violations := constitutional_violations w;
     halt_events := halt_events w; logger := logger w; bus := bus w;
     pubsubs := pubsubs w; peers := peers w; later := later w; clock := x;
     files := files w; os_trace := os_trace w; write_error := write_error w;
     shell := shell w |}.

Definition set_files (x : list (string * string)) (w : World) : World :=
  {| episodic_memory := episodic_memory w;
     constitutional_violations := constitutional_violations w;
     halt_events := halt_events w; logger := logger w; bus := bus w;
     pubsubs := pubsubs w; peers := peers w; later := later w;
     clock := clock w; files := x; os_trace := os_trace w;
     write_error := write_error w; shell := shell w |}.

Definition set_os_trace (x : list OsEvent) (w : World) : World :=
  {| episodic_memory := episodic_memory w;
     constitutional_violations := constitutional_violations w;
     halt_events := halt_events w; logger := logger w; bus := bus w;
     pubsubs := pubsubs w; peers := peers w; later := later w;
     clock := clock w; files := files w; os_trace := x;
     write_error := write_error w; shell := shell w |}.

(** An agent object: the fields of [BaseAgent], the fields [local] its
    subclass adds, and the world its connections reach. *)
Record Agent (L : Type) : Type := {
  subsystem_id : string;
  constitution : Constitution;
  active : bool;
  current_mode : option Mode;
  local : L;
  world : World
}.
Arguments subsystem_id {L} a.
Arguments constitution {L} a.
Arguments active {L} a.
Arguments current_mode {L} a.
Arguments local {L} a.
Arguments world {L} a.

Definition set_world {L : Type} (w : World) (a : Agent L) : Agent L :=
  {| subsystem_id := subsystem_id a; constitution := constitution a;
     active := active a; current_mode := current_mode a;
     local := local a; world := w |}.

Definition set_local {L : Type} (l : L) (a : Agent L) : Agent L :=
  {| subsystem_id := subsystem_id a; constitution := constitution a;
     active := active a; current_mode := current_mode a;
     local := l; world := world a |}.

Definition set_active {L : Type} (b : bool) (a : Agent L) : Agent L :=
  {| subsystem_id := subsystem_id a; constitution := constitution a;
     active := b; current_mode := current_mode a;
     local := local a; world := world a |}.

Definition set_current_mode {L : Type} (m : option Mode) (a : Agent L)
  : Agent L :=
  {| subsystem_id := subsystem_id a; constitution := constitution a;
     active := active a; current_mode := m;
     local := local a; world := world a |}.

(** ** [agents/base_agent.py] *)

Module BaseAgent.
Section Base.

Context {L : Type}.

Definition with_world (f : World -> World) : M (Agent L) unit :=
  modify (fun a => set_world (f (world a)) a).

(** [datetime.utcnow()]: the clock is read and moves on.  The renderings
    of an instant ([isoformat()], [str], [timestamp()]) are all the
    decimal text of the tick. *)
Definition utcnow : M (Agent L) nat :=
  fun a => (Ok (clock (world a)),
            set_world (set_clock (S (clock (world a))) (world a)) a).

Definition render_time (t : nat) : string := str_int (Z.of_nat t).

Definition logger_info (msg : string) : M (Agent L) unit :=
  with_world (fun w => set_logger (logger w ++ [LogInfo msg]) w).

Definition logger_warning (msg : string) : M (Agent L) unit :=
  with_world (fun w => set_logger (logger w ++ [LogWarning msg]) w).

Definition logger_error (msg : string) : M (Agent L) unit :=
  with_world (fun w => set_logger (logger w ++ [LogError msg]) w).

(** [json.dumps(context) if context else None]: an absent or empty
    dictionary is stored as NULL. *)
Definition context_column (context : option Json) : option Json :=
  match context with
  | Some (JDict []) => None
  | other => other
  end.

Definition _log_violation (violation_type severity description : string)
    (context : option Json) : M (Agent L) unit :=
  a <- get ;;
  with_world (fun w =>
    set_constitutional_violations
      (constitutional_violations w ++
         [{| cv_subsystem_id := subsystem_id a;
             cv_violation_type := violation_type;
             cv_severity := severity;
             cv_description := description;
             cv_context := context_column context |}]) w).

Definition write_episodic (event_type : string) (context : Json)
    (related_event_id : option Z) : M (Agent L) Z :=
  a <- get ;;
  let event_id := Z.of_nat (length (episodic_memory (world a))) + 1 in
  with_world (fun w =>
    set_episodic_memory
      (episodic_memory w ++
         [{| ep_id := event_id;
             ep_subsystem_id := subsystem_id a;
             ep_event_type := event_type;
             ep_mode := option_map mode_value (current_mode a);
             ep_context := context;
             ep_related_event_id := related_event_id |}]) w) ;;;
  ret event_id.

Definition log_reflective (log_type message : string)
    (metadata : option dict) : M (Agent L) unit :=
  a <- get ;;
  t <- utcnow ;;
  let log_entry :=
    JDict [("subsystem", JStr (subsystem_id a));
           ("type", JStr log_type);
           ("message", JStr message);
           ("metadata", JDict (match metadata with
                               | Some d => d
                               | None => []
                               end));
           ("timestamp", JStr (render_time t))] in
  with_world (fun w => set_logger (logger w ++ [LogReflective log_entry]) w).

(** Delivery of one published message to the pub/sub connections
    subscribed to its channel. *)
Definition deliver (channel : string) (data : Json) (ps : list PubSub)
  : list PubSub :=
  map (fun p =>
         if existsb (String.eqb channel) (channels p)
         then {| channels := channels p;
                 queue := queue p ++ [MMessage channel data] |}
         else p) ps.

Definition deliver_all (msgs : list (string * Json)) (ps : list PubSub)
  : list PubSub :=
  fold_left (fun acc m => deliver (fst m) (snd m) acc) msgs ps.

(** [self.redis.publish(channel, data)]: the message reaches the current
    subscribers, then the peers' immediate publications do. *)
Definition redis_publish (channel : string) (data : Json)
  : M (Agent L) unit :=
  with_world (fun w =>
    set_pubsubs
      (deliver_all (peers w channel data)
                   (deliver channel data (pubsubs w)))
      (set_bus (bus w ++ [EvPublish channel data]) w)).

Definition publish (channel : string) (message : Json) : M (Agent L) unit :=
  a <- get ;;
  t <- utcnow ;;
  redis_publish channel
    (JDict [("from", JStr (subsystem_id a));
            ("timestamp", JStr (render_time t));
            ("payload", message)]).

(** [self.redis.pubsub()]: a new connection, named by its index. *)
Definition redis_pubsub : M (Agent L) nat :=
  a <- get ;;
  with_world (fun w =>
    set_pubsubs (pubsubs w ++ [{| channels := []; queue := [] |}]) w) ;;;
  ret (length (pubsubs (world a))).

Fixpoint update_nth {A : Type} (n : nat) (f : A -> A) (l : list A)
  : list A :=
  match l, n with
  | [], _ => []
  | x :: l', O => f x :: l'
  | x :: l', S n' => x :: update_nth n' f l'
  end.

Definition pubsub_subscribe (ps : nat) (channel : string)
  : M (Agent L) unit :=
  with_world (fun w =>
    set_pubsubs
      (update_nth ps
         (fun p => {| channels := channels p ++ [channel];
                      queue := queue p ++ [MSubscribe channel] |})
         (pubsubs w))
      (set_bus (bus w ++ [EvSubscribe channel]) w)).

Definition pubsub_unsubscribe (ps : nat) (channel : string)
  : M (Agent L) unit :=
  with_world (fun w =>
    set_pubsubs
      (update_nth ps
         (fun p => {| channels :=
                        filter (fun c => negb (String.eqb c channel))
                               (channels p);
                      queue := queue p ++ [MUnsubscribe channel] |})
         (pubsubs w))
      (set_bus (bus w ++ [EvUnsubscribe channel]) w)).

(** The loop [async for message in pubsub.listen(): if message['type'] ==
    'message': ...]: messages are consumed up to the first of type
    [message]. *)
Fixpoint first_message (q : list Message) : option Json * list Message :=
  match q with
  | [] => (None, [])
  | MMessage _ data :: q' => (Some data, q')
  | _ :: q' => first_message q'
  end.

(** Listening under [asyncio.timeout]: what the peers publish before the
    deadline is delivered, and the first message is taken; [None] is the
    deadline passing with none. *)
Definition listen_until_timeout (ps : nat) : M (Agent L) (option Json) :=
  with_world (fun w =>
    set_later [] (set_pubsubs (deliver_all (later w) (pubsubs w)) w)) ;;;
  a <- get ;;
  let q := match nth_error (pubsubs (world a)) ps with
           | Some p => queue p
           | None => []
           end in
  with_world (fun w =>
    set_pubsubs
      (update_nth ps
         (fun p => {| channels := channels p;
                      queue := snd (first_message q) |})
         (pubsubs w)) w) ;;;
  ret (fst (first_message q)).

(** [request]: returns the reply, or [None] ([JNull]) on a timeout. *)
Definition request (target_subsystem action : string) (params : Json)
    (timeout : Z) : M (Agent L) Json :=
  a <- get ;;
  t <- utcnow ;;
  let request_id :=
    subsystem_id a ++ ":" ++ target_subsystem ++ ":" ++ render_time t in
  let request_channel := "request:" ++ target_subsystem in
  let response_channel := "response:" ++ request_id in
  (* Publish request *)
  redis_publish request_channel
    (JDict [("request_id", JStr request_id);
            ("from", JStr (subsystem_id a));
            ("action", JStr action);
            ("params", params);
            ("response_channel", JStr response_channel)]) ;;;
  (* Wait for response *)
  pubsub <- redis_pubsub ;;
  pubsub_subscribe pubsub response_channel ;;;
  message <- listen_until_timeout pubsub ;;
  match message with
  | Some response =>
      pubsub_unsubscribe pubsub response_channel ;;;
      ret response
  | None =>
      logger_warning
        ("Request to " ++ target_subsystem ++ " timed out") ;;;
      pubsub_unsubscribe pubsub response_channel ;;;
      ret JNull
  end.

(** [set_mode]: the mode is assigned first, so the [previous_mode] of the
    log entry is read after the assignment. *)
Definition set_mode (mode : Mode) : M (Agent L) unit :=
  modify (set_current_mode (Some mode)) ;;;
  a <- get ;;
  log_reflective "mode_change" ("Mode changed to " ++ mode_value mode)
    (Some [("previous_mode",
            match current_mode a with
            | Some m => JStr (mode_value m)
            | None => JNull
            end)]).

(** The template method.  [_process_input] is the subclass's logic and
    [_check_constraints] its post-condition predicate. *)
Variable _process_input : Json -> M (Agent L) Json.
Variable _check_constraints : Json -> M (Agent L) bool.

Definition process (input_data : Json) : M (Agent L) Json :=
  a <- get ;;
  (* Pre-validation *)
  if negb (active a)
  then raise (RuntimeError (subsystem_id a ++ " not active"))
  else
    (* Log input to episodic memory *)
    event_id <- write_episodic "input_received"
                  (JDict [("input", input_data)]) None ;;
    try_except
      ((* Subsystem-specific processing *)
       output <- _process_input input_data ;;
       (* Post-validation *)
       compliant <- _check_constraints output ;;
       (if negb compliant
        then
          self <- get ;;
          _log_violation "constraint_violation" "major"
            ("Output violates " ++ subsystem_id self ++ " constraints")
            (Some (JDict [("input", input_data); ("output", output)])) ;;;
          raise (ValueError "Constitutional constraint violation")
        else ret tt) ;;;
       (* Log output to episodic memory *)
       write_episodic "output_generated"
         (JDict [("output", output)]) (Some event_id) ;;;
       ret output)
      (fun e =>
         logger_error ("Processing error: " ++ exn_str e) ;;;
         write_episodic "processing_error"
           (JDict [("error", JStr (exn_str e)); ("input", input_data)])
           (Some event_id) ;;;
         raise e).

(** [initialize] and [shutdown], as far as the agent's own fields go. *)
Definition initialize : M (Agent L) unit :=
  modify (set_active true) ;;;
  a <- get ;;
  logger_info (subsystem_id a ++ " connections established").

Definition shutdown : M (Agent L) unit :=
  modify (set_active false) ;;;
  a <- get ;;
  logger_info (subsystem_id a ++ " shutdown complete").

End Base.
End BaseAgent.

(** ** [agents/sentinel_agent.py] *)

Module SentinelAgent.

(** The four veto checks, named for the trace of the checks entered. *)
Inductive Check : Type :=
| MoralRegressionTest
| EthicalBoundaryCheck
| LegalConstraintCheck
| SubsystemConstraintCheck.

(** The dictionary a check returns: [{'passed': True}] or
    [{'passed': False, 'reason': ..., 'fault_code': ...}]. *)
Inductive CheckResult : Type :=
| Passed
| Failed (reason fault_code : string).

(** The fields [__init__] adds to the agent.  [evaluated] is a ghost
    field: the checks entered so far, in order. *)
Record SentinelState : Type := {
  max_repair_cycles : Z;
  halt_threshold : float;
  measurement_window : Z;
  recent_decisions : list Json;
  current_repair_cycle : Z;
  evaluated : list Check
}.

Definition set_recent_decisions (x : list Json) (s : SentinelState)
  : SentinelState :=
  {| max_repair_cycles := max_repair_cycles s;
     halt_threshold := halt_threshold s;
     measurement_window := measurement_window s;
     recent_decisions := x;
     current_repair_cycle := current_repair_cycle s;
     evaluated := evaluated s |}.

Definition set_current_repair_cycle (x : Z) (s : SentinelState)
  : SentinelState :=
  {| max_repair_cycles := max_repair_cycles s;
     halt_threshold := halt_threshold s;
     measurement_window := measurement_window s;
     recent_decisions := recent_decisions s;
     current_repair_cycle := x;
     evaluated := evaluated s |}.

Definition set_evaluated (x : list Check) (s : SentinelState)
  : SentinelState :=
  {| max_repair_cycles := max_repair_cycles s;
     halt_threshold := halt_threshold s;
     measurement_window := measurement_window s;
     recent_decisions := recent_decisions s;
     current_repair_cycle := current_repair_cycle s;
     evaluated := x |}.

Definition Sentinel : Type := Agent SentinelState.

(** [SentinelAgent(...)]: the object after [__init__], on a constitution
    that has the sentinel's entry. *)
Definition new (cst : Constitution) (w : World) : Sentinel :=
  {| subsystem_id := "sentinel";
     constitution := cst;
     active := false;
     current_mode := None;
     local := {| max_repair_cycles := cfg_max_repair_cycles cst;
                 halt_threshold := cfg_halt_threshold cst;
                 measurement_window := cfg_measurement_window cst;
                 recent_decisions := [];
                 current_repair_cycle := 0;
                 evaluated := [] |};
     world := set_logger (logger w ++ [LogInfo "Initialized sentinel agent"])
                         w |}.

Section Sentinel.

(** The standard library's [json.dumps] and [format(x, spec)] on floats
    (the empty [spec] is [str]). *)
Variable json_dumps : Json -> string.
Variable format_float : string -> float -> string.

Definition with_local (f : SentinelState -> SentinelState)
  : M Sentinel unit :=
  modify (fun a => set_local (f (local a)) a).

Definition _is_threshold_action (cst : Constitution) (action_type : Json)
  : bool :=
  let thresholds := restriction_thresholds cst in
  in_strings action_type thresholds.

Definition _detect_coherence_violation (artifact : Json)
    (halt_condition : string) : bool :=
  false.

Definition violation_keywords (halt_condition : string) : list string :=
  if String.eqb halt_condition "crosses_harm_boundary"
  then ["harm"; "damage"; "hurt"; "destroy"]
  else if String.eqb halt_condition "violates_legality"
  then ["illegal"; "unlawful"; "fraud"]
  else if String.eqb halt_condition "creates_irreversible_action"
  then ["delete"; "irreversible"; "permanent"]
  else [].

Definition _detect_boundary_violation (artifact : Json)
    (halt_condition : string) : bool :=
  let keywords := violation_keywords halt_condition in
  let artifact_text := lower (json_dumps artifact) in
  existsb (fun kw => contains kw artifact_text) keywords.

Definition _pattern_match (artifact : Json) (pattern : string) : bool :=
  let artifact_text := lower (json_dumps artifact) in
  let pattern_keywords := lower (replace_char "_" " " pattern) in
  contains pattern_keywords artifact_text.

Definition _moral_regression_test (cst : Constitution)
    (artifact context : Json) : CheckResult :=
  match find (_detect_coherence_violation artifact)
             (coherence_halt_conditions cst) with
  | Some halt_condition =>
      Failed ("Violates long-arc coherence: " ++ halt_condition)
             "coherence_violation"
  | None =>
      match find (_detect_boundary_violation artifact)
                 (boundary_halt_conditions cst) with
      | Some halt_condition =>
          Failed ("Crosses boundary: " ++ halt_condition)
                 "boundary_violation"
      | None => Passed
      end
  end.

Definition _ethical_boundary_check (cst : Constitution)
    (artifact context : Json) : CheckResult :=
  match find (_pattern_match artifact) (protection_of_user_arc cst) with
  | Some violation_pattern =>
      Failed ("Violates user arc protection: " ++ violation_pattern)
             "user_arc_violation"
  | None =>
      match find (_pattern_match artifact)
                 (safeguarding_external_world cst) with
      | Some violation_pattern =>
          Failed ("Violates external safeguards: " ++ violation_pattern)
                 "external_harm"
      | None => Passed
      end
  end.

Definition prohibited_keywords : list string :=
  ["illegal"; "fraud"; "laundering"; "hack"; "exploit";
   "steal"; "insider trading"; "manipulation"].

Definition _legal_constraint_check (artifact action_type : Json)
  : CheckResult :=
  let artifact_text := lower (json_dumps artifact) in
  match find (fun keyword => contains keyword artifact_text)
             prohibited_keywords with
  | Some keyword =>
      Failed ("Potential legal violation detected: " ++ keyword)
             "legal_violation"
  | None => Passed
  end.

Fixpoint lookup_subsystem (name : string)
    (l : list (string * SubsystemConfig)) : option SubsystemConfig :=
  match l with
  | [] => None
  | (k, c) :: l' =>
      if String.eqb name k then Some c else lookup_subsystem name l'
  end.

(** The loop over the origin's constraints; [and] evaluates its right
    operand only when the left one holds. *)
Fixpoint constraints_loop (origin : string) (artifact : Json)
    (cs : list string) : Res CheckResult :=
  match cs with
  | [] => Ok Passed
  | constraint :: cs' =>
      if contains "cannot_execute" constraint
      then match in_json "execute_command" artifact with
           | Raise e => Raise e
           | Ok true =>
               Ok (Failed (origin ++ " violated constraint: " ++ constraint)
                          "subsystem_constraint_violation")
           | Ok false => constraints_loop origin artifact cs'
           end
      else constraints_loop origin artifact cs'
  end.

(** Membership of the origin in the [subsystems] dictionary: a string is
    looked up, a list or dictionary is unhashable, any other value is
    hashable and no key. *)
Definition _subsystem_constraint_check (cst : Constitution)
    (artifact subsystem_origin : Json) : Res CheckResult :=
  match subsystem_origin with
  | JStr origin =>
      match lookup_subsystem origin (subsystems cst) with
      | None => Ok Passed
      | Some origin_config =>
          constraints_loop origin artifact (constraints origin_config)
      end
  | JList _ | JDict _ => Raise (TypeError "unhashable type")
  | _ => Ok Passed
  end.

(** Awaiting a check: it is entered (ghost trace), then its result or its
    exception comes back. *)
Definition call (c : Check) (r : Res CheckResult) : M Sentinel CheckResult :=
  with_local (fun s => set_evaluated (evaluated s ++ [c]) s) ;;;
  lift r.

(** [sum(1 for d in decisions if d['decision'] in ['halt', 'escalate'])] *)
Fixpoint count_halts (decisions : list Json) : Res Z :=
  match decisions with
  | [] => Ok 0
  | d :: rest =>
      match getitem d "decision" with
      | Raise e => Raise e
      | Ok v =>
          match count_halts rest with
          | Raise e => Raise e
          | Ok n =>
              Ok ((if in_strings v ["halt"; "escalate"] then 1 else 0) + n)
          end
      end
  end.

Definition _check_anti_paralysis : M Sentinel unit :=
  a <- get ;;
  if Z.of_nat (length (recent_decisions (local a))) <? 10
  then ret tt
  else
    (* Keep only recent decisions within measurement window *)
    let window :=
      last_slice (measurement_window (local a))
                 (recent_decisions (local a)) in
    with_local (set_recent_decisions window) ;;;
    halt_count <- lift (count_halts window) ;;
    halt_rate <- lift (truediv halt_count (Z.of_nat (length window))) ;;
    if PrimFloat.ltb (halt_threshold (local a)) halt_rate
    then
      BaseAgent.log_reflective "anti_paralysis_trigger"
        ("Halt rate (" ++ format_float ".2f" halt_rate
           ++ ") exceeds threshold ("
           ++ format_float "" (halt_threshold (local a)) ++ ")")
        (Some [("halt_count", JInt halt_count);
               ("total_decisions", JInt (Z.of_nat (length window)));
               ("halt_rate", JFloat halt_rate)]) ;;;
      (* Trigger calibration workflow *)
      BaseAgent.publish "system:calibration"
        (JDict [("trigger", JStr "anti_paralysis");
                ("subsystem", JStr "sentinel");
                ("halt_rate", JFloat halt_rate);
                ("threshold", JFloat (halt_threshold (local a)))])
    else ret tt.

Definition _issue_halt (reason fault_code : string) (context : Json)
  : M Sentinel Json :=
  with_local (fun s =>
    set_current_repair_cycle (current_repair_cycle s + 1) s) ;;;
  (* Log halt event *)
  halted_subsystem <-
    lift (get_method context "subsystem_origin" (JStr "unknown")) ;;
  a <- get ;;
  let halt_event_id := Z.of_nat (length (halt_events (world a))) + 1 in
  BaseAgent.with_world (fun w =>
    set_halt_events
      (halt_events w ++
         [{| he_id := halt_event_id;
             he_halted_subsystem := halted_subsystem;
             he_halt_reason := reason;
             he_repair_cycle_count := current_repair_cycle (local a) |}])
      w) ;;;
  (* Check if max repair cycles exceeded *)
  if max_repair_cycles (local a) <=? current_repair_cycle (local a)
  then
    BaseAgent.log_reflective "escalation"
      ("Max repair cycles (" ++ str_int (max_repair_cycles (local a))
         ++ ") exceeded. Escalating to user.")
      (Some [("halt_event_id", JInt halt_event_id);
             ("fault_code", JStr fault_code)]) ;;;
    ret (JDict [("decision", JStr "escalate");
                ("halt_reason", JStr reason);
                ("fault_code", JStr fault_code);
                ("repair_cycle", JInt (current_repair_cycle (local a)));
                ("escalation_target", JStr "user_via_mirror");
                ("halt_event_id", JInt halt_event_id)])
  else
    let decision :=
      JDict [("decision", JStr "halt");
             ("halt_reason", JStr reason);
             ("fault_code", JStr fault_code);
             ("repair_cycle", JInt (current_repair_cycle (local a)));
             ("halt_event_id", JInt halt_event_id)] in
    with_local (fun s =>
      set_recent_decisions (recent_decisions s ++ [decision]) s) ;;;
    _check_anti_paralysis ;;;
    ret decision.

Definition _process_input (input_data : Json) : M Sentinel Json :=
  artifact <- lift (getitem input_data "artifact") ;;
  subsystem_origin <- lift (getitem input_data "subsystem_origin") ;;
  action_type <- lift (getitem input_data "action_type") ;;
  context <- lift (get_method input_data "context" (JDict [])) ;;
  a <- get ;;
  let cst := constitution a in
  (* Check if this is within jurisdiction (threshold-activated) *)
  if negb (_is_threshold_action cst action_type)
  then ret (JDict [("decision", JStr "approve");
                   ("reason", JStr "not_threshold_action")])
  else
    (* Moral regression testing (Law 5) *)
    moral_check <- call MoralRegressionTest
                     (Ok (_moral_regression_test cst artifact context)) ;;
    match moral_check with
    | Failed reason fault_code => _issue_halt reason fault_code context
    | Passed =>
    (* Ethical boundary check (Laws 1, 2) *)
    ethical_check <- call EthicalBoundaryCheck
                       (Ok (_ethical_boundary_check cst artifact context)) ;;
    match ethical_check with
    | Failed reason fault_code => _issue_halt reason fault_code context
    | Passed =>
    (* Legal constraint validation *)
    legal_check <- call LegalConstraintCheck
                     (Ok (_legal_constraint_check artifact action_type)) ;;
    match legal_check with
    | Failed reason fault_code => _issue_halt reason fault_code context
    | Passed =>
    (* Subsystem-specific constraint check *)
    subsystem_check <- call SubsystemConstraintCheck
                         (_subsystem_constraint_check cst artifact
                                                      subsystem_origin) ;;
    match subsystem_check with
    | Failed reason fault_code => _issue_halt reason fault_code context
    | Passed =>
    (* All checks passed *)
    t <- BaseAgent.utcnow ;;
    let decision :=
      JDict [("decision", JStr "approve");
             ("timestamp", JStr (BaseAgent.render_time t))] in
    with_local (fun s =>
      set_recent_decisions (recent_decisions s ++ [decision]) s) ;;;
    _check_anti_paralysis ;;;
    ret decision
    end end end end.

(** The sentinel inherits [_check_constraints] from the base class. *)
Definition _check_constraints (proposed_output : Json) : M Sentinel bool :=
  ret true.

Definition process : Json -> M Sentinel Json :=
  BaseAgent.process _process_input _check_constraints.

End Sentinel.
End SentinelAgent.

(** ** [agents/executor_agent.py] *)

Module ExecutorAgent.

Record ExecutorState : Type := {
  execution_history : list Json;
  sandbox_timeout : Z;
  allowed_file_paths : list string
}.

Definition set_execution_history (x : list Json) (s : ExecutorState)
  : ExecutorState :=
  {| execution_history := x;
     sandbox_timeout := sandbox_timeout s;
     allowed_file_paths := allowed_file_paths s |}.

Definition Executor : Type := Agent ExecutorState.

Definition new (cst : Constitution) (w : World) : Executor :=
  {| subsystem_id := "executor";
     constitution := cst;
     active := false;
     current_mode := None;
     local := {| execution_history := [];
                 sandbox_timeout := 30;
                 allowed_file_paths := ["/tmp"; "/home/phurkrow/Zazu_2026"] |};
     world := set_logger (logger w ++ [LogInfo "Initialized executor agent"])
                         w |}.

(** Truth value of a Python value. *)
Definition truthy (v : Json) : bool :=
  match v with
  | JNull => false
  | JBool b => b
  | JInt z => negb (z =? 0)
  | JFloat f => negb (PrimFloat.eqb f 0%float)
  | JStr s => negb (String.eqb s "")
  | JList l => match l with [] => false | _ => true end
  | JDict d => match d with [] => false | _ => true end
  end.

Section Executor.

(** Library functions: [json.dumps], [format] on floats, [str] of a value
    inside an f-string, and [str(Path(p))]. *)
Variable json_dumps : Json -> string.
Variable format_float : string -> float -> string.
Variable py_str : Json -> string.
Variable path_str : string -> string.

(** The constitution at the default path [core/constitution.json], which
    the sentinel created for an approval loads. *)
Variable default_constitution : Constitution.

Definition with_local (f : ExecutorState -> ExecutorState)
  : M Executor unit :=
  modify (fun a => set_local (f (local a)) a).

Definition task_type_mapping : list (string * string) :=
  [("file_write", "real_world_execution");
   ("file_delete", "real_world_execution");
   ("command", "real_world_execution");
   ("api_call", "real_world_execution");
   ("financial", "financial_exposure")].

Fixpoint lookup_string (k : string) (l : list (string * string))
  : option string :=
  match l with
  | [] => None
  | (k', v) :: l' => if String.eqb k k' then Some v else lookup_string k l'
  end.

Definition _map_task_to_action_type (task : Json) : Res string :=
  match get_method task "type" (JStr "") with
  | Raise e => Raise e
  | Ok (JStr task_type) =>
      Ok (match lookup_string task_type task_type_mapping with
          | Some v => v
          | None => "real_world_execution"
          end)
  | Ok (JList _) | Ok (JDict _) => Raise (TypeError "unhashable type")
  | Ok _ => Ok "real_world_execution"
  end.

Definition result_dict (status : string) (output : Json)
    (errors : list Json) (rollback_available : bool) : Json :=
  JDict [("status", JStr status);
         ("output", output);
         ("errors", JList errors);
         ("rollback_available", JBool rollback_available)].

Definition os_event (ev : OsEvent) : M Executor unit :=
  BaseAgent.with_world (fun w => set_os_trace (os_trace w ++ [ev]) w).

(** [Path(params['path'])]: the path must be a string. *)
Definition path_of (params : Json) : Res string :=
  match getitem params "path" with
  | Raise e => Raise e
  | Ok (JStr p) => Ok (path_str p)
  | Ok _ => Raise (TypeError "expected str, bytes or os.PathLike object")
  end.

Definition path_allowed (allowed : list string) (file_path : string)
  : bool :=
  existsb (fun a => startswith file_path a) allowed.

Definition _execute_file_write (params : Json) : M Executor Json :=
  file_path <- lift (path_of params) ;;
  content <- lift (getitem params "content") ;;
  a <- get ;;
  (* Validate path is within allowed directories *)
  if negb (path_allowed (allowed_file_paths (local a)) file_path)
  then ret (result_dict "failure" JNull
              [JStr ("Path " ++ file_path ++ " not in allowed directories")]
              false)
  else
    (* Write file: the parent directories, then the text *)
    match write_error (world a) file_path with
    | Some msg => ret (result_dict "failure" JNull [JStr msg] false)
    | None =>
        os_event (OsMkdirParents file_path) ;;;
        match content with
        | JStr text =>
            os_event (OsWrite file_path text) ;;;
            BaseAgent.with_world (fun w =>
              set_files ((file_path, text) :: files w) w) ;;;
            ret (result_dict "success" (JStr file_path) [] true)
        | other =>
            ret (result_dict "failure" JNull
                   [JStr ("data must be str, not " ++ type_name other)]
                   false)
        end
    end.

Definition _execute_file_read (params : Json) : M Executor Json :=
  file_path <- lift (path_of params) ;;
  a <- get ;;
  (* Validate path *)
  if negb (path_allowed (allowed_file_paths (local a)) file_path)
  then ret (result_dict "failure" JNull
              [JStr ("Path " ++ file_path ++ " not in allowed directories")]
              false)
  else
    os_event (OsRead file_path) ;;;
    match lookup_string file_path (files (world a)) with
    | Some content => ret (result_dict "success" (JStr content) [] false)
    | None =>
        ret (result_dict "failure" JNull
               [JStr ("[Errno 2] No such file or directory: '"
                        ++ file_path ++ "'")] false)
    end.

Definition _execute_command (params : Json) : M Executor Json :=
  command <- lift (getitem params "command") ;;
  cwd <- lift (get_method params "cwd" (JStr "/tmp")) ;;
  a <- get ;;
  match command with
  | JStr cmd =>
      match shell (world a) cmd cwd with
      | SpawnFailed msg =>
          ret (result_dict "failure" JNull [JStr msg] false)
      | TimedOut =>
          os_event (OsShell cmd (py_str cwd)) ;;;
          ret (result_dict "failure" JNull
                 [JStr ("Command timed out after "
                          ++ str_int (sandbox_timeout (local a)) ++ "s")]
                 false)
      | Exited returncode stdout stderr =>
          os_event (OsShell cmd (py_str cwd)) ;;;
          ret (result_dict
                 (if returncode =? 0 then "success" else "failure")
                 (JDict [("stdout", JStr stdout);
                         ("stderr", JStr stderr);
                         ("returncode", JInt returncode)])
                 (if returncode =? 0 then [] else [JStr stderr])
                 false)
      end
  | _ => ret (result_dict "failure" JNull
                [JStr "cmd must be a string"] false)
  end.

Definition _execute_api_call (params : Json) : M Executor Json :=
  ret (result_dict "success"
         (JDict [("message",
                  JStr "API call placeholder (implement in Phase 2B)")])
         [] false).

Definition _execute_sandboxed (task : Json) : M Executor Json :=
  task_type <- lift (getitem task "type") ;;
  parameters <- lift (getitem task "parameters") ;;
  if eq_str task_type "file_write" then _execute_file_write parameters
  else if eq_str task_type "file_read" then _execute_file_read parameters
  else if eq_str task_type "command" then _execute_command parameters
  else if eq_str task_type "api_call" then _execute_api_call parameters
  else raise (ValueError ("Unsupported task type: " ++ py_str task_type)).

Definition _handle_execution_error (task : Json) (error : Exn)
  : M Executor Json :=
  task_type <- lift (getitem task "type") ;;
  BaseAgent.logger_error
    ("Execution error for task " ++ py_str task_type ++ ": "
       ++ exn_str error) ;;;
  (* Log error to episodic memory *)
  BaseAgent.write_episodic "execution_error"
    (JDict [("task", task); ("error", JStr (exn_str error))]) None ;;;
  ret (result_dict "failure" JNull [JStr (exn_str error)] false).

(** A sentinel is created on the executor's connections, initialised,
    asked, and shut down whatever the outcome; the world it leaves is the
    executor's. *)
Definition _request_sentinel_approval (task : Json) : M Executor Json :=
  fun e =>
    let sentinel := SentinelAgent.new default_constitution (world e) in
    let session : M SentinelAgent.Sentinel Json :=
      BaseAgent.initialize ;;;
      try_finally
        ((* Request approval *)
         action_type <- lift (_map_task_to_action_type task) ;;
         approval_response <-
           SentinelAgent.process json_dumps format_float
             (JDict [("artifact", task);
                     ("subsystem_origin", JStr "executor");
                     ("action_type", JStr action_type);
                     ("context", JDict [])]) ;;
         decision <- lift (getitem approval_response "decision") ;;
         let approved := eq_str decision "approve" in
         reason <- lift (get_method approval_response "halt_reason"
                                    (JStr "")) ;;
         ret (JDict [("approved", JBool approved);
                     ("reason", reason);
                     ("approval_data", approval_response)]))
        BaseAgent.shutdown in
    match session sentinel with
    | (r, sentinel') => (r, set_world (world sentinel') e)
    end.

Definition _process_input (input_data : Json) : M Executor Json :=
  task <- lift (getitem input_data "task") ;;
  skip_approval <- lift (get_method input_data "skip_approval"
                                    (JBool false)) ;;
  (* Step 1: Request Sentinel approval *)
  verdict <-
    (if negb (truthy skip_approval)
     then
       approval <- _request_sentinel_approval task ;;
       approved <- lift (getitem approval "approved") ;;
       if negb (truthy approved)
       then
         reason <- lift (get_method approval "reason"
                           (JStr "Sentinel rejected execution")) ;;
         t <- BaseAgent.utcnow ;;
         ret (Some
                (JDict [("execution_result",
                         result_dict "rejected" JNull [reason] false);
                        ("executed_at", JStr (BaseAgent.render_time t))]))
       else ret None
     else ret None) ;;
  match verdict with
  | Some rejection => ret rejection
  | None =>
      (* Step 2: Execute in sandbox *)
      try_except
        (result <- _execute_sandboxed task ;;
         (* Log successful execution *)
         BaseAgent.write_episodic "task_executed"
           (JDict [("task", task); ("result", result)]) None ;;;
         (* Track for rollback *)
         t <- BaseAgent.utcnow ;;
         with_local (fun s =>
           set_execution_history
             (execution_history s ++
                [JDict [("task", task); ("result", result);
                        ("timestamp", JStr (BaseAgent.render_time t))]])
             s) ;;;
         t' <- BaseAgent.utcnow ;;
         ret (JDict [("execution_result", result);
                     ("executed_at", JStr (BaseAgent.render_time t'))]))
        (fun e =>
           (* Handle execution error *)
           error_result <- _handle_execution_error task e ;;
           t <- BaseAgent.utcnow ;;
           ret (JDict [("execution_result", error_result);
                       ("executed_at", JStr (BaseAgent.render_time t))]))
  end.

Definition _check_constraints (proposed_output : Json) : M Executor bool :=
  execution_result <-
    lift (get_method proposed_output "execution_result" (JDict [])) ;;
  status <- lift (get_method execution_result "status" JNull) ;;
  (* If execution failed due to rejection, that's compliant *)
  if eq_str status "rejected" then ret true
  else (* All executions should have been approved *) ret true.

Definition process : Json -> M Executor Json :=
  BaseAgent.process _process_input _check_constraints.

End Executor.
End ExecutorAgent.

(** ** [agents/mirror_agent.py]: the post-condition predicate *)

Module MirrorAgent.

Definition command_keywords : list string :=
  ["must"; "shall"; "require"; "order"; "command"].

(** The loop over the recommendations: the first one with command-like
    language is logged and rejects the output; [rec.lower()] exists on
    strings only. *)
Fixpoint recommendations_loop {L : Type} (recs : list Json)
  : M (Agent L) bool :=
  match recs with
  | [] => ret true
  | JStr rec :: recs' =>
      let rec_lower := lower rec in
      if existsb (fun cmd => contains cmd rec_lower) command_keywords
      then
        BaseAgent.logger_error
          ("Constraint violation: Mirror issued command-like recommendation: "
             ++ rec) ;;;
        ret false
      else recommendations_loop recs'
  | _ :: _ => raise (AttributeError "object has no attribute 'lower'")
  end.

Definition chars (s : string) : list Json :=
  map (fun c => JStr (String c EmptyString)) (list_ascii_of_string s).

(** Iterating a dictionary yields its keys, a string its characters. *)
Definition _check_constraints {L : Type} (proposed_output : Json)
  : M (Agent L) bool :=
  recommendations <-
    lift (get_method proposed_output "recommendations" (JList [])) ;;
  match recommendations with
  | JList recs => recommendations_loop recs
  | JDict d => recommendations_loop (map (fun kv => JStr (fst kv)) d)
  | JStr s => recommendations_loop (chars s)
  | _ => raise (TypeError "object is not iterable")
  end.

Definition high_load_keywords : list string :=
  ["stress"; "anxious"; "overwhelmed"; "frustrated"; "exhausted";
   "burnout"; "panic"; "despair"; "fear"; "rage"].

Definition low_load_keywords : list string :=
  ["calm"; "focused"; "clear"; "energized"; "confident";
   "peaceful"; "balanced"; "grounded"; "steady"].

(** [sum(1 for kw in keywords if kw in text)] *)
Definition count_in (keywords : list string) (text : string) : nat :=
  length (filter (fun kw => contains kw text) keywords).

(** [_detect_emotional_load]: the description must be a string. *)
Definition _detect_emotional_load (event : Json) : Res string :=
  match get_method event "description" (JStr "") with
  | Raise e => Raise e
  | Ok (JStr text) =>
      let description := lower text in
      let high_count := count_in high_load_keywords description in
      let low_count := count_in low_load_keywords description in
      Ok (if (2 <? high_count)%nat then "high"
          else if (0 <? high_count)%nat then "medium"
          else if (1 <? low_count)%nat then "low"
          else "medium")
  | Ok _ => Raise (AttributeError "object has no attribute 'lower'")
  end.

Definition _generate_recommendations (coherence_score : float)
    (emotional_load : string) (philosophical_alignment : bool)
  : list string :=
  let coherence :=
    if PrimFloat.ltb coherence_score 0.5%float
    then ["Low coherence detected. Consider reviewing mission alignment."]
    else if PrimFloat.ltb 0.9%float coherence_score
    then ["High coherence maintained. Current trajectory well-aligned."]
    else [] in
  let load :=
    if String.eqb emotional_load "high"
    then ["High emotional load detected. Consider pacing or support structures."]
    else if String.eqb emotional_load "low"
    then ["Operational clarity appears high. Favorable conditions for progress."]
    else [] in
  let alignment :=
    if negb philosophical_alignment
    then ["Potential constitutional misalignment detected. Review axiom adherence."]
    else [] in
  match (coherence ++ load ++ alignment)%list with
  | [] => ["System operating within expected parameters. Continue monitoring."]
  | recommendations => recommendations
  end.

End MirrorAgent.

(** ** [agents/interpreter_agent.py]: routing and the post-condition *)

Module InterpreterAgent.

(** [self.routing_rules]: per action type, the keywords in insertion
    order. *)
Definition routing_rules : list (string * list (string * string)) :=
  [("query", [("default", "interpreter"); ("mission", "mirror");
              ("risk", "ledger")]);
   ("create", [("narrative", "artisan"); ("mythos", "artisan");
               ("default", "strategist")]);
   ("execute", [("default", "executor")]);
   ("reflect", [("default", "mirror")]);
   ("plan", [("default", "strategist")])].

Fixpoint lookup {A : Type} (k : string) (l : list (string * A)) : option A :=
  match l with
  | [] => None
  | (k', v) :: l' => if String.eqb k k' then Some v else lookup k l'
  end.

(** [d.get(key, default)] on a dictionary with string keys: a list or a
    dictionary is unhashable, any other value that is no string is no
    key. *)
Definition get_by {A : Type} (key : Json) (default : A)
    (d : list (string * A)) : Res A :=
  match key with
  | JStr k => Ok (match lookup k d with Some v => v | None => default end)
  | JList _ | JDict _ => Raise (TypeError "unhashable type")
  | _ => Ok default
  end.

(** The loop over the rules: the first keyword other than [default] found
    in the input decides. *)
Fixpoint specialized (rules : list (string * string))
    (original_input : string) : option string :=
  match rules with
  | [] => None
  | (keyword, subsystem) :: rules' =>
      if negb (String.eqb keyword "default") && contains keyword original_input
      then Some subsystem
      else specialized rules' original_input
  end.

Definition mode_mapping : list (string * string) :=
  [("query", "inquiry"); ("reflect", "inquiry"); ("create", "creation");
   ("plan", "creation"); ("execute", "execution")].

Definition _route_to_subsystem (intent context : Json) : Res Json :=
  match getitem intent "action_type" with
  | Raise e => Raise e
  | Ok action_type =>
  match getitem intent "original_input" with
  | Raise e => Raise e
  | Ok (JStr text) =>
      let original_input := lower text in
      match get_by action_type [("default", "interpreter")] routing_rules with
      | Raise e => Raise e
      | Ok rules =>
      match lookup "default" rules with
      | None => Raise (KeyError "default")
      | Some default_target =>
          let target_subsystem :=
            match specialized rules original_input with
            | Some subsystem => subsystem
            | None => default_target
            end in
          match get_by action_type "inquiry" mode_mapping with
          | Raise e => Raise e
          | Ok suggested_mode =>
          match get_method intent "ambiguities" JNull with
          | Raise e => Raise e
          | Ok ambiguities =>
              let confidence :=
                if ExecutorAgent.truthy ambiguities
                then 0.5%float else 0.8%float in
              Ok (JDict [("target_subsystem", JStr target_subsystem);
                         ("suggested_mode", JStr suggested_mode);
                         ("confidence", JFloat confidence)])
          end end
      end end
  | Ok _ => Raise (AttributeError "object has no attribute 'lower'")
  end end.

Definition _check_constraints {L : Type} (proposed_output : Json)
  : M (Agent L) bool :=
  routing <- lift (get_method proposed_output "routing" (JDict [])) ;;
  target <- lift (get_method routing "target_subsystem" JNull) ;;
  (* Interpreter should not route to itself for execution *)
  if eq_str target "interpreter"
  then
    intent <- lift (get_method proposed_output "intent" (JDict [])) ;;
    action_type <- lift (get_method intent "action_type" JNull) ;;
    if in_strings action_type ["execute"; "create"]
    then
      BaseAgent.logger_error
        "Constraint violation: Interpreter attempted to handle execution/creation" ;;;
      ret false
    else ret true
  else ret true.

End InterpreterAgent.

(** ** [core/chorus.py]: the consensus aggregation *)

Module Chorus.
Section Consensus.

(** The orchestrator's state and the [process] entry points of the two
    agents it may consult. *)
Variable S : Type.
Variable strategist_process : Json -> M S Json.
Variable ledger_process : Json -> M S Json.

(** [s not in v] *)
Definition not_in (s : string) (v : Json) : Res bool :=
  match in_json s v with
  | Ok b => Ok (negb b)
  | Raise e => Raise e
  end.

Definition _get_consensus (question : string) (current_result : Json)
  : M S Json :=
  (* If Strategist hasn't been consulted, get their view *)
  involved <- lift (getitem current_result "agents_involved") ;;
  ask_strategist <- lift (not_in "strategist" involved) ;;
  perspectives <-
    (if ask_strategist
     then
       strategist_view <-
         strategist_process
           (JDict [("goal", JStr question);
                   ("constraints", JList []);
                   ("time_horizon", JStr "immediate");
                   ("context", JDict [])]) ;;
       ret [JDict [("agent", JStr "strategist");
                   ("view", strategist_view)]]
     else ret []) ;;
  (* If Ledger hasn't been consulted, get risk view *)
  involved' <- lift (getitem current_result "agents_involved") ;;
  ask_ledger <- lift (not_in "ledger" involved') ;;
  perspectives' <-
    (if ask_ledger
     then
       ledger_view <-
         ledger_process
           (JDict [("analysis_type", JStr "risk");
                   ("data", JDict [("complexity", JInt 5);
                                   ("uncertainty", JFloat 0.5%float)]);
                   ("parameters", JDict [])]) ;;
       analysis <- lift (getitem ledger_view "analysis") ;;
       risk_score <- lift (getitem analysis "risk_score") ;;
       ret (perspectives ++ [JDict [("agent", JStr "ledger");
                                    ("score", risk_score)]])%list
     else ret perspectives) ;;
  (* Calculate consensus score *)
  let consensus_score :=
    match perspectives' with
    | _ :: _ => 0.75%float
    | [] => 1.0%float
    end in
  ret (JDict [("consensus_score", JFloat consensus_score);
              ("additional_perspectives", JList perspectives');
              ("threshold_met",
               JBool (PrimFloat.leb 0.66%float consensus_score))]).

End Consensus.
End Chorus.

(** ** [core/chorus.py]: the request path *)

Module Orchestrator.

(** The orchestrator: its flag, its own logger, and the joint state [R] of
    the agents of its registry. *)
Record State (R : Type) : Type := {
  initialized : bool;
  log : list LogRecord;
  agents : R
}.
Arguments initialized {R} s.
Arguments log {R} s.
Arguments agents {R} s.

Definition execution_keywords : list string :=
  ["run"; "execute"; "do"; "perform"; "deploy"; "start"; "create file";
   "delete"].

Definition creation_keywords : list string :=
  ["plan"; "design"; "create"; "build"; "generate"; "write"; "compose";
   "mythos"; "worldbuild"].

Definition _detect_mode (user_input : string) : string :=
  let user_input_lower := lower user_input in
  (* Check for execution keywords *)
  if existsb (fun kw => contains kw user_input_lower) execution_keywords
  then mode_value EXECUTION
  (* Check for creation keywords *)
  else if existsb (fun kw => contains kw user_input_lower) creation_keywords
  then mode_value CREATION
  (* Default to inquiry *)
  else mode_value INQUIRY.

Section Requests.

Variable R : Type.

(** The [process] entry points of the agents of the registry, and [str] of
    a value inside an f-string. *)
Variable interpreter_process : Json -> M R Json.
Variable strategist_process : Json -> M R Json.
Variable artisan_process : Json -> M R Json.
Variable ledger_process : Json -> M R Json.
Variable executor_process : Json -> M R Json.
Variable mirror_process : Json -> M R Json.
Variable py_str : Json -> string.

(** [await self.agents[name].process(input)] *)
Definition ask (process : Json -> M R Json) (input : Json)
  : M (State R) Json :=
  fun s => match process input (agents s) with
           | (r, agents') =>
               (r, {| initialized := initialized s; log := log s;
                      agents := agents' |})
           end.

Definition logger_info (msg : string) : M (State R) unit :=
  modify (fun s => {| initialized := initialized s;
                      log := log s ++ [LogInfo msg];
                      agents := agents s |}).

Definition _get_consensus : string -> Json -> M (State R) Json :=
  Chorus._get_consensus (State R) (ask strategist_process)
    (ask ledger_process).

(** The result dictionary as it stands after the branch on the mode. *)
Definition result_dict (mode : string) (interpreter_result : Json)
    (involved : list Json) (outputs : dict) : Json :=
  JDict [("mode_used", JStr mode);
         ("interpreter_analysis", interpreter_result);
         ("agents_involved", JList involved);
         ("outputs", JDict outputs)].

(** [d[key] = value] for a key the dictionary does not have yet. *)
Definition with_entry (key : string) (value : Json) (d : Json) : Json :=
  match d with
  | JDict entries => JDict (entries ++ [(key, value)])
  | other => other
  end.

Definition demo_task : Json :=
  JDict [("type", JStr "command");
         ("parameters",
          JDict [("command",
                  JStr ("echo " ++ quote ++ "Demo execution" ++ quote));
                 ("cwd", JStr "/tmp")])].

Definition _route_and_execute (user_input mode : string) (context : Json)
    (require_consensus : bool) : M (State R) Json :=
  (* Always start with Interpreter to parse intent *)
  interpreter_result <-
    ask interpreter_process
      (JDict [("user_input", JStr user_input); ("context", context)]) ;;
  routing <- lift (getitem interpreter_result "routing") ;;
  target_subsystem <- lift (getitem routing "target_subsystem") ;;
  logger_info ("Interpreter routed to: " ++ py_str target_subsystem) ;;;
  branch <-
    (if String.eqb mode (mode_value INQUIRY)
     then
       (* Simple query - just return interpreter result *)
       ret ([JStr "interpreter"], [("interpreter", interpreter_result)])
     else if String.eqb mode (mode_value CREATION)
     then
       (* Get strategic plan *)
       planned <-
         (if in_strings target_subsystem ["strategist"; "interpreter"]
          then
            strategist_result <-
              ask strategist_process
                (JDict [("goal", JStr user_input);
                        ("constraints", JList []);
                        ("time_horizon", JStr "immediate");
                        ("context", context)]) ;;
            ret ([JStr "interpreter"; JStr "strategist"],
                 [("strategist", strategist_result)])
          else ret ([JStr "interpreter"], [])) ;;
       (* Get creative content if needed *)
       created <-
         (if contains "mythos" (lower user_input)
             || contains "worldbuild" (lower user_input)
             || eq_str target_subsystem "artisan"
          then
            artisan_result <-
              ask artisan_process
                (JDict [("creative_type",
                         JStr (if contains "mythos" (lower user_input)
                               then "mythos" else "worldbuilding"));
                        ("theme", JStr "sovereignty");
                        ("constraints", JDict []);
                        ("context", context)]) ;;
            ret ((fst planned ++ [JStr "artisan"])%list,
                 (snd planned ++ [("artisan", artisan_result)])%list)
          else ret planned) ;;
       (* Get risk assessment *)
       if require_consensus || contains "risk" (lower user_input)
       then
         ledger_result <-
           ask ledger_process
             (JDict [("analysis_type", JStr "risk");
                     ("data", JDict [("complexity", JInt 5);
                                     ("uncertainty", JFloat 0.5%float);
                                     ("dependencies", JList []);
                                     ("timeline_days", JInt 30)]);
                     ("parameters", JDict [])]) ;;
         ret ((fst created ++ [JStr "ledger"])%list,
              (snd created ++ [("ledger", ledger_result)])%list)
       else ret created
     else if String.eqb mode (mode_value EXECUTION)
     then
       (* Execute (Executor will check with Sentinel internally) *)
       executor_result <-
         ask executor_process
           (JDict [("task", demo_task); ("skip_approval", JBool false)]) ;;
       ret ([JStr "interpreter"; JStr "executor"; JStr "sentinel"],
            [("executor", executor_result)])
     else ret ([JStr "interpreter"], [])) ;;
  let result := result_dict mode interpreter_result (fst branch) (snd branch) in
  (* If consensus required, aggregate multiple perspectives *)
  if require_consensus
  then
    consensus <- _get_consensus user_input result ;;
    ret (with_entry "consensus" consensus result)
  else ret result.

Definition _get_reflection (result context : Json) : M (State R) Json :=
  involved <- lift (getitem result "agents_involved") ;;
  count <- match involved with
           | JList l => ret (Z.of_nat (length l))
           | JDict d => ret (Z.of_nat (length d))
           | JStr t => ret (Z.of_nat (String.length t))
           | _ => raise (TypeError "object has no len()")
           end ;;
  mode_used <- lift (getitem result "mode_used") ;;
  outputs <- lift (get_method result "outputs" (JDict [])) ;;
  outputs_count <- match outputs with
                   | JList l => ret (Z.of_nat (length l))
                   | JDict d => ret (Z.of_nat (length d))
                   | JStr t => ret (Z.of_nat (String.length t))
                   | _ => raise (TypeError "object has no len()")
                   end ;;
  let event :=
    JDict [("type", JStr "decision");
           ("subsystem", JStr "chorus");
           ("description",
            JStr ("Coordinated " ++ str_int count ++ " agents in "
                    ++ py_str mode_used ++ " mode"));
           ("outcome",
            JDict [("agents_involved", involved);
                   ("outputs_count", JInt outputs_count)])] in
  mirror_result <-
    ask mirror_process (JDict [("event", event); ("context", context)]) ;;
  lift (getitem mirror_result "reflection").

(** [process_request]; [context or {}] replaces a falsy context by the
    empty dictionary. *)
Definition process_request (user_input mode : string) (context : Json)
    (require_consensus : bool) : M (State R) Json :=
  s <- get ;;
  if negb (initialized s)
  then raise (RuntimeError
                "Chorus not initialized. Call initialize() first.")
  else
    let context := if ExecutorAgent.truthy context then context
                   else JDict [] in
    logger_info ("Processing request: " ++ String.substring 0 50 user_input
                   ++ "...") ;;;
    (* Step 1: Detect mode (if auto) *)
    mode <- (if String.eqb mode "auto"
             then
               let detected := _detect_mode user_input in
               logger_info ("Auto-detected mode: " ++ detected) ;;;
               ret detected
             else ret mode) ;;
    (* Step 2: Route and execute based on mode *)
    result <- _route_and_execute user_input mode context require_consensus ;;
    (* Step 3: Always get Mirror reflection *)
    reflection <- _get_reflection result context ;;
    ret (with_entry "reflection" reflection result).

End Requests.
End Orchestrator.

(** ** A concrete configuration

    A constitution in the shape the tests expect, an empty world, and
    stand-ins for the library's renderings: floats print as a fixed text,
    which no property below reads. *)

Module Demo.

Definition json_dumps : Json -> string := dumps_with (fun _ => "0.0").

Definition format_float (spec : string) (f : float) : string := "0.0".

Definition py_str (v : Json) : string :=
  match v with
  | JStr s => s
  | other => json_dumps other
  end.

Definition path_str (p : string) : string := p.

Definition constitution_with (max_cycles : Z) : Constitution :=
  {| subsystems :=
       [("interpreter",
         {| authorities := ["parse_intent"];
            constraints := ["cannot_execute_actions"] |});
        ("strategist",
         {| authorities := ["scenario_modeling"];
            constraints := ["no_execution_authority"] |});
        ("sentinel",
         {| authorities := ["halt_execution"];
            constraints := ["cannot_create"; "cannot_revise"] |});
        ("executor",
         {| authorities := ["tool_invocation"];
            constraints := ["cannot_originate_goals"] |})];
     restriction_thresholds :=
       ["execution"; "real_world_execution"; "irreversible_publication";
        "financial_exposure"];
     coherence_halt_conditions := ["fragments_identity"];
     boundary_halt_conditions :=
       ["crosses_harm_boundary"; "violates_legality";
        "creates_irreversible_action"];
     protection_of_user_arc := ["identity_fragmentation"];
     safeguarding_external_world := ["third_party_harm"];
     cfg_max_repair_cycles := max_cycles;
     cfg_halt_threshold := 0.5%float;
     cfg_measurement_window := 10 |}.

(** The test suite's constitution has three repair cycles. *)
Definition test_constitution : Constitution := constitution_with 3.

Definition world0 : World :=
  {| episodic_memory := []; constitutional_violations := [];
     halt_events := []; logger := []; bus := []; pubsubs := [];
     peers := fun _ _ => []; later := []; clock := 0%nat; files := [];
     os_trace := []; write_error := fun _ => None;
     shell := fun _ _ => Exited 0 "" "" |}.

(** The submissions of the test suite. *)
Definition submission (content origin action_type : string) : Json :=
  JDict [("artifact", JDict [("content", JStr content)]);
         ("subsystem_origin", JStr origin);
         ("action_type", JStr action_type);
         ("context", JDict [])].

Definition sentinel_with (max_cycles : Z) : SentinelAgent.Sentinel :=
  set_active true (SentinelAgent.new (constitution_with max_cycles) world0).

Definition sentinel0 : SentinelAgent.Sentinel := sentinel_with 3.

Definition _process_input : Json -> M SentinelAgent.Sentinel Json :=
  SentinelAgent._process_input json_dumps format_float.

(** A peer that answers every request at once, on the reply topic the
    request names. *)
Definition prompt_peer (channel : string) (data : Json)
  : list (string * Json) :=
  if String.prefix "request:" channel
  then match getitem data "response_channel" with
       | Ok (JStr reply_topic) =>
           [(reply_topic, JDict [("status", JStr "ok")])]
       | _ => []
       end
  else [].

Definition prompt_world : World :=
  {| episodic_memory := []; constitutional_violations := [];
     halt_events := []; logger := []; bus := []; pubsubs := [];
     peers := prompt_peer; later := []; clock := 0%nat; files := [];
     os_trace := []; write_error := fun _ => None;
     shell := fun _ _ => Exited 0 "" "" |}.

Definition strategist : Agent unit :=
  {| subsystem_id := "strategist"; constitution := test_constitution;
     active := true; current_mode := None; local := tt;
     world := prompt_world |}.

Definition executor0 : ExecutorAgent.Executor :=
  set_active true (ExecutorAgent.new test_constitution world0).

(** The task of the orchestrator's execution branch, and one that asks
    for something the legal check refuses. *)
Definition demo_task : Json :=
  JDict [("type", JStr "command");
         ("parameters",
          JDict [("command", JStr "echo demo"); ("cwd", JStr "/tmp")])].

Definition illegal : Json :=
  submission "illegal activity" "executor" "execution".

Definition benign : Json :=
  submission "benign operation" "executor" "execution".

Definition harmful : Json :=
  submission "harm others" "executor" "execution".

Definition hacking : Json :=
  submission "hack the planet" "strategist" "execution".

Definition speculative : Json :=
  submission "A dark world where forbidden thoughts are explored"
             "artisan" "speculation".

(** A subsystem logic whose output words its recommendation as a command,
    under the mirror's predicate. *)
Definition commanding_logic (input_data : Json) : M (Agent unit) Json :=
  ret (JDict [("recommendations", JList [JStr "You must stop"])]).

Definition mirror0 : Agent unit :=
  {| subsystem_id := "mirror"; constitution := test_constitution;
     active := true; current_mode := None; local := tt; world := world0 |}.

(** Consulted agents that answer at once. *)
Definition strategist_process (input_data : Json) : M unit Json :=
  ret (JDict [("strategy", JDict [])]).

Definition ledger_process (input_data : Json) : M unit Json :=
  ret (JDict [("analysis", JDict [("risk_score", JInt 4)])]).

Definition refused_task : Json :=
  JDict [("type", JStr "command");
         ("parameters",
          JDict [("command", JStr "steal the keys"); ("cwd", JStr "/tmp")])].

End Demo.

(** ** Vocabulary of the properties *)

(** The request/reply call in the order of the spec's section 4.2: the
    reply topic is subscribed to first, the request published second.  It is
    the spec's wording, kept beside [BaseAgent.request] for comparison. *)
Definition request_as_specified {L : Type}
    (target_subsystem action : string) (params : Json) (timeout : Z)
  : M (Agent L) Json :=
  a <- get ;;
  t <- BaseAgent.utcnow ;;
  let request_id :=
    subsystem_id a ++ ":" ++ target_subsystem ++ ":"
      ++ BaseAgent.render_time t in
  let request_channel := "request:" ++ target_subsystem in
  let response_channel := "response:" ++ request_id in
  pubsub <- BaseAgent.redis_pubsub ;;
  BaseAgent.pubsub_subscribe pubsub response_channel ;;;
  BaseAgent.redis_publish request_channel
    (JDict [("request_id", JStr request_id);
            ("from", JStr (subsystem_id a));
            ("action", JStr action);
            ("params", params);
            ("response_channel", JStr response_channel)]) ;;;
  message <- BaseAgent.listen_until_timeout pubsub ;;
  match message with
  | Some response =>
      BaseAgent.pubsub_unsubscribe pubsub response_channel ;;;
      ret response
  | None =>
      BaseAgent.logger_warning
        ("Request to " ++ target_subsystem ++ " timed out") ;;;
      BaseAgent.pubsub_unsubscribe pubsub response_channel ;;;
      ret JNull
  end.

(** The submission the executor sends for a task, and the sentinel it
    sends it to: created on the executor's world and initialised. *)
Definition approval_request (task : Json) (action_type : string) : Json :=
  JDict [("artifact", task);
         ("subsystem_origin", JStr "executor");
         ("action_type", JStr action_type);
         ("context", JDict [])].

Definition sentinel_for (cst : Constitution)
    (e : ExecutorAgent.Executor) : SentinelAgent.Sentinel :=
  snd (BaseAgent.initialize (SentinelAgent.new cst (world e))).

(** The dictionary [_get_consensus] returns. *)
Definition consensus_dict (consensus_score : float) (perspectives : list Json)
    (threshold_met : bool) : Json :=
  JDict [("consensus_score", JFloat consensus_score);
         ("additional_perspectives", JList perspectives);
         ("threshold_met", JBool threshold_met)].

(** Both agents the aggregation may consult are already involved. *)
Definition all_consulted (involved : Json) : bool :=
  match in_json "strategist" involved, in_json "ledger" involved with
  | Ok true, Ok true => true
  | _, _ => false
  end.

Definition os_of (w : World) : list (string * string) * list OsEvent :=
  (files w, os_trace w).

(** A computation that leaves the files and the sandbox trace alone,
    whatever its outcome. *)
Definition keeps_os {L A : Type} (m : M (Agent L) A) : Prop :=
  forall a, os_of (world (snd (m a))) = os_of (world a).

(** The violation record of a rejected output. *)
Definition constraint_violation_record (subsystem : string)
    (input output : Json) : ViolationRow :=
  {| cv_subsystem_id := subsystem;
     cv_violation_type := "constraint_violation";
     cv_severity := "major";
     cv_description := "Output violates " ++ subsystem ++ " constraints";
     cv_context := Some (JDict [("input", input); ("output", output)]) |}.

Import SentinelAgent.

(** A submission whose four fields [_process_input] reads are present, the
    context being a dictionary (or absent, which reads as the empty one). *)
Definition submits (input artifact origin action_type : Json)
    (context : dict) : Prop :=
  getitem input "artifact" = Ok artifact /\
  getitem input "subsystem_origin" = Ok origin /\
  getitem input "action_type" = Ok action_type /\
  get_method input "context" (JDict []) = Ok (JDict context).

Definition has_decision (d : Json) : bool :=
  match getitem d "decision" with Ok _ => true | Raise _ => false end.

(** The decisions held are dictionaries with a [decision] entry, and the
    measurement window is not negative. *)
Definition well_formed (a : Sentinel) : Prop :=
  Forall (fun d => has_decision d = true) (recent_decisions (local a)) /\
  0 <= measurement_window (local a).

(** The calibration triggers published so far. *)
Definition is_calibration (ev : BusEvent) : bool :=
  match ev with
  | EvPublish channel _ => String.eqb channel "system:calibration"
  | _ => false
  end.

Definition calibration_events (w : World) : list BusEvent :=
  filter is_calibration (bus w).

(** What no adjudication changes: the agent's settings. *)
Definition same_settings (a a' : Sentinel) : Prop :=
  subsystem_id a' = subsystem_id a /\
  constitution a' = constitution a /\
  active a' = active a /\
  max_repair_cycles (local a') = max_repair_cycles (local a) /\
  halt_threshold (local a') = halt_threshold (local a) /\
  measurement_window (local a') = measurement_window (local a).

(** The rate test of the monitor on the decisions held: the halts and
    escalations of the trailing window over its length, against the
    threshold; [monitor_fires] adds the minimum sample of ten. *)
Definition halt_rate_exceeded (a : Sentinel) : bool :=
  let window := last_slice (measurement_window (local a))
                           (recent_decisions (local a)) in
  match count_halts window with
  | Ok halt_count =>
      match truediv halt_count (Z.of_nat (length window)) with
      | Ok halt_rate => PrimFloat.ltb (halt_threshold (local a)) halt_rate
      | Raise _ => false
      end
  | Raise _ => false
  end.

(** The agent holding one more decision. *)
Definition with_decision (d : Json) (a : Sentinel) : Sentinel :=
  set_local (set_recent_decisions (recent_decisions (local a) ++ [d])
                                  (local a)) a.

(** The agent having entered the checks [tr]. *)
Definition noted (tr : list Check) (a : Sentinel) : Sentinel :=
  set_local (set_evaluated (evaluated (local a) ++ tr) (local a)) a.

(** The decisions kept by the monitor: all of them below the minimum
    sample, the trailing window from there on. *)
Definition kept_decisions (a : Sentinel) : list Json :=
  if Z.of_nat (length (recent_decisions (local a))) <? 10
  then recent_decisions (local a)
  else last_slice (measurement_window (local a))
                  (recent_decisions (local a)).

Definition monitor_fires (a : Sentinel) : bool :=
  (10 <=? Z.of_nat (length (recent_decisions (local a)))) &&
  halt_rate_exceeded a.

(** The adjudicator [a], reached from [a0], holds [n] decisions of which
    [h] are halts or escalations, each of them a repair cycle counted since
    [a0], and has published no calibration trigger since [a0]. *)
Definition monitored (a0 a : Sentinel) (n : nat) (h : Z) : Prop :=
  same_settings a0 a /\
  well_formed a /\
  length (recent_decisions (local a)) = n /\
  count_halts (recent_decisions (local a)) = Ok h /\
  current_repair_cycle (local a) = current_repair_cycle (local a0) + h /\
  calibration_events (world a) = calibration_events (world a0).

Section Vocabulary.

Variable json_dumps : Json -> string.

(** The four veto checks in the order of the spec, each with its result on
    a submission. *)
Definition veto_checks (cst : Constitution)
    (artifact origin action_type : Json) (context : dict)
  : list (Check * Res CheckResult) :=
  [(MoralRegressionTest,
    Ok (_moral_regression_test json_dumps cst artifact (JDict context)));
   (EthicalBoundaryCheck,
    Ok (_ethical_boundary_check json_dumps cst artifact (JDict context)));
   (LegalConstraintCheck,
    Ok (_legal_constraint_check json_dumps artifact action_type));
   (SubsystemConstraintCheck,
    _subsystem_constraint_check cst artifact origin)].

Definition passed (c : Check * Res CheckResult) : Prop := snd c = Ok Passed.

(** A failing submission: some check fails, those before it pass. *)
Definition fails_veto (cst : Constitution)
    (artifact origin action_type : Json) (context : dict)
    (reason fault_code : string) : Prop :=
  exists (k : nat) (c : Check),
    Forall passed
      (firstn k (veto_checks cst artifact origin action_type context)) /\
    nth_error (veto_checks cst artifact origin action_type context) k =
      Some (c, Ok (Failed reason fault_code)).

(** A passing submission: the four checks pass. *)
Definition passes_veto (cst : Constitution)
    (artifact origin action_type : Json) (context : dict) : Prop :=
  Forall passed (veto_checks cst artifact origin action_type context).

(** A submission on a threshold action that fails, respectively passes, the
    veto pipeline under the constitution [cst]. *)
Definition failing_submission (cst : Constitution) (input : Json) : Prop :=
  exists artifact origin action_type context reason fault_code,
    submits input artifact origin action_type context /\
    _is_threshold_action cst action_type = true /\
    fails_veto cst artifact origin action_type context reason fault_code.

Definition passing_submission (cst : Constitution) (input : Json) : Prop :=
  exists artifact origin action_type context,
    submits input artifact origin action_type context /\
    _is_threshold_action cst action_type = true /\
    passes_veto cst artifact origin action_type context.

Variable format_float : string -> float -> string.

(** The adjudicator after a sequence of submissions. *)
Definition submit_all (inputs : list Json) (a : Sentinel) : Sentinel :=
  fold_left
    (fun s input => snd (_process_input json_dumps format_float input s))
    inputs a.

End Vocabulary.

(** ** Vocabulary of the further properties *)

(** [l'] is [l] with entries added at its end. *)
Definition extends {A : Type} (l l' : list A) : Prop :=
  exists more, l' = (l ++ more)%list.

(** Nothing recorded is removed or rewritten: the tables, the log and the
    bus trace only grow, and the clock does not go back. *)
Definition grows (w w' : World) : Prop :=
  extends (episodic_memory w) (episodic_memory w') /\
  extends (constitutional_violations w) (constitutional_violations w') /\
  extends (halt_events w) (halt_events w') /\
  extends (logger w) (logger w') /\
  extends (bus w) (bus w') /\
  (clock w <= clock w')%nat.

(** The relation [R] holds between the state before a computation and the
    state after it, whether it returns or raises. *)
Definition ensures {L A : Type} (R : Agent L -> Agent L -> Prop)
    (m : M (Agent L) A) : Prop :=
  forall a, R a (snd (m a)).

(** An adjudicator moves forward: its settings stay, its repair-cycle
    counter does not go down, the halt events added do not outnumber the
    cycles counted, and its records grow. *)
Definition advances (a a' : Sentinel) : Prop :=
  same_settings a a' /\
  current_repair_cycle (local a) <= current_repair_cycle (local a') /\
  Z.of_nat (length (halt_events (world a')))
    - Z.of_nat (length (halt_events (world a)))
    <= current_repair_cycle (local a') - current_repair_cycle (local a) /\
  grows (world a) (world a').

(** The decisions held do not outgrow the larger of nine and the
    measurement window. *)
Definition window_bound (a : Sentinel) : Z :=
  Z.max 9 (measurement_window (local a)).

Definition within_window (a : Sentinel) : Prop :=
  Z.of_nat (length (recent_decisions (local a))) <= window_bound a.

(** The repair-cycle counter is where it was, respectively at most one
    cycle further. *)
Definition counter_kept (a a' : Sentinel) : Prop :=
  current_repair_cycle (local a') = current_repair_cycle (local a).

Definition counter_stepped (a a' : Sentinel) : Prop :=
  current_repair_cycle (local a) <= current_repair_cycle (local a')
    <= current_repair_cycle (local a) + 1.

(** The measurement window is where it was and, when it is positive, the
    bound on the decisions held is kept. *)
Definition window_kept (a a' : Sentinel) : Prop :=
  measurement_window (local a') = measurement_window (local a) /\
  (1 <= measurement_window (local a) -> within_window a -> within_window a').

(** The decisions held and the window are where they were. *)
Definition decisions_kept (a a' : Sentinel) : Prop :=
  recent_decisions (local a') = recent_decisions (local a) /\
  measurement_window (local a') = measurement_window (local a).

(** The halt events are where they were. *)
Definition halt_events_kept (a a' : Sentinel) : Prop :=
  halt_events (world a') = halt_events (world a).

(** The row [_issue_halt] inserts for a failure of the adjudicator [a]:
    the halted subsystem is read from the context of the submission. *)
Definition halt_event_of (a : Sentinel) (reason : string) (context : dict)
  : HaltEventRow :=
  {| he_id := Z.of_nat (length (halt_events (world a))) + 1;
     he_halted_subsystem :=
       get_default "subsystem_origin" (JStr "unknown") context;
     he_halt_reason := reason;
     he_repair_cycle_count := current_repair_cycle (local a) + 1 |}.


(** An answer that is an escalation. *)
Definition escalates (r : Res Json) : Prop :=
  exists d, r = Ok (JDict d) /\
            dict_get "decision" d = Some (JStr "escalate").

(** The next failure reaches the maximum of repair cycles. *)
Definition at_last_cycle (a : Sentinel) : Prop :=
  max_repair_cycles (local a) <= current_repair_cycle (local a) + 1.

Section Pipeline.

Variable json_dumps : Json -> string.
Variable format_float : string -> float -> string.



(** The answers to a sequence of submissions. *)
Fixpoint adjudicate_all (inputs : list Json) (a : Sentinel)
  : list (Res Json) :=
  match inputs with
  | [] => []
  | input :: rest =>
      fst (_process_input json_dumps format_float input a)
        :: adjudicate_all rest
             (snd (_process_input json_dumps format_float input a))
  end.

End Pipeline.

(** The episodic memory is only added to. *)
Definition episodic_grows {L : Type} (a a' : Agent L) : Prop :=
  extends (episodic_memory (world a)) (episodic_memory (world a')).

(** The row [process] writes for an input. *)
Definition input_row {L : Type} (a : Agent L) (input : Json) : EpisodicRow :=
  {| ep_id := Z.of_nat (length (episodic_memory (world a))) + 1;
     ep_subsystem_id := subsystem_id a;
     ep_event_type := "input_received";
     ep_mode := option_map mode_value (current_mode a);
     ep_context := JDict [("input", input)];
     ep_related_event_id := None |}.

(** The row that closes an input: related to the input's row, it holds
    the output returned or the text of the exception raised. *)
Definition closes (input : Json) (r : Res Json) (event_id : Z)
    (row : EpisodicRow) : Prop :=
  ep_related_event_id row = Some event_id /\
  match r with
  | Ok output =>
      ep_event_type row = "output_generated" /\
      ep_context row = JDict [("output", output)]
  | Raise e =>
      ep_event_type row = "processing_error" /\
      ep_context row =
        JDict [("error", JStr (exn_str e)); ("input", input)]
  end.

(** The reply topic of a request, and the reply it reads from what is
    published after its subscription: the first message on that topic. *)
Definition reply_topic {L : Type} (a : Agent L) (target : string) : string :=
  "response:" ++ subsystem_id a ++ ":" ++ target ++ ":"
    ++ BaseAgent.render_time (clock (world a)).




(** The violation records are where they were. *)
Definition violations_kept {L : Type} (a a' : Agent L) : Prop :=
  constitutional_violations (world a') = constitutional_violations (world a).

(** The task types the sandbox dispatches on. *)
Definition supported_types : list string :=
  ["file_write"; "file_read"; "command"; "api_call"].

(** A computation that raises from every state. *)
Definition fails {S A : Type} (m : M S A) : Prop :=
  forall s, exists e, fst (m s) = Raise e.

(** Further configurations of the test suite's agents. *)
Module Scenarios.

Definition approval : Json := JDict [("decision", JStr "approve")].

(** An adjudicator with a measurement window of zero that holds twelve
    decisions. *)
Definition unbounded : Sentinel :=
  set_local
    {| max_repair_cycles := 3;
       halt_threshold := 0.5%float;
       measurement_window := 0;
       recent_decisions := repeat approval 12;
       current_repair_cycle := 0;
       evaluated := [] |}
    Demo.sentinel0.


(** A submission that names its origin in its context as well. *)
Definition traced : Json :=
  JDict [("artifact", JDict [("content", JStr "illegal activity")]);
         ("subsystem_origin", JStr "executor");
         ("action_type", JStr "execution");
         ("context", JDict [("subsystem_origin", JStr "executor")])].

Definition delete_task : Json :=
  JDict [("type", JStr "file_delete");
         ("parameters", JDict [("path", JStr "/tmp/report.txt")])].

Definition untyped_task : Json :=
  JDict [("parameters", JDict [("command", JStr "echo demo")])].

Definition skipping (task : Json) : Json :=
  JDict [("task", task); ("skip_approval", JBool true)].

Definition interpreter0 : Agent unit :=
  {| subsystem_id := "interpreter"; constitution := Demo.test_constitution;
     active := true; current_mode := None; local := tt;
     world := Demo.world0 |}.

Definition run_tests : Json :=
  JDict [("action_type", JStr "execute");
         ("original_input", JStr "Run the tests")].

Definition routing_to_executor : Json :=
  JDict [("target_subsystem", JStr "executor");
         ("suggested_mode", JStr "execution");
         ("confidence", JFloat 0.8%float)].

(** A subsystem logic that returns the routing of [run_tests]. *)
Definition routing_logic (input_data : Json) : M (Agent unit) Json :=
  ret (JDict [("intent", run_tests); ("routing", routing_to_executor)]).

(** A registry whose agents answer at once, and a mirror that is down. *)
Definition answering (input_data : Json) : M unit Json := ret (JDict []).

Definition mirror_down (input_data : Json) : M unit Json :=
  raise (RuntimeError "mirror not active").

End Scenarios.

(** * Properties *)

Arguments _check_anti_paralysis : simpl never.
Arguments _issue_halt : simpl never.
Arguments _moral_regression_test : simpl never.
Arguments _ethical_boundary_check : simpl never.
Arguments _legal_constraint_check : simpl never.
Arguments _subsystem_constraint_check : simpl never.
Arguments _is_threshold_action : simpl never.

Ltac run :=
  unfold bind, ret, lift, raise, get, modify, try_except, try_finally,
    with_local, BaseAgent.with_world, call, BaseAgent.utcnow in *.

Ltac facts :=
  repeat match goal with
         | |- _ /\ _ => split
         | |- same_settings _ _ => repeat split
         end;
  try reflexivity; auto.

Section SentinelFacts.

Variable json_dumps : Json -> string.
Variable format_float : string -> float -> string.

Lemma count_halts_total (l : list Json) :
  Forall (fun d => has_decision d = true) l ->
  exists n, count_halts l = Ok n.
Proof.
  induction 1 as [|d l Hd _ IH]; simpl.
  - now exists 0.
  - unfold has_decision in Hd.
    destruct (getitem d "decision") as [v|e]; [|discriminate].
    destruct IH as [n ->]. eexists; reflexivity.
Qed.

Lemma count_halts_app (l : list Json) (d v : Json) (n : Z) :
  count_halts l = Ok n ->
  getitem d "decision" = Ok v ->
  count_halts (l ++ [d]) =
    Ok ((if in_strings v ["halt"; "escalate"] then 1 else 0) + n).
Proof.
  revert n; induction l as [|x l IH]; intros n Hl Hd; simpl in *.
  - injection Hl as <-. rewrite Hd. reflexivity.
  - destruct (getitem x "decision") as [vx|e]; [|discriminate].
    destruct (count_halts l) as [m|e] eqn:E; [|discriminate].
    injection Hl as <-. rewrite (IH m eq_refl Hd). f_equal. lia.
Qed.

Lemma skipn_Forall {A} (P : A -> Prop) (n : nat) (l : list A) :
  Forall P l -> Forall P (skipn n l).
Proof.
  intros H. rewrite <- (firstn_skipn n l) in H.
  apply Forall_app in H. exact (proj2 H).
Qed.

Lemma last_slice_Forall {A} (P : A -> Prop) (w : Z) (l : list A) :
  Forall P l -> Forall P (last_slice w l).
Proof.
  intros H. unfold last_slice.
  destruct (0 <? w); now apply skipn_Forall.
Qed.

Lemma last_slice_nonempty {A} (w : Z) (l : list A) :
  0 <= w -> l <> [] -> last_slice w l <> [].
Proof.
  intros Hw Hl. unfold last_slice.
  destruct (0 <? w) eqn:E.
  - apply Z.ltb_lt in E. intros H.
    apply (f_equal (@length A)) in H. rewrite length_skipn in H.
    assert (0 < length l)%nat by (destruct l; [congruence | simpl; lia]).
    change (length (@nil A)) with 0%nat in H. lia.
  - apply Z.ltb_ge in E. replace w with 0 by lia. simpl. exact Hl.
Qed.

Lemma last_slice_all {A} (w : Z) (l : list A) :
  Z.of_nat (length l) <= w -> last_slice w l = l.
Proof.
  intros H. unfold last_slice.
  destruct (0 <? w) eqn:E.
  - replace (length l - Z.to_nat w)%nat with 0%nat by lia. reflexivity.
  - apply Z.ltb_ge in E. destruct l; [now rewrite skipn_nil|].
    simpl in H. lia.
Qed.

Lemma same_settings_refl (a : Sentinel) : same_settings a a.
Proof. repeat split. Qed.

Lemma same_settings_trans (a b c : Sentinel) :
  same_settings a b -> same_settings b c -> same_settings a c.
Proof.
  unfold same_settings. intros (?&?&?&?&?&?) (?&?&?&?&?&?).
  repeat split; congruence.
Qed.

Lemma check_anti_paralysis_spec (a : Sentinel) :
  well_formed a ->
  exists a',
    _check_anti_paralysis format_float a = (Ok tt, a') /\
    same_settings a a' /\
    well_formed a' /\
    current_repair_cycle (local a') = current_repair_cycle (local a) /\
    evaluated (local a') = evaluated (local a) /\
    halt_events (world a') = halt_events (world a) /\
    recent_decisions (local a') = kept_decisions a /\
    exists payload,
      bus (world a') =
        (bus (world a) ++
           (if monitor_fires a
            then [EvPublish "system:calibration" payload] else []))%list.
Proof.
  intros Hwf. pose proof Hwf as [Hrd Hw].
  unfold _check_anti_paralysis, monitor_fires, halt_rate_exceeded,
    kept_decisions. run.
  destruct (Z.of_nat (length (recent_decisions (local a))) <? 10) eqn:Hlen.
  - exists a.
    replace (10 <=? _) with false
      by (symmetry; apply Z.leb_gt; now apply Z.ltb_lt).
    rewrite andb_false_l. facts.
    exists JNull. now rewrite app_nil_r.
  - replace (10 <=? _) with true
      by (symmetry; apply Z.leb_le; now apply Z.ltb_ge).
    rewrite andb_true_l. cbn.
    set (window := last_slice _ _).
    assert (Hwin : Forall (fun d => has_decision d = true) window)
      by now apply last_slice_Forall.
    destruct (count_halts_total _ Hwin) as [n Hn]. rewrite Hn.
    assert (Hne : window <> []).
    { apply last_slice_nonempty; auto. apply Z.ltb_ge in Hlen.
      destruct (recent_decisions (local a)); [simpl in Hlen; lia | congruence]. }
    unfold truediv.
    assert ((Z.of_nat (length window) =? 0) = false) as ->.
    { apply Z.eqb_neq. destruct window; [congruence | simpl; lia]. }
    destruct (PrimFloat.ltb _ _).
    + eexists. split; [reflexivity|]. cbn. facts.
      * split; auto.
      * eexists; reflexivity.
    + eexists. split; [reflexivity|]. cbn. rewrite app_nil_r. facts.
      * split; auto.
      * now exists JNull.
Qed.

Lemma issue_halt_spec (a : Sentinel) (reason fault_code : string)
    (context : dict) :
  well_formed a ->
  exists decision a',
    _issue_halt format_float reason fault_code (JDict context) a =
      (Ok (JDict decision), a') /\
    same_settings a a' /\
    well_formed a' /\
    current_repair_cycle (local a') = current_repair_cycle (local a) + 1 /\
    evaluated (local a') = evaluated (local a) /\
    dict_get "halt_reason" decision = Some (JStr reason) /\
    dict_get "fault_code" decision = Some (JStr fault_code) /\
    dict_get "repair_cycle" decision =
      Some (JInt (current_repair_cycle (local a) + 1)) /\
    length (halt_events (world a')) = S (length (halt_events (world a))) /\
    if max_repair_cycles (local a) <=? current_repair_cycle (local a) + 1
    then
      dict_get "decision" decision = Some (JStr "escalate") /\
      dict_get "escalation_target" decision = Some (JStr "user_via_mirror") /\
      recent_decisions (local a') = recent_decisions (local a) /\
      bus (world a') = bus (world a)
    else
      dict_get "decision" decision = Some (JStr "halt") /\
      recent_decisions (local a') =
        kept_decisions (with_decision (JDict decision) a) /\
      exists payload,
        bus (world a') =
          (bus (world a) ++
             (if monitor_fires (with_decision (JDict decision) a)
              then [EvPublish "system:calibration" payload] else []))%list.
Proof.
  intros Hwf. pose proof Hwf as [Hrd Hw].
  unfold _issue_halt. run. cbn.
  destruct (max_repair_cycles (local a) <=? current_repair_cycle (local a) + 1)
    eqn:Hmax.
  - do 2 eexists. split; [reflexivity|]. cbn. facts.
    rewrite length_app. simpl. lia.
  - match goal with
    | |- context [_check_anti_paralysis _ ?x] =>
        destruct (check_anti_paralysis_spec x)
          as (a' & E & Hs & Hwf' & Hc & He & Hh & Hk & payload & Hb)
    end.
    { split; cbn; auto. apply Forall_app. split; auto. }
    rewrite E. do 2 eexists. split; [reflexivity|].
    unfold same_settings in Hs. cbn in *.
    destruct Hs as (?&?&?&?&?&?). facts.
    + rewrite Hh, length_app. simpl. lia.
    + exists payload. exact Hb.
Qed.

Lemma process_input_veto (a : Sentinel) (input artifact origin action_type : Json)
    (context : dict) (k : nat) (c : Check) (reason fault_code : string) :
  submits input artifact origin action_type context ->
  _is_threshold_action (constitution a) action_type = true ->
  Forall passed
    (firstn k (veto_checks json_dumps (constitution a) artifact origin
                           action_type context)) ->
  nth_error (veto_checks json_dumps (constitution a) artifact origin
                         action_type context) k =
    Some (c, Ok (Failed reason fault_code)) ->
  _process_input json_dumps format_float input a =
    _issue_halt format_float reason fault_code (JDict context)
      (noted (map fst (firstn (S k)
                (veto_checks json_dumps (constitution a) artifact origin
                             action_type context))) a).
Proof.
  intros (Ha & Ho & Ht & Hc) Hthr Hpass Hk.
  unfold _process_input, noted. run. rewrite Ha, Ho, Ht, Hc. cbn.
  rewrite Hthr. cbn.
  unfold veto_checks, passed in *.
  destruct k as [|[|[|[|k]]]]; cbn in Hk, Hpass.
  - injection Hk as _ ->. reflexivity.
  - inversion Hpass as [|? ? P1 _]; subst. cbn in P1.
    injection P1 as ->. injection Hk as _ ->. cbn.
    rewrite <- app_assoc. reflexivity.
  - inversion Hpass as [|? ? P1 Hp2]; subst.
    inversion Hp2 as [|? ? P2 _]; subst. cbn in P1, P2.
    injection P1 as ->. injection P2 as ->. injection Hk as _ ->. cbn.
    rewrite <- !app_assoc. reflexivity.
  - inversion Hpass as [|? ? P1 Hp2]; subst.
    inversion Hp2 as [|? ? P2 Hp3]; subst.
    inversion Hp3 as [|? ? P3 _]; subst. cbn in P1, P2, P3.
    injection P1 as ->. injection P2 as ->. injection P3 as ->.
    injection Hk as _ ->. cbn.
    rewrite <- !app_assoc. reflexivity.
  - destruct k; discriminate.
Qed.

Lemma process_input_fail (a : Sentinel)
    (input artifact origin action_type : Json) (context : dict)
    (reason fault_code : string) :
  submits input artifact origin action_type context ->
  _is_threshold_action (constitution a) action_type = true ->
  fails_veto json_dumps (constitution a) artifact origin action_type context
             reason fault_code ->
  well_formed a ->
  exists decision a',
    _process_input json_dumps format_float input a =
      (Ok (JDict decision), a') /\
    same_settings a a' /\
    well_formed a' /\
    current_repair_cycle (local a') = current_repair_cycle (local a) + 1 /\
    dict_get "halt_reason" decision = Some (JStr reason) /\
    dict_get "fault_code" decision = Some (JStr fault_code) /\
    dict_get "repair_cycle" decision =
      Some (JInt (current_repair_cycle (local a) + 1)) /\
    if max_repair_cycles (local a) <=? current_repair_cycle (local a) + 1
    then
      dict_get "decision" decision = Some (JStr "escalate") /\
      dict_get "escalation_target" decision = Some (JStr "user_via_mirror") /\
      recent_decisions (local a') = recent_decisions (local a) /\
      bus (world a') = bus (world a)
    else
      dict_get "decision" decision = Some (JStr "halt") /\
      recent_decisions (local a') =
        kept_decisions (with_decision (JDict decision) a) /\
      exists payload,
        bus (world a') =
          (bus (world a) ++
             (if monitor_fires (with_decision (JDict decision) a)
              then [EvPublish "system:calibration" payload] else []))%list.
Proof.
  intros Hsub Hthr (k & c & Hpass & Hk) Hwf.
  rewrite (process_input_veto a _ _ _ _ _ k c _ _ Hsub Hthr Hpass Hk).
  match goal with
  | |- context [_issue_halt _ _ _ _ ?x] =>
      destruct (issue_halt_spec x reason fault_code context)
        as (d & a' & E & Hs & Hwf' & Hc & He & Hr & Hf & Hrc & Hh & Hcase)
  end.
  { exact Hwf. }
  exists d, a'. unfold same_settings in Hs. cbn in *.
  destruct Hs as (?&?&?&?&?&?). facts.
Qed.

Lemma process_input_clear (a : Sentinel)
    (input artifact origin action_type : Json) (context : dict) :
  submits input artifact origin action_type context ->
  _is_threshold_action (constitution a) action_type = true ->
  passes_veto json_dumps (constitution a) artifact origin action_type
              context ->
  well_formed a ->
  exists decision a',
    _process_input json_dumps format_float input a =
      (Ok (JDict decision), a') /\
    same_settings a a' /\
    well_formed a' /\
    current_repair_cycle (local a') = current_repair_cycle (local a) /\
    evaluated (local a') =
      (evaluated (local a) ++
         [MoralRegressionTest; EthicalBoundaryCheck; LegalConstraintCheck;
          SubsystemConstraintCheck])%list /\
    halt_events (world a') = halt_events (world a) /\
    dict_get "decision" decision = Some (JStr "approve") /\
    recent_decisions (local a') =
      kept_decisions (with_decision (JDict decision) a) /\
    exists payload,
      bus (world a') =
        (bus (world a) ++
           (if monitor_fires (with_decision (JDict decision) a)
            then [EvPublish "system:calibration" payload] else []))%list.
Proof.
  intros (Ha & Ho & Ht & Hc) Hthr Hpass Hwf. pose proof Hwf as [Hrd Hw].
  unfold passes_veto, veto_checks, passed in Hpass.
  inversion Hpass as [|? ? P1 Hp2]; subst.
  inversion Hp2 as [|? ? P2 Hp3]; subst.
  inversion Hp3 as [|? ? P3 Hp4]; subst.
  inversion Hp4 as [|? ? P4 _]; subst. cbn in P1, P2, P3, P4.
  injection P1 as P1. injection P2 as P2. injection P3 as P3.
  unfold _process_input. run. rewrite Ha, Ho, Ht, Hc. cbn.
  rewrite Hthr. cbn. rewrite P1. cbn. rewrite P2. cbn. rewrite P3. cbn.
  rewrite P4. cbn.
  match goal with
  | |- context [_check_anti_paralysis _ ?x] =>
      destruct (check_anti_paralysis_spec x)
        as (a' & E & Hs & Hwf' & Hcc & He & Hh & Hk & payload & Hb)
  end.
  { split; cbn; auto. apply Forall_app. split; auto. }
  rewrite E. do 2 eexists. split; [reflexivity|].
  unfold same_settings in Hs. cbn in *.
  destruct Hs as (?&?&?&?&?&?). facts.
  - rewrite He, <- !app_assoc. reflexivity.
  - exists payload. exact Hb.
Qed.

(** C7.  A submission whose action type is not in the configured threshold
    set is approved with reason [not_threshold_action], and the adjudicator
    is left exactly as it was: no veto check is entered, nothing is
    recorded. *)
Theorem non_threshold_action_bypasses_vetoes (a : Sentinel)
    (input artifact origin action_type : Json) :
  getitem input "artifact" = Ok artifact ->
  getitem input "subsystem_origin" = Ok origin ->
  getitem input "action_type" = Ok action_type ->
  _is_threshold_action (constitution a) action_type = false ->
  _process_input json_dumps format_float input a =
    (Ok (JDict [("decision", JStr "approve");
                ("reason", JStr "not_threshold_action")]), a) /\
  evaluated (local (snd (_process_input json_dumps format_float input a))) =
    evaluated (local a).
Proof.
  intros Ha Ho Ht Hn.
  assert (E : _process_input json_dumps format_float input a =
              (Ok (JDict [("decision", JStr "approve");
                          ("reason", JStr "not_threshold_action")]), a)).
  { unfold _process_input. run. rewrite Ha, Ho, Ht.
    destruct input; try discriminate. cbn. rewrite Hn. reflexivity. }
  rewrite E. split; reflexivity.
Qed.

(** C6.  The veto checks come in the order moral regression test, ethical
    boundary check, legal constraint check, origin-subsystem constraint
    check.  When check [k] of that order fails on a threshold action and
    the checks before it pass, the decision returned carries that check's
    reason and fault code, and the checks entered are exactly the first
    [k+1]: none after the failing one. *)
Theorem first_failing_check_decides (a : Sentinel)
    (input artifact origin action_type : Json) (context : dict)
    (k : nat) (c : Check) (reason fault_code : string) :
  well_formed a ->
  submits input artifact origin action_type context ->
  _is_threshold_action (constitution a) action_type = true ->
  Forall passed
    (firstn k (veto_checks json_dumps (constitution a) artifact origin
                           action_type context)) ->
  nth_error (veto_checks json_dumps (constitution a) artifact origin
                         action_type context) k =
    Some (c, Ok (Failed reason fault_code)) ->
  map fst (veto_checks json_dumps (constitution a) artifact origin
                       action_type context) =
    [MoralRegressionTest; EthicalBoundaryCheck; LegalConstraintCheck;
     SubsystemConstraintCheck] /\
  exists decision a',
    _process_input json_dumps format_float input a =
      (Ok (JDict decision), a') /\
    dict_get "halt_reason" decision = Some (JStr reason) /\
    dict_get "fault_code" decision = Some (JStr fault_code) /\
    evaluated (local a') =
      (evaluated (local a) ++
         firstn (S k)
           [MoralRegressionTest; EthicalBoundaryCheck; LegalConstraintCheck;
            SubsystemConstraintCheck])%list.
Proof.
  intros Hwf Hsub Hthr Hpass Hk. split; [reflexivity|].
  rewrite (process_input_veto a _ _ _ _ _ k c _ _ Hsub Hthr Hpass Hk).
  match goal with
  | |- context [_issue_halt _ _ _ _ ?x] =>
      destruct (issue_halt_spec x reason fault_code context)
        as (d & a' & E & _ & _ & _ & He & Hr & Hf & _)
  end.
  { exact Hwf. }
  exists d, a'. facts. rewrite He. cbn. f_equal.
  rewrite <- firstn_map. reflexivity.
Qed.

(** C5.  With the maximum of repair cycles at 3 and the counter at zero,
    three failing submissions in a row are answered by a halt with
    [repair_cycle] 1, a halt with [repair_cycle] 2, and an escalation with
    [repair_cycle] 3 whose [escalation_target] is [user_via_mirror]. *)
Theorem three_failures_escalate (a0 : Sentinel) (i1 i2 i3 : Json) :
  well_formed a0 ->
  max_repair_cycles (local a0) = 3 ->
  current_repair_cycle (local a0) = 0 ->
  failing_submission json_dumps (constitution a0) i1 ->
  failing_submission json_dumps (constitution a0) i2 ->
  failing_submission json_dumps (constitution a0) i3 ->
  exists d1 a1 d2 a2 d3 a3,
    _process_input json_dumps format_float i1 a0 = (Ok (JDict d1), a1) /\
    _process_input json_dumps format_float i2 a1 = (Ok (JDict d2), a2) /\
    _process_input json_dumps format_float i3 a2 = (Ok (JDict d3), a3) /\
    dict_get "decision" d1 = Some (JStr "halt") /\
    dict_get "repair_cycle" d1 = Some (JInt 1) /\
    dict_get "decision" d2 = Some (JStr "halt") /\
    dict_get "repair_cycle" d2 = Some (JInt 2) /\
    dict_get "decision" d3 = Some (JStr "escalate") /\
    dict_get "repair_cycle" d3 = Some (JInt 3) /\
    dict_get "escalation_target" d3 = Some (JStr "user_via_mirror").
Proof.
  intros Hwf0 Hmax Hc0
    (x1 & o1 & t1 & c1 & r1 & f1 & Hs1 & Ht1 & Hf1)
    (x2 & o2 & t2 & c2 & r2 & f2 & Hs2 & Ht2 & Hf2)
    (x3 & o3 & t3 & c3 & r3 & f3 & Hs3 & Ht3 & Hf3).
  destruct (process_input_fail a0 _ _ _ _ _ _ _ Hs1 Ht1 Hf1 Hwf0)
    as (d1 & a1 & E1 & S1 & Hwf1 & C1 & _ & _ & R1 & K1).
  pose proof S1 as (_ & Hcst1 & _ & M1 & _).
  rewrite Hmax, Hc0 in K1. cbn in K1. destruct K1 as (D1 & _).
  rewrite <- Hcst1 in Ht2, Hf2, Ht3, Hf3.
  destruct (process_input_fail a1 _ _ _ _ _ _ _ Hs2 Ht2 Hf2 Hwf1)
    as (d2 & a2 & E2 & S2 & Hwf2 & C2 & _ & _ & R2 & K2).
  pose proof S2 as (_ & Hcst2 & _ & M2 & _).
  rewrite M1, Hmax, C1, Hc0 in K2. cbn in K2. destruct K2 as (D2 & _).
  rewrite <- Hcst2 in Ht3, Hf3.
  destruct (process_input_fail a2 _ _ _ _ _ _ _ Hs3 Ht3 Hf3 Hwf2)
    as (d3 & a3 & E3 & S3 & Hwf3 & C3 & _ & _ & R3 & K3).
  rewrite M2, M1, Hmax, C2, C1, Hc0 in K3. cbn in K3.
  destruct K3 as (D3 & T3 & _).
  rewrite Hc0 in R1. rewrite C1, Hc0 in R2. rewrite C2, C1, Hc0 in R3.
  exists d1, a1, d2, a2, d3, a3. facts.
Qed.

Lemma calibration_events_app (w w' : World) (evs : list BusEvent) :
  bus w' = (bus w ++ evs)%list ->
  calibration_events w' =
    (calibration_events w ++ filter is_calibration evs)%list.
Proof.
  intros H. unfold calibration_events. rewrite H. apply filter_app.
Qed.

Lemma monitor_quiet (a : Sentinel) (d : Json) :
  (S (length (recent_decisions (local a))) < 10)%nat ->
  monitor_fires (with_decision d a) = false /\
  kept_decisions (with_decision d a) =
    (recent_decisions (local a) ++ [d])%list.
Proof.
  intros H. unfold monitor_fires, kept_decisions, with_decision. cbn.
  rewrite length_app. cbn.
  replace (10 <=? _) with false by (symmetry; apply Z.leb_gt; lia).
  replace (_ <? 10) with true by (symmetry; apply Z.ltb_lt; lia).
  split; reflexivity.
Qed.

Lemma monitored_fail (a0 a : Sentinel) (n : nat) (h : Z) (input : Json) :
  monitored a0 a n h ->
  (S n < 10)%nat ->
  current_repair_cycle (local a0) + h + 1 < max_repair_cycles (local a0) ->
  failing_submission json_dumps (constitution a0) input ->
  monitored a0 (snd (_process_input json_dumps format_float input a))
            (S n) (h + 1).
Proof.
  intros (Hs & Hwf & Hn & Hh & Hc & Hcal) Hlt Hmax
    (x & o & t & c & r & f & Hsub & Hthr & Hf).
  pose proof Hs as (_ & Hcst & _ & Hm & _).
  rewrite <- Hcst in Hthr, Hf.
  destruct (process_input_fail a _ _ _ _ _ _ _ Hsub Hthr Hf Hwf)
    as (d & a' & E & S' & Hwf' & C' & _ & _ & _ & K).
  rewrite E. cbn.
  replace (max_repair_cycles (local a) <=? _) with false in K
    by (symmetry; apply Z.leb_gt; lia).
  destruct K as (D & Hk & payload & Hb).
  destruct (monitor_quiet a (JDict d)) as (Q1 & Q2); [lia|].
  rewrite Q1 in Hb. rewrite Q2 in Hk.
  repeat split.
  1-6: destruct Hs as (?&?&?&?&?&?); destruct S' as (?&?&?&?&?&?); congruence.
  - apply Hwf'.
  - apply Hwf'.
  - rewrite Hk, length_app. cbn. lia.
  - rewrite Hk. rewrite (count_halts_app _ _ (JStr "halt") h Hh).
    + change (in_strings (JStr "halt") ["halt"; "escalate"]) with true.
      cbv iota. apply f_equal. lia.
    + cbn. now rewrite D.
  - lia.
  - rewrite (calibration_events_app (world a) _ [] Hb). cbn.
    now rewrite app_nil_r.
Qed.

Lemma monitored_pass (a0 a : Sentinel) (n : nat) (h : Z) (input : Json) :
  monitored a0 a n h ->
  (S n < 10)%nat ->
  passing_submission json_dumps (constitution a0) input ->
  monitored a0 (snd (_process_input json_dumps format_float input a))
            (S n) h.
Proof.
  intros (Hs & Hwf & Hn & Hh & Hc & Hcal) Hlt
    (x & o & t & c & Hsub & Hthr & Hp).
  pose proof Hs as (_ & Hcst & _ & Hm & _).
  rewrite <- Hcst in Hthr, Hp.
  destruct (process_input_clear a _ _ _ _ _ Hsub Hthr Hp Hwf)
    as (d & a' & E & S' & Hwf' & C' & _ & _ & D & Hk & payload & Hb).
  rewrite E. cbn.
  destruct (monitor_quiet a (JDict d)) as (Q1 & Q2); [lia|].
  rewrite Q1 in Hb. rewrite Q2 in Hk.
  repeat split.
  1-6: destruct Hs as (?&?&?&?&?&?); destruct S' as (?&?&?&?&?&?); congruence.
  - apply Hwf'.
  - apply Hwf'.
  - rewrite Hk, length_app. cbn. lia.
  - rewrite Hk. rewrite (count_halts_app _ _ (JStr "approve") h Hh).
    + change (in_strings (JStr "approve") ["halt"; "escalate"]) with false.
      cbv iota. apply f_equal. lia.
    + cbn. now rewrite D.
  - lia.
  - rewrite (calibration_events_app (world a) _ [] Hb). cbn.
    now rewrite app_nil_r.
Qed.

Lemma monitored_tenth_pass (a0 a : Sentinel) (input : Json) :
  monitored a0 a 9 6 ->
  measurement_window (local a0) = 10 ->
  halt_threshold (local a0) = 0.5%float ->
  passing_submission json_dumps (constitution a0) input ->
  exists payload,
    calibration_events
      (world (snd (_process_input json_dumps format_float input a))) =
      (calibration_events (world a0)
         ++ [EvPublish "system:calibration" payload])%list.
Proof.
  intros (Hs & Hwf & Hn & Hh & Hc & Hcal) Hwin Hthres
    (x & o & t & c & Hsub & Hthr & Hp).
  pose proof Hs as (_ & Hcst & _ & _ & Ht' & Hw').
  rewrite <- Hcst in Hthr, Hp.
  destruct (process_input_clear a _ _ _ _ _ Hsub Hthr Hp Hwf)
    as (d & a' & E & S' & Hwf' & C' & _ & _ & D & Hk & payload & Hb).
  rewrite E. cbn. exists payload.
  assert (F : monitor_fires (with_decision (JDict d) a) = true).
  { unfold monitor_fires, halt_rate_exceeded, with_decision. cbn.
    rewrite Hw', Hwin, Ht', Hthres.
    rewrite last_slice_all by (rewrite length_app, Hn; cbn; lia).
    rewrite (count_halts_app _ _ (JStr "approve") 6 Hh)
      by (cbn; now rewrite D).
    rewrite length_app, Hn. reflexivity. }
  rewrite F in Hb.
  rewrite (calibration_events_app (world a) _ _ Hb), Hcal. reflexivity.
Qed.

Lemma monitored_start (a : Sentinel) :
  well_formed a -> recent_decisions (local a) = [] -> monitored a a 0 0.
Proof.
  intros Hwf Hrd. unfold monitored. rewrite Hrd. facts. lia.
Qed.

(** An approval leaves the repair-cycle counter where it was: the failure
    that follows it is reported one cycle above the failure before it. *)
Lemma approval_never_resets (a : Sentinel) (failed approved : Json) :
  well_formed a ->
  failing_submission json_dumps (constitution a) failed ->
  passing_submission json_dumps (constitution a) approved ->
  exists d1 a1 d2 a2 d3 a3,
    _process_input json_dumps format_float failed a = (Ok (JDict d1), a1) /\
    _process_input json_dumps format_float approved a1 =
      (Ok (JDict d2), a2) /\
    _process_input json_dumps format_float failed a2 = (Ok (JDict d3), a3) /\
    dict_get "decision" d2 = Some (JStr "approve") /\
    dict_get "repair_cycle" d1 =
      Some (JInt (current_repair_cycle (local a) + 1)) /\
    dict_get "repair_cycle" d3 =
      Some (JInt (current_repair_cycle (local a) + 2)).
Proof.
  intros Hwf (x1 & o1 & t1 & c1 & r1 & f1 & Hs1 & Ht1 & Hf1)
    (x2 & o2 & t2 & c2 & Hs2 & Ht2 & Hp2).
  destruct (process_input_fail a _ _ _ _ _ _ _ Hs1 Ht1 Hf1 Hwf)
    as (d1 & a1 & E1 & S1 & Hwf1 & C1 & _ & _ & R1 & _).
  pose proof S1 as (_ & Hcst1 & _).
  rewrite <- Hcst1 in Ht2, Hp2, Ht1, Hf1.
  destruct (process_input_clear a1 _ _ _ _ _ Hs2 Ht2 Hp2 Hwf1)
    as (d2 & a2 & E2 & S2 & Hwf2 & C2 & _ & _ & D2 & _).
  pose proof S2 as (_ & Hcst2 & _).
  rewrite <- Hcst2 in Ht1, Hf1.
  destruct (process_input_fail a2 _ _ _ _ _ _ _ Hs1 Ht1 Hf1 Hwf2)
    as (d3 & a3 & E3 & _ & _ & _ & _ & _ & R3 & _).
  rewrite C2, C1 in R3.
  replace (current_repair_cycle (local a) + 1 + 1)
    with (current_repair_cycle (local a) + 2) in R3 by lia.
  exists d1, a1, d2, a2, d3, a3. facts.
Qed.

(** A failure that reaches the maximum of repair cycles is answered by an
    escalation that is not added to the decisions held and is followed by
    no rate check. *)
Lemma escalation_leaves_window (a : Sentinel) (input : Json) :
  well_formed a ->
  failing_submission json_dumps (constitution a) input ->
  max_repair_cycles (local a) <= current_repair_cycle (local a) + 1 ->
  exists d a',
    _process_input json_dumps format_float input a = (Ok (JDict d), a') /\
    dict_get "decision" d = Some (JStr "escalate") /\
    recent_decisions (local a') = recent_decisions (local a) /\
    bus (world a') = bus (world a).
Proof.
  intros Hwf (x & o & t & c & r & f & Hs & Ht & Hf) Hmax.
  destruct (process_input_fail a _ _ _ _ _ _ _ Hs Ht Hf Hwf)
    as (d & a' & E & _ & _ & _ & _ & _ & _ & K).
  replace (max_repair_cycles (local a) <=? _) with true in K
    by (symmetry; now apply Z.leb_le).
  destruct K as (D & _ & Hrd & Hb).
  exists d, a'. facts.
Qed.

(** A new adjudicator is well formed when the configured window is not
    negative. *)
Lemma new_well_formed (cst : Constitution) (w : World) :
  0 <= cfg_measurement_window cst -> well_formed (SentinelAgent.new cst w).
Proof. intros H. split; [constructor | exact H]. Qed.

(** C4, as the code has it.  With a window of 10, a threshold of 0.5 and
    room for six more repair cycles below the maximum, six failing
    submissions followed by four passing ones publish exactly one
    calibration trigger, and publish it with the tenth decision: none of
    the first nine submissions publishes one. *)
Theorem calibration_fires_with_tenth_decision (a : Sentinel)
    (failing passing : list Json) :
  well_formed a ->
  recent_decisions (local a) = [] ->
  measurement_window (local a) = 10 ->
  halt_threshold (local a) = 0.5%float ->
  current_repair_cycle (local a) + 6 < max_repair_cycles (local a) ->
  length failing = 6%nat ->
  length passing = 4%nat ->
  Forall (failing_submission json_dumps (constitution a)) failing ->
  Forall (passing_submission json_dumps (constitution a)) passing ->
  (forall n, (n < 10)%nat ->
     calibration_events
       (world (submit_all json_dumps format_float
                 (firstn n (failing ++ passing)%list) a)) =
       calibration_events (world a)) /\
  exists payload,
    calibration_events
      (world (submit_all json_dumps format_float
                (failing ++ passing)%list a)) =
      (calibration_events (world a)
         ++ [EvPublish "system:calibration" payload])%list.
Proof.
  intros Hwf Hrd Hwin Hthres Hmax Hlf Hlp Hf Hp.
  destruct failing as [|f1 [|f2 [|f3 [|f4 [|f5 [|f6 [|? ?]]]]]]];
    try discriminate.
  destruct passing as [|p1 [|p2 [|p3 [|p4 [|? ?]]]]]; try discriminate.
  repeat match goal with
         | H : Forall _ (_ :: _) |- _ => inversion H; clear H; subst
         end.
  pose proof (monitored_start a Hwf Hrd) as M0.
  pose proof (monitored_fail a _ _ _ f1 M0 ltac:(lia) ltac:(lia) ltac:(auto))
    as M1.
  pose proof (monitored_fail a _ _ _ f2 M1 ltac:(lia) ltac:(lia) ltac:(auto))
    as M2.
  pose proof (monitored_fail a _ _ _ f3 M2 ltac:(lia) ltac:(lia) ltac:(auto))
    as M3.
  pose proof (monitored_fail a _ _ _ f4 M3 ltac:(lia) ltac:(lia) ltac:(auto))
    as M4.
  pose proof (monitored_fail a _ _ _ f5 M4 ltac:(lia) ltac:(lia) ltac:(auto))
    as M5.
  pose proof (monitored_fail a _ _ _ f6 M5 ltac:(lia) ltac:(lia) ltac:(auto))
    as M6.
  pose proof (monitored_pass a _ _ _ p1 M6 ltac:(lia) ltac:(auto)) as M7.
  pose proof (monitored_pass a _ _ _ p2 M7 ltac:(lia) ltac:(auto)) as M8.
  pose proof (monitored_pass a _ _ _ p3 M8 ltac:(lia) ltac:(auto)) as M9.
  split.
  - intros n Hn.
    do 10 (destruct n as [|n];
           [cbn [firstn app submit_all fold_left];
            match goal with
            | H : monitored a ?x _ _ |- context [world ?x] =>
                exact (proj2 (proj2 (proj2 (proj2 (proj2 H)))))
            end|]).
    lia.
  - cbn [app submit_all fold_left].
    exact (monitored_tenth_pass a _ p4 M9 Hwin Hthres ltac:(auto)).
Qed.

End SentinelFacts.

Section WrapperFacts.

Context {L : Type}.
Variable _process_input : Json -> M (Agent L) Json.
Variable _check_constraints : Json -> M (Agent L) bool.

(** C8.  On an active subsystem, when the subsystem's logic produces an
    output and the post-condition predicate rejects it, the wrapper appends
    one violation record of type [constraint_violation] and severity
    [major] holding the input and the output, and the call raises the
    constraint-violation fault: no output is returned. *)
Theorem rejected_output_is_recorded_and_fatal (a a2 a3 : Agent L)
    (input output : Json) :
  active a = true ->
  _process_input input
    (snd (BaseAgent.write_episodic "input_received"
            (JDict [("input", input)]) None a)) = (Ok output, a2) ->
  _check_constraints output a2 = (Ok false, a3) ->
  exists a',
    BaseAgent.process _process_input _check_constraints input a =
      (Raise (ValueError "Constitutional constraint violation"), a') /\
    constitutional_violations (world a') =
      (constitutional_violations (world a3)
         ++ [constraint_violation_record (subsystem_id a3) input output])%list.
Proof.
  intros Hact Hrun Hchk.
  unfold BaseAgent.process. run. rewrite Hact. cbn.
  unfold BaseAgent.write_episodic in *. run. cbn in *.
  rewrite Hrun, Hchk. cbn.
  eexists. split; reflexivity.
Qed.

End WrapperFacts.

(** In every call of [request] the request is published first and the
    reply topic subscribed to second. *)
Lemma request_publishes_then_subscribes {L : Type} (a : Agent L)
    (target action : string) (params : Json) (timeout : Z) :
  exists request_id payload,
    bus (world (snd (BaseAgent.request target action params timeout a))) =
      (bus (world a)
         ++ [EvPublish ("request:" ++ target) payload;
             EvSubscribe ("response:" ++ request_id);
             EvUnsubscribe ("response:" ++ request_id)])%list.
Proof.
  unfold BaseAgent.request, BaseAgent.redis_publish, BaseAgent.redis_pubsub,
    BaseAgent.pubsub_subscribe, BaseAgent.listen_until_timeout. run. cbn.
  match goal with
  | |- context [fst (BaseAgent.first_message ?q)] =>
      destruct (fst (BaseAgent.first_message q))
  end;
    unfold BaseAgent.pubsub_unsubscribe, BaseAgent.logger_warning; run; cbn;
    do 2 eexists; rewrite <- !app_assoc; cbn; reflexivity.
Qed.

(** ** The sandbox's operating system is out of the adjudicator's reach *)

Section Frame.

Context {L : Type}.

Lemma keeps_os_ret {A} (x : A) : keeps_os (L:=L) (ret x).
Proof. intros a. reflexivity. Qed.

Lemma keeps_os_raise {A} (e : Exn) : keeps_os (L:=L) (A:=A) (raise e).
Proof. intros a. reflexivity. Qed.

Lemma keeps_os_lift {A} (r : Res A) : keeps_os (L:=L) (lift r).
Proof. intros a. reflexivity. Qed.

Lemma keeps_os_get : keeps_os (L:=L) get.
Proof. intros a. reflexivity. Qed.

Lemma keeps_os_bind {A B} (m : M (Agent L) A) (k : A -> M (Agent L) B) :
  keeps_os m -> (forall x, keeps_os (k x)) -> keeps_os (bind m k).
Proof.
  intros Hm Hk a. unfold bind. specialize (Hm a).
  destruct (m a) as [[x|e] a1]; cbn in *.
  - rewrite (Hk x a1). exact Hm.
  - exact Hm.
Qed.

Lemma keeps_os_try_except {A} (m : M (Agent L) A)
    (h : Exn -> M (Agent L) A) :
  keeps_os m -> (forall e, keeps_os (h e)) -> keeps_os (try_except m h).
Proof.
  intros Hm Hh a. unfold try_except. specialize (Hm a).
  destruct (m a) as [[x|e] a1]; cbn in *.
  - exact Hm.
  - rewrite (Hh e a1). exact Hm.
Qed.

Lemma keeps_os_try_finally {A} (m : M (Agent L) A) (f : M (Agent L) unit) :
  keeps_os m -> keeps_os f -> keeps_os (try_finally m f).
Proof.
  intros Hm Hf a. unfold try_finally. specialize (Hm a).
  destruct (m a) as [r a1]. specialize (Hf a1).
  destruct (f a1) as [[u|e] a2]; cbn in *; congruence.
Qed.

Lemma keeps_os_with_world (f : World -> World) :
  (forall w, os_of (f w) = os_of w) ->
  keeps_os (L:=L) (BaseAgent.with_world f).
Proof. intros H a. cbn. apply H. Qed.

Lemma keeps_os_modify (f : Agent L -> Agent L) :
  (forall a, world (f a) = world a) -> keeps_os (modify f).
Proof. intros H a. cbn. now rewrite H. Qed.

Lemma keeps_os_utcnow : keeps_os (L:=L) BaseAgent.utcnow.
Proof. intros a. reflexivity. Qed.

End Frame.

Ltac frame_step :=
  first
    [ apply keeps_os_ret | apply keeps_os_raise | apply keeps_os_lift
    | apply keeps_os_get | apply keeps_os_utcnow
    | apply keeps_os_with_world; intros; reflexivity
    | apply keeps_os_modify; intros; reflexivity
    | apply keeps_os_bind; [|intros]
    | apply keeps_os_try_except; [|intros]
    | apply keeps_os_try_finally
    | match goal with
      | |- keeps_os (if ?b then _ else _) => destruct b
      | |- keeps_os (match ?x with _ => _ end) => destruct x
      end ].

Ltac frame := repeat frame_step.

Section FrameFacts.

Context {L : Type}.

Lemma keeps_os_write_episodic (event_type : string) (context : Json)
    (related : option Z) :
  keeps_os (L:=L) (BaseAgent.write_episodic event_type context related).
Proof. unfold BaseAgent.write_episodic. frame. Qed.

Lemma keeps_os_log_violation (t s d : string) (c : option Json) :
  keeps_os (L:=L) (BaseAgent._log_violation t s d c).
Proof. unfold BaseAgent._log_violation. frame. Qed.

Lemma keeps_os_logger_error (msg : string) :
  keeps_os (L:=L) (BaseAgent.logger_error msg).
Proof. unfold BaseAgent.logger_error. frame. Qed.

Lemma keeps_os_logger_info (msg : string) :
  keeps_os (L:=L) (BaseAgent.logger_info msg).
Proof. unfold BaseAgent.logger_info. frame. Qed.

Lemma keeps_os_log_reflective (t m : string) (md : option dict) :
  keeps_os (L:=L) (BaseAgent.log_reflective t m md).
Proof. unfold BaseAgent.log_reflective. frame. Qed.

Lemma keeps_os_publish (channel : string) (message : Json) :
  keeps_os (L:=L) (BaseAgent.publish channel message).
Proof. unfold BaseAgent.publish, BaseAgent.redis_publish. frame. Qed.



Lemma keeps_os_process (body : Json -> M (Agent L) Json)
    (check : Json -> M (Agent L) bool) (input : Json) :
  (forall i, keeps_os (body i)) -> (forall o, keeps_os (check o)) ->
  keeps_os (BaseAgent.process body check input).
Proof.
  intros Hb Hc. unfold BaseAgent.process.
  frame; auto using keeps_os_write_episodic, keeps_os_log_violation,
    keeps_os_logger_error.
Qed.

End FrameFacts.

Section SentinelFrame.

Variable json_dumps : Json -> string.
Variable format_float : string -> float -> string.

Lemma keeps_os_check_anti_paralysis :
  keeps_os (_check_anti_paralysis format_float).
Proof.
  unfold _check_anti_paralysis, with_local.
  frame; auto using keeps_os_log_reflective, keeps_os_publish.
Qed.

Lemma keeps_os_issue_halt (reason fault_code : string) (context : Json) :
  keeps_os (_issue_halt format_float reason fault_code context).
Proof.
  unfold _issue_halt, with_local.
  frame; auto using keeps_os_log_reflective, keeps_os_check_anti_paralysis.
Qed.

Lemma keeps_os_sentinel_process_input (input : Json) :
  keeps_os (_process_input json_dumps format_float input).
Proof.
  unfold _process_input, call, with_local.
  frame; auto using keeps_os_issue_halt, keeps_os_check_anti_paralysis.
Qed.

Lemma keeps_os_sentinel_process (input : Json) :
  keeps_os (SentinelAgent.process json_dumps format_float input).
Proof.
  apply keeps_os_process.
  - apply keeps_os_sentinel_process_input.
  - intros o. apply keeps_os_ret.
Qed.

End SentinelFrame.

Arguments SentinelAgent.process : simpl never.
Arguments ExecutorAgent._map_task_to_action_type : simpl never.
Arguments ExecutorAgent._execute_sandboxed : simpl never.

Section ExecutorFacts.

Variable json_dumps : Json -> string.
Variable format_float : string -> float -> string.
Variable py_str : Json -> string.
Variable path_str : string -> string.
Variable default_constitution : Constitution.

(** C9.  When approval is required and the adjudicator's decision on the
    task is not [approve], the executor returns an [execution_result] of
    status [rejected] whose error is the decision's halt reason, and the
    sandbox is not entered: the files, the trace of operating-system
    actions and the execution history are those before the call, and the
    records of the episodic memory are those the adjudication left. *)
Theorem rejected_task_is_not_executed (e : ExecutorAgent.Executor)
    (input task skip decision verdict : Json) (action_type : string)
    (s' : Sentinel) :
  getitem input "task" = Ok task ->
  get_method input "skip_approval" (JBool false) = Ok skip ->
  ExecutorAgent.truthy skip = false ->
  ExecutorAgent._map_task_to_action_type task = Ok action_type ->
  SentinelAgent.process json_dumps format_float
    (approval_request task action_type)
    (sentinel_for default_constitution e) = (Ok decision, s') ->
  getitem decision "decision" = Ok verdict ->
  eq_str verdict "approve" = false ->
  exists e' reason t,
    ExecutorAgent._process_input json_dumps format_float py_str path_str
      default_constitution input e =
      (Ok (JDict [("execution_result",
                   ExecutorAgent.result_dict "rejected" JNull [reason] false);
                  ("executed_at", JStr t)]), e') /\
    get_method decision "halt_reason" (JStr "") = Ok reason /\
    os_trace (world e') = os_trace (world e) /\
    files (world e') = files (world e) /\
    ExecutorAgent.execution_history (local e') =
      ExecutorAgent.execution_history (local e) /\
    episodic_memory (world e') = episodic_memory (world s').
Proof.
  intros Htask Hskip Hfalsy Hmap Hproc Hdec Hverdict.
  pose proof (keeps_os_sentinel_process json_dumps format_float
                (approval_request task action_type)
                (sentinel_for default_constitution e)) as Hos.
  rewrite Hproc in Hos. cbn in Hos.
  unfold os_of in Hos. injection Hos as Hfiles Htrace.
  unfold ExecutorAgent._process_input. run.
  rewrite Htask, Hskip, Hfalsy. cbn.
  unfold ExecutorAgent._request_sentinel_approval. run. cbn.
  rewrite Hmap.
  unfold sentinel_for, approval_request in Hproc. cbn in Hproc.
  rewrite Hproc. rewrite Hdec.
  destruct decision; try discriminate. cbn. rewrite Hverdict. cbn.
  do 3 eexists. split; [reflexivity|]. cbn. facts.
Qed.

End ExecutorFacts.

Arguments PrimFloat.leb : simpl never.

Section ConsensusFacts.

Variable S : Type.
Variable strategist_process : Json -> M S Json.
Variable ledger_process : Json -> M S Json.

(** C10.  Whatever [_get_consensus] returns has [threshold_met] true, with
    a [consensus_score] of 1.0 and no additional perspective when the
    strategist and the ledger were both already involved, and of 0.75 with
    at least one additional perspective otherwise; and it does return
    whenever the agents it consults answer, the ledger with an analysis
    that has a risk score. *)
Theorem consensus_threshold_always_met (question : string)
    (current_result : Json) (s : S) :
  (forall result s',
     Chorus._get_consensus S strategist_process ledger_process question
       current_result s = (Ok result, s') ->
     exists involved perspectives,
       getitem current_result "agents_involved" = Ok involved /\
       if all_consulted involved
       then perspectives = [] /\
            result = consensus_dict 1.0%float perspectives true
       else perspectives <> [] /\
            result = consensus_dict 0.75%float perspectives true) /\
  (forall involved,
     getitem current_result "agents_involved" = Ok (JList involved) ->
     (forall i s0, exists o s1, strategist_process i s0 = (Ok o, s1)) ->
     (forall i s0, exists o s1 analysis risk_score,
        ledger_process i s0 = (Ok o, s1) /\
        getitem o "analysis" = Ok analysis /\
        getitem analysis "risk_score" = Ok risk_score) ->
     exists result s',
       Chorus._get_consensus S strategist_process ledger_process question
         current_result s = (Ok result, s')).
Proof.
  split.
  - intros result s' H.
    unfold Chorus._get_consensus, Chorus.not_in, all_consulted in *. run.
    destruct (getitem current_result "agents_involved") as [involved|e];
      [|discriminate].
    exists involved.
    destruct (in_json "strategist" involved) as [[|]|e]; cbn in H;
      try discriminate.
    + destruct (in_json "ledger" involved) as [[|]|e]; cbn in H;
        try discriminate.
      * injection H as <- _. exists []. repeat split.
      * destruct (ledger_process _ s) as [[view|e] s1]; try discriminate.
        destruct (getitem view "analysis") as [an|e]; try discriminate.
        destruct (getitem an "risk_score") as [sc|e]; try discriminate.
        cbn in H. injection H as <- _. eexists.
        repeat split; discriminate.
    + destruct (strategist_process _ s) as [[view|e] s1]; try discriminate.
      destruct (in_json "ledger" involved) as [[|]|e]; cbn in H;
        try discriminate.
      * injection H as <- _. eexists.
        repeat split; discriminate.
      * destruct (ledger_process _ s1) as [[lview|e] s2]; try discriminate.
        destruct (getitem lview "analysis") as [an|e]; try discriminate.
        destruct (getitem an "risk_score") as [sc|e]; try discriminate.
        cbn in H. injection H as <- _. eexists.
        repeat split; discriminate.
  - intros involved Hinv Hs Hl.
    unfold Chorus._get_consensus, Chorus.not_in. run. rewrite Hinv. cbn.
    destruct (existsb _ involved); cbn.
    + destruct (existsb _ involved); cbn.
      * do 2 eexists; reflexivity.
      * match goal with
        | |- context [ledger_process ?i ?x] =>
            destruct (Hl i x) as (o & s1 & an & sc & -> & Ha & Hr)
        end.
        rewrite Ha, Hr. do 2 eexists; reflexivity.
    + match goal with
      | |- context [strategist_process ?i ?x] =>
          destruct (Hs i x) as (o & s1 & ->)
      end.
      destruct (existsb _ involved); cbn.
      * do 2 eexists; reflexivity.
      * match goal with
        | |- context [ledger_process ?i ?x] =>
            destruct (Hl i x) as (lo & s2 & an & sc & -> & Ha & Hr)
        end.
        rewrite Ha, Hr. do 2 eexists; reflexivity.
Qed.

End ConsensusFacts.


(** ** Concrete runs *)

Lemma demo_well_formed (m : Z) : well_formed (Demo.sentinel_with m).
Proof. split; [constructor | cbn; lia]. Qed.

Lemma illegal_fails (m : Z) :
  failing_submission Demo.json_dumps (Demo.constitution_with m) Demo.illegal.
Proof.
  exists (JDict [("content", JStr "illegal activity")]), (JStr "executor"),
    (JStr "execution"), [], "Crosses boundary: violates_legality",
    "boundary_violation".
  split; [repeat split|]. split; [reflexivity|].
  exists 0%nat, MoralRegressionTest. split; [constructor | reflexivity].
Qed.

Lemma harmful_fails (m : Z) :
  failing_submission Demo.json_dumps (Demo.constitution_with m) Demo.harmful.
Proof.
  exists (JDict [("content", JStr "harm others")]), (JStr "executor"),
    (JStr "execution"), [], "Crosses boundary: crosses_harm_boundary",
    "boundary_violation".
  split; [repeat split|]. split; [reflexivity|].
  exists 0%nat, MoralRegressionTest. split; [constructor | reflexivity].
Qed.

Lemma benign_passes (m : Z) :
  passing_submission Demo.json_dumps (Demo.constitution_with m) Demo.benign.
Proof.
  exists (JDict [("content", JStr "benign operation")]), (JStr "executor"),
    (JStr "execution"), [].
  split; [repeat split|]. split; [reflexivity|].
  repeat constructor.
Qed.

(** C1.  A peer that replies at once: the request is published before the
    reply topic is subscribed to, the reply finds no subscriber, and the
    call times out; in the order of the spec the same reply is received. *)
Theorem request_misses_prompt_reply :
  fst (BaseAgent.request "ledger" "assess" (JDict []) 30 Demo.strategist) =
    Ok JNull /\
  bus (world (snd (BaseAgent.request "ledger" "assess" (JDict []) 30
                     Demo.strategist))) =
    [EvPublish "request:ledger"
       (JDict [("request_id", JStr "strategist:ledger:0");
               ("from", JStr "strategist");
               ("action", JStr "assess");
               ("params", JDict []);
               ("response_channel", JStr "response:strategist:ledger:0")]);
     EvSubscribe "response:strategist:ledger:0";
     EvUnsubscribe "response:strategist:ledger:0"] /\
  fst (request_as_specified "ledger" "assess" (JDict []) 30 Demo.strategist) =
    Ok (JDict [("status", JStr "ok")]).
Proof. vm_compute. repeat split. Qed.

(** C2.  A failure, an approval and a second failure from the same origin:
    the approval leaves the repair-cycle counter at 1, and the second
    failure is reported with [repair_cycle] 2. *)
Theorem approval_keeps_repair_cycle :
  let a1 := snd (Demo._process_input Demo.harmful Demo.sentinel0) in
  let a2 := snd (Demo._process_input Demo.benign a1) in
  fst (Demo._process_input Demo.harmful Demo.sentinel0) =
    Ok (JDict [("decision", JStr "halt");
               ("halt_reason", JStr "Crosses boundary: crosses_harm_boundary");
               ("fault_code", JStr "boundary_violation");
               ("repair_cycle", JInt 1); ("halt_event_id", JInt 1)]) /\
  fst (Demo._process_input Demo.benign a1) =
    Ok (JDict [("decision", JStr "approve"); ("timestamp", JStr "0")]) /\
  current_repair_cycle (local a2) = 1 /\
  fst (Demo._process_input Demo.harmful a2) =
    Ok (JDict [("decision", JStr "halt");
               ("halt_reason", JStr "Crosses boundary: crosses_harm_boundary");
               ("fault_code", JStr "boundary_violation");
               ("repair_cycle", JInt 2); ("halt_event_id", JInt 2)]).
Proof. vm_compute. repeat split. Qed.

(** C3.  The third failure under a maximum of three repair cycles is an
    escalation, and the decisions held for the rate monitor are the same
    two halts before and after it. *)
Theorem escalation_is_not_appended :
  let a2 := submit_all Demo.json_dumps Demo.format_float
              [Demo.illegal; Demo.illegal] Demo.sentinel0 in
  fst (Demo._process_input Demo.illegal a2) =
    Ok (JDict [("decision", JStr "escalate");
               ("halt_reason", JStr "Crosses boundary: violates_legality");
               ("fault_code", JStr "boundary_violation");
               ("repair_cycle", JInt 3);
               ("escalation_target", JStr "user_via_mirror");
               ("halt_event_id", JInt 3)]) /\
  recent_decisions (local (snd (Demo._process_input Demo.illegal a2))) =
    recent_decisions (local a2) /\
  length (recent_decisions (local a2)) = 2%nat.
Proof. vm_compute. repeat split. Qed.

(** C4, as stated, fails: with a window of 10, a threshold of 0.5 and
    seven repair cycles allowed, six failing submissions leave six
    decisions held and no calibration trigger published; nor do the next
    three submissions publish one; the tenth does. *)
Lemma no_calibration_with_sixth_decision :
  let inputs := [Demo.illegal; Demo.illegal; Demo.illegal; Demo.illegal;
                 Demo.illegal; Demo.illegal; Demo.benign; Demo.benign;
                 Demo.benign; Demo.benign] in
  let after n := submit_all Demo.json_dumps Demo.format_float
                   (firstn n inputs) (Demo.sentinel_with 7) in
  length (recent_decisions (local (after 6%nat))) = 6%nat /\
  calibration_events (world (after 6%nat)) = [] /\
  calibration_events (world (after 9%nat)) = [] /\
  length (calibration_events (world (after 10%nat))) = 1%nat.
Proof. vm_compute. repeat split. Qed.

Lemma calibration_fires_with_tenth_decision_witness :
  exists payload,
    calibration_events
      (world (submit_all Demo.json_dumps Demo.format_float
                [Demo.illegal; Demo.illegal; Demo.illegal; Demo.illegal;
                 Demo.illegal; Demo.illegal; Demo.benign; Demo.benign;
                 Demo.benign; Demo.benign] (Demo.sentinel_with 7))) =
      [EvPublish "system:calibration" payload].
Proof.
  apply (calibration_fires_with_tenth_decision Demo.json_dumps
           Demo.format_float (Demo.sentinel_with 7)
           [Demo.illegal; Demo.illegal; Demo.illegal; Demo.illegal;
            Demo.illegal; Demo.illegal]
           [Demo.benign; Demo.benign; Demo.benign; Demo.benign]).
  - apply demo_well_formed.
  - reflexivity.
  - reflexivity.
  - reflexivity.
  - cbn. lia.
  - reflexivity.
  - reflexivity.
  - repeat constructor; apply illegal_fails.
  - repeat constructor; apply benign_passes.
Defined.

Lemma three_failures_escalate_witness :
  exists d1 a1 d2 a2 d3 a3,
    Demo._process_input Demo.illegal Demo.sentinel0 = (Ok (JDict d1), a1) /\
    Demo._process_input Demo.harmful a1 = (Ok (JDict d2), a2) /\
    Demo._process_input Demo.illegal a2 = (Ok (JDict d3), a3) /\
    dict_get "decision" d1 = Some (JStr "halt") /\
    dict_get "repair_cycle" d1 = Some (JInt 1) /\
    dict_get "decision" d2 = Some (JStr "halt") /\
    dict_get "repair_cycle" d2 = Some (JInt 2) /\
    dict_get "decision" d3 = Some (JStr "escalate") /\
    dict_get "repair_cycle" d3 = Some (JInt 3) /\
    dict_get "escalation_target" d3 = Some (JStr "user_via_mirror").
Proof.
  apply (three_failures_escalate Demo.json_dumps Demo.format_float
           Demo.sentinel0 Demo.illegal Demo.harmful Demo.illegal).
  - apply demo_well_formed.
  - reflexivity.
  - reflexivity.
  - apply illegal_fails.
  - apply harmful_fails.
  - apply illegal_fails.
Defined.

Lemma first_failing_check_decides_witness :
  exists decision a',
    Demo._process_input Demo.hacking Demo.sentinel0 =
      (Ok (JDict decision), a') /\
    dict_get "halt_reason" decision =
      Some (JStr "Potential legal violation detected: hack") /\
    dict_get "fault_code" decision = Some (JStr "legal_violation") /\
    evaluated (local a') =
      [MoralRegressionTest; EthicalBoundaryCheck; LegalConstraintCheck].
Proof.
  apply (first_failing_check_decides Demo.json_dumps Demo.format_float
           Demo.sentinel0 Demo.hacking
           (JDict [("content", JStr "hack the planet")])
           (JStr "strategist") (JStr "execution") [] 2
           LegalConstraintCheck
           "Potential legal violation detected: hack" "legal_violation").
  - apply demo_well_formed.
  - repeat split.
  - reflexivity.
  - repeat constructor.
  - reflexivity.
Defined.

Lemma non_threshold_action_bypasses_vetoes_witness :
  Demo._process_input Demo.speculative Demo.sentinel0 =
    (Ok (JDict [("decision", JStr "approve");
                ("reason", JStr "not_threshold_action")]), Demo.sentinel0) /\
  evaluated (local (snd (Demo._process_input Demo.speculative
                           Demo.sentinel0))) = [].
Proof.
  apply (non_threshold_action_bypasses_vetoes Demo.json_dumps
           Demo.format_float Demo.sentinel0 Demo.speculative
           (JDict [("content",
                    JStr "A dark world where forbidden thoughts are explored")])
           (JStr "artisan") (JStr "speculation")); reflexivity.
Defined.

Lemma rejected_output_is_recorded_and_fatal_witness :
  exists a',
    BaseAgent.process Demo.commanding_logic MirrorAgent._check_constraints
      (JDict [("event", JDict [])]) Demo.mirror0 =
      (Raise (ValueError "Constitutional constraint violation"), a') /\
    constitutional_violations (world a') =
      [constraint_violation_record "mirror"
         (JDict [("event", JDict [])])
         (JDict [("recommendations", JList [JStr "You must stop"])])].
Proof.
  pose (input := JDict [("event", JDict [])]).
  pose (output := JDict [("recommendations", JList [JStr "You must stop"])]).
  pose (a2 := snd (BaseAgent.write_episodic "input_received"
                     (JDict [("input", input)]) None Demo.mirror0)).
  pose (a3 := snd (MirrorAgent._check_constraints output a2)).
  destruct (rejected_output_is_recorded_and_fatal Demo.commanding_logic
              MirrorAgent._check_constraints Demo.mirror0 a2 a3 input output)
    as (a' & E & V); [reflexivity | reflexivity | reflexivity |].
  exists a'. split; [exact E | rewrite V; reflexivity].
Defined.

Lemma rejected_task_is_not_executed_witness :
  exists e' reason t,
    ExecutorAgent._process_input Demo.json_dumps Demo.format_float
      Demo.py_str Demo.path_str Demo.test_constitution
      (JDict [("task", Demo.refused_task); ("skip_approval", JBool false)])
      Demo.executor0 =
      (Ok (JDict [("execution_result",
                   ExecutorAgent.result_dict "rejected" JNull [reason] false);
                  ("executed_at", JStr t)]), e') /\
    reason = JStr "Potential legal violation detected: steal" /\
    os_trace (world e') = [] /\
    files (world e') = [] /\
    ExecutorAgent.execution_history (local e') = [].
Proof.
  edestruct (rejected_task_is_not_executed Demo.json_dumps Demo.format_float
               Demo.py_str Demo.path_str Demo.test_constitution
               Demo.executor0
               (JDict [("task", Demo.refused_task);
                       ("skip_approval", JBool false)])
               Demo.refused_task (JBool false))
    as (e' & reason & t & E & R & T & F & H & _);
    [reflexivity | reflexivity | reflexivity | reflexivity
    | vm_compute; reflexivity | reflexivity | reflexivity |].
  exists e', reason, t. vm_compute in R. injection R as <-.
  repeat split; assumption.
Defined.

Lemma consensus_threshold_always_met_witness :
  exists perspectives,
    fst (Chorus._get_consensus unit Demo.strategist_process
           Demo.ledger_process "Should we ship?"
           (JDict [("agents_involved", JList [JStr "interpreter"])]) tt) =
      Ok (consensus_dict 0.75%float perspectives true) /\
    perspectives <> [].
Proof.
  destruct (consensus_threshold_always_met unit Demo.strategist_process
              Demo.ledger_process "Should we ship?"
              (JDict [("agents_involved", JList [JStr "interpreter"])]) tt)
    as [Shape Total].
  destruct (Total [JStr "interpreter"] eq_refl) as (result & s' & E).
  - intros i s0. do 2 eexists. reflexivity.
  - intros i s0. do 4 eexists. repeat split.
  - destruct (Shape result s' E) as (involved & perspectives & Hinv & H).
    injection Hinv as <-. cbn in H. destruct H as [Hne ->].
    exists perspectives. rewrite E. split; [reflexivity | exact Hne].
Defined.

(** * Further properties *)

(** ** Relations kept along every path *)

Lemma extends_refl {A} (l : list A) : extends l l.
Proof. exists []. now rewrite app_nil_r. Qed.

Lemma extends_trans {A} (l1 l2 l3 : list A) :
  extends l1 l2 -> extends l2 l3 -> extends l1 l3.
Proof.
  intros [m1 ->] [m2 ->]. exists (m1 ++ m2)%list. now rewrite app_assoc.
Qed.

Lemma extends_snoc {A} (l : list A) (x : A) : extends l (l ++ [x]).
Proof. now exists [x]. Qed.

Lemma grows_refl (w : World) : grows w w.
Proof. repeat split; auto using extends_refl. Qed.

Lemma grows_trans (w1 w2 w3 : World) :
  grows w1 w2 -> grows w2 w3 -> grows w1 w3.
Proof.
  intros (?&?&?&?&?&?) (?&?&?&?&?&?).
  repeat split; eauto using extends_trans. lia.
Qed.

Lemma advances_refl (a : Sentinel) : advances a a.
Proof. repeat split; auto using extends_refl; lia. Qed.

Lemma advances_trans (a b c : Sentinel) :
  advances a b -> advances b c -> advances a c.
Proof.
  intros (S1 & C1 & H1 & G1) (S2 & C2 & H2 & G2).
  split; [eapply same_settings_trans; eassumption|].
  split; [lia|]. split; [lia|]. eapply grows_trans; eassumption.
Qed.

Section Ensures.

Context {L : Type}.
Variable R : Agent L -> Agent L -> Prop.
Hypothesis R_refl : forall a, R a a.
Hypothesis R_trans : forall a b c, R a b -> R b c -> R a c.

Lemma ensures_ret {A} (x : A) : ensures R (ret x).
Proof. intros a. apply R_refl. Qed.

Lemma ensures_raise {A} (e : Exn) : ensures R (A:=A) (raise e).
Proof. intros a. apply R_refl. Qed.

Lemma ensures_lift {A} (r : Res A) : ensures R (lift r).
Proof. intros a. apply R_refl. Qed.

Lemma ensures_get : ensures R get.
Proof. intros a. apply R_refl. Qed.

Lemma ensures_bind {A B} (m : M (Agent L) A) (k : A -> M (Agent L) B) :
  ensures R m -> (forall x, ensures R (k x)) -> ensures R (bind m k).
Proof.
  intros Hm Hk a. unfold bind. specialize (Hm a).
  destruct (m a) as [[x|e] a1]; cbn in *.
  - eapply R_trans; [exact Hm | apply Hk].
  - exact Hm.
Qed.

Lemma ensures_try_except {A} (m : M (Agent L) A)
    (h : Exn -> M (Agent L) A) :
  ensures R m -> (forall e, ensures R (h e)) -> ensures R (try_except m h).
Proof.
  intros Hm Hh a. unfold try_except. specialize (Hm a).
  destruct (m a) as [[x|e] a1]; cbn in *.
  - exact Hm.
  - eapply R_trans; [exact Hm | apply Hh].
Qed.

Lemma ensures_try_finally {A} (m : M (Agent L) A) (f : M (Agent L) unit) :
  ensures R m -> ensures R f -> ensures R (try_finally m f).
Proof.
  intros Hm Hf a. unfold try_finally. specialize (Hm a).
  destruct (m a) as [r a1]. specialize (Hf a1).
  destruct (f a1) as [[u|e] a2]; cbn in *; eapply R_trans; eassumption.
Qed.

End Ensures.

(** One step of a proof that a relation is kept: [refl] and [trans] are
    the proofs that it is a preorder, [known] tries what is established
    for the methods called, [leaf] settles a state update. *)
Ltac ensure_step refl trans known leaf :=
  first
    [ solve [known]
    | apply (ensures_ret _ refl) | apply (ensures_raise _ refl)
    | apply (ensures_lift _ refl) | apply (ensures_get _ refl)
    | apply (ensures_bind _ trans); [|intros]
    | apply (ensures_try_except _ trans); [|intros]
    | apply (ensures_try_finally _ trans)
    | match goal with
      | |- ensures _ (if ?b then _ else _) => destruct b
      | |- ensures _ (match ?x with _ => _ end) => destruct x
      end
    | solve [leaf] ].

Ltac ensure refl trans known leaf :=
  repeat ensure_step refl trans known leaf.

Ltac advances_now :=
  cbn; unfold advances, same_settings, grows; cbn;
  repeat split;
  auto using extends_refl, extends_snoc; try lia;
  try (rewrite length_app; cbn; lia).

Ltac advances_leaf := intros ?; advances_now.

Section SentinelPaths.

Variable json_dumps : Json -> string.
Variable format_float : string -> float -> string.

Lemma advances_log_reflective (t m : string) (md : option dict) :
  ensures advances (BaseAgent.log_reflective (L:=SentinelState) t m md).
Proof.
  unfold BaseAgent.log_reflective, BaseAgent.utcnow, BaseAgent.with_world.
  ensure advances_refl advances_trans fail advances_leaf.
Qed.

Lemma advances_publish (channel : string) (message : Json) :
  ensures advances (BaseAgent.publish (L:=SentinelState) channel message).
Proof.
  unfold BaseAgent.publish, BaseAgent.redis_publish, BaseAgent.utcnow,
    BaseAgent.with_world.
  ensure advances_refl advances_trans fail advances_leaf.
Qed.

Lemma advances_check_anti_paralysis :
  ensures advances (_check_anti_paralysis format_float).
Proof.
  unfold _check_anti_paralysis, with_local.
  ensure advances_refl advances_trans
    ltac:(auto using advances_log_reflective, advances_publish)
    advances_leaf.
Qed.

Lemma advances_issue_halt (reason fault_code : string) (context : Json) :
  ensures advances (_issue_halt format_float reason fault_code context).
Proof.
  intros a. unfold _issue_halt. run.
  destruct (get_method context "subsystem_origin" (JStr "unknown"))
    as [origin|e]; cbn.
  - destruct (max_repair_cycles (local a) <=? current_repair_cycle (local a) + 1).
    + advances_now.
    + match goal with
      | |- context [_check_anti_paralysis _ ?x] =>
          pose proof (advances_check_anti_paralysis x) as H;
          destruct (_check_anti_paralysis format_float x) as [[u|e] a1]
      end; cbn in *;
        (eapply advances_trans; [|exact H]); advances_now.
  - advances_now.
Qed.

Lemma advances_process_input (input : Json) :
  ensures advances (_process_input json_dumps format_float input).
Proof.
  unfold _process_input, call, with_local, BaseAgent.utcnow.
  ensure advances_refl advances_trans
    ltac:(auto using advances_issue_halt, advances_check_anti_paralysis)
    advances_leaf.
Qed.

Lemma advances_process (input : Json) :
  ensures advances (SentinelAgent.process json_dumps format_float input).
Proof.
  unfold SentinelAgent.process, BaseAgent.process, BaseAgent.write_episodic,
    BaseAgent._log_violation, BaseAgent.logger_error, BaseAgent.with_world,
    SentinelAgent._check_constraints.
  ensure advances_refl advances_trans
    ltac:(auto using advances_process_input) advances_leaf.
Qed.

Lemma ensures_weaken {L A} (R1 R2 : Agent L -> Agent L -> Prop)
    (m : M (Agent L) A) :
  (forall a b, R1 a b -> R2 a b) -> ensures R1 m -> ensures R2 m.
Proof. intros H Hm a. apply H, Hm. Qed.

Lemma ensures_bind_after {L A B} (R1 R2 : Agent L -> Agent L -> Prop)
    (m : M (Agent L) A) (k : A -> M (Agent L) B) :
  (forall a b, R1 a b -> R2 a b) ->
  (forall a b c, R1 a b -> R2 b c -> R2 a c) ->
  ensures R1 m -> (forall x, ensures R2 (k x)) -> ensures R2 (bind m k).
Proof.
  intros Hw Hc Hm Hk a. unfold bind. specialize (Hm a).
  destruct (m a) as [[x|e] a1]; cbn in *.
  - eapply Hc; [exact Hm | apply Hk].
  - apply Hw, Hm.
Qed.

Lemma counter_kept_refl (a : Sentinel) : counter_kept a a.
Proof. reflexivity. Qed.

Lemma counter_kept_trans (a b c : Sentinel) :
  counter_kept a b -> counter_kept b c -> counter_kept a c.
Proof. unfold counter_kept. congruence. Qed.

Lemma counter_kept_stepped (a b : Sentinel) :
  counter_kept a b -> counter_stepped a b.
Proof. unfold counter_kept, counter_stepped. lia. Qed.

Lemma counter_kept_then_stepped (a b c : Sentinel) :
  counter_kept a b -> counter_stepped b c -> counter_stepped a c.
Proof. unfold counter_kept, counter_stepped. lia. Qed.

Ltac counter_leaf := intros ?; reflexivity.

Lemma counter_kept_check_anti_paralysis :
  ensures counter_kept (_check_anti_paralysis format_float).
Proof.
  unfold _check_anti_paralysis, with_local, BaseAgent.log_reflective,
    BaseAgent.publish, BaseAgent.redis_publish, BaseAgent.utcnow,
    BaseAgent.with_world.
  ensure counter_kept_refl counter_kept_trans fail counter_leaf.
Qed.

Lemma issue_halt_counts_one (reason fault_code : string) (context : Json)
    (a : Sentinel) :
  current_repair_cycle
    (local (snd (_issue_halt format_float reason fault_code context a))) =
    current_repair_cycle (local a) + 1.
Proof.
  unfold _issue_halt. run.
  destruct (get_method context "subsystem_origin" (JStr "unknown"))
    as [origin|e]; cbn; [|reflexivity].
  destruct (max_repair_cycles (local a) <=? current_repair_cycle (local a) + 1);
    [reflexivity|].
  match goal with
  | |- context [_check_anti_paralysis _ ?x] =>
      pose proof (counter_kept_check_anti_paralysis x) as H;
      destruct (_check_anti_paralysis format_float x) as [[u|e] a1]
  end; cbn in *; exact H.
Qed.

Lemma counter_stepped_issue_halt (reason fault_code : string)
    (context : Json) :
  ensures counter_stepped (_issue_halt format_float reason fault_code context).
Proof.
  intros a. unfold counter_stepped. rewrite issue_halt_counts_one. lia.
Qed.

Ltac counter_step :=
  first
    [ apply counter_stepped_issue_halt
    | apply (ensures_weaken counter_kept counter_stepped _
               counter_kept_stepped);
      solve [ unfold with_local, BaseAgent.utcnow;
              ensure counter_kept_refl counter_kept_trans
                ltac:(apply counter_kept_check_anti_paralysis) counter_leaf ]
    | apply (ensures_bind_after counter_kept counter_stepped _ _
               counter_kept_stepped counter_kept_then_stepped);
      [ solve [ unfold call, with_local;
                ensure counter_kept_refl counter_kept_trans fail
                  counter_leaf ]
      | intros ]
    | match goal with
      | |- ensures _ (if ?b then _ else _) => destruct b
      | |- ensures _ (match ?x with _ => _ end) => destruct x
      end ].

(** X1.  A submission never lowers the repair-cycle counter and raises it by
    one cycle at most, on every path, those that end in an exception
    included; nothing in the adjudicator resets it. *)
Theorem repair_cycle_only_counts_up (input : Json) (a : Sentinel) :
  let a' := snd (_process_input json_dumps format_float input a) in
  current_repair_cycle (local a) <= current_repair_cycle (local a')
    <= current_repair_cycle (local a) + 1.
Proof.
  revert a. change (ensures counter_stepped
                      (_process_input json_dumps format_float input)).
  unfold _process_input. repeat counter_step.
Qed.

Lemma decisions_kept_refl (a : Sentinel) : decisions_kept a a.
Proof. split; reflexivity. Qed.

Lemma decisions_kept_trans (a b c : Sentinel) :
  decisions_kept a b -> decisions_kept b c -> decisions_kept a c.
Proof. unfold decisions_kept. intros [] []. split; congruence. Qed.

Ltac decisions_leaf := intros ?; split; reflexivity.

(** On every path the monitor leaves the decisions it keeps: all of them
    below ten, the trailing window from ten on. *)
Lemma check_anti_paralysis_keeps (a : Sentinel) :
  let a' := snd (_check_anti_paralysis format_float a) in
  recent_decisions (local a') = kept_decisions a /\
  measurement_window (local a') = measurement_window (local a).
Proof.
  cbv zeta.
  remember (snd (_check_anti_paralysis format_float a)) as a' eqn:E.
  unfold _check_anti_paralysis in E.
  unfold bind at 1 in E. unfold get at 1 in E. cbn beta iota in E.
  unfold kept_decisions.
  destruct (Z.of_nat (length (recent_decisions (local a))) <? 10).
  { subst a'. split; reflexivity. }
  match type of E with
  | context [bind (with_local ?f) ?k a] =>
      assert (H : ensures decisions_kept (k tt))
  end.
  { unfold with_local, BaseAgent.log_reflective, BaseAgent.publish,
      BaseAgent.redis_publish, BaseAgent.utcnow, BaseAgent.with_world.
    ensure decisions_kept_refl decisions_kept_trans fail decisions_leaf. }
  unfold bind at 1 in E. unfold with_local at 1 in E.
  unfold modify at 1 in E. cbn beta iota in E.
  match type of E with
  | _ = snd (?m ?x) => destruct (H x) as [H1 H2]
  end.
  subst a'. split.
  - etransitivity; [exact H1 | reflexivity].
  - etransitivity; [exact H2 | reflexivity].
Qed.

Lemma kept_decisions_bounded (a : Sentinel) :
  1 <= measurement_window (local a) ->
  Z.of_nat (length (recent_decisions (local a))) <= window_bound a + 1 ->
  Z.of_nat (length (kept_decisions a)) <= window_bound a.
Proof.
  intros Hw Hlen. unfold kept_decisions, window_bound in *.
  destruct (Z.of_nat (length (recent_decisions (local a))) <? 10) eqn:E.
  - apply Z.ltb_lt in E. lia.
  - unfold last_slice.
    replace (0 <? measurement_window (local a)) with true
      by (symmetry; apply Z.ltb_lt; lia).
    rewrite length_skipn. lia.
Qed.

Lemma window_kept_refl (a : Sentinel) : window_kept a a.
Proof. split; auto. Qed.

Lemma window_kept_trans (a b c : Sentinel) :
  window_kept a b -> window_kept b c -> window_kept a c.
Proof.
  unfold window_kept. intros [E1 H1] [E2 H2]. split; [congruence|].
  intros Hw Ha. apply H2; [rewrite E1; exact Hw | auto].
Qed.

Ltac window_leaf := intros ?; split; [reflexivity | intros _ H; exact H].

(** Appending a decision and checking the rate keeps the bound, whatever
    follows keeps it. *)
Lemma window_kept_append_check {A} (d : Json) (k : unit -> M Sentinel A) :
  (forall x, ensures window_kept (k x)) ->
  ensures window_kept
    (bind (with_local (fun s =>
             set_recent_decisions (recent_decisions s ++ [d]) s))
          (fun _ => bind (_check_anti_paralysis format_float) k)).
Proof.
  intros Hk a. unfold bind at 1. unfold with_local at 1. unfold modify at 1.
  cbn beta iota.
  set (x := set_local _ a).
  pose proof (check_anti_paralysis_keeps x) as [Hrd Hwin]. cbn zeta in *.
  assert (Hx : window_kept a (snd (_check_anti_paralysis format_float x))).
  { split; [rewrite Hwin; reflexivity|].
    intros Hw Ha. unfold within_window, window_bound in *.
    rewrite Hrd, Hwin.
    pose proof (kept_decisions_bounded x) as Hb.
    unfold window_bound in Hb. apply Hb.
    - exact Hw.
    - subst x. cbn. rewrite length_app. cbn. lia. }
  unfold bind.
  destruct (_check_anti_paralysis format_float x) as [[u|e] a1]; cbn in *.
  - eapply window_kept_trans; [exact Hx | apply Hk].
  - exact Hx.
Qed.

Ltac window_step :=
  first
    [ apply window_kept_append_check; intros
    | apply (ensures_ret _ window_kept_refl)
    | apply (ensures_raise _ window_kept_refl)
    | apply (ensures_lift _ window_kept_refl)
    | apply (ensures_get _ window_kept_refl)
    | apply (ensures_bind _ window_kept_trans); [|intros]
    | match goal with
      | |- ensures _ (if ?b then _ else _) => destruct b
      | |- ensures _ (match ?x with _ => _ end) => destruct x
      end
    | solve [window_leaf] ].

Lemma window_kept_issue_halt (reason fault_code : string) (context : Json) :
  ensures window_kept (_issue_halt format_float reason fault_code context).
Proof.
  unfold _issue_halt, BaseAgent.log_reflective, BaseAgent.utcnow,
    BaseAgent.with_world.
  repeat window_step.
Qed.

(** X2.  The decisions held for the rate monitor stay bounded: with a positive
    measurement window, an adjudicator that holds at most the larger of
    nine and the window holds at most that many after any submission,
    whatever its outcome. *)
Theorem decision_window_stays_bounded (input : Json) (a : Sentinel) :
  1 <= measurement_window (local a) ->
  within_window a ->
  within_window (snd (_process_input json_dumps format_float input a)).
Proof.
  revert a.
  assert (H : ensures window_kept
                (_process_input json_dumps format_float input)).
  { unfold _process_input, call, BaseAgent.utcnow.
    repeat first [ apply window_kept_issue_halt | window_step ]. }
  intros a Hw Ha. apply (H a); assumption.
Qed.

(** X3.  With a measurement window of zero the trim keeps every decision: the
    slice from index [-0] is the whole list, so the monitor holds, and
    rates, all the decisions ever appended. *)
Theorem zero_window_keeps_every_decision (a : Sentinel) :
  measurement_window (local a) = 0 ->
  recent_decisions (local (snd (_check_anti_paralysis format_float a))) =
    recent_decisions (local a).
Proof.
  intros Hw. destruct (check_anti_paralysis_keeps a) as [H _].
  cbn zeta in H. rewrite H. unfold kept_decisions. rewrite Hw.
  destruct (_ <? 10); reflexivity.
Qed.

(** X4.  Whatever is submitted and whatever comes of it, a decision or an
    exception, the adjudicator's records are only added to: no row of the
    episodic memory, of the violations or of the halt events, no log line
    and no bus event is removed or rewritten, and its settings stay. *)
Theorem adjudication_only_appends (input : Json) (a : Sentinel) :
  let a' := snd (SentinelAgent.process json_dumps format_float input a) in
  grows (world a) (world a') /\ same_settings a a'.
Proof.
  destruct (advances_process input a) as (S & _ & _ & G). split; assumption.
Qed.

(** X5.  Every halt event written is backed by a repair cycle counted: over any
    submission, whatever its outcome, the rows added to the halt events do
    not outnumber the cycles added to the counter. *)
Theorem halt_events_backed_by_cycles (input : Json) (a : Sentinel) :
  let a' := snd (SentinelAgent.process json_dumps format_float input a) in
  Z.of_nat (length (halt_events (world a')))
    - Z.of_nat (length (halt_events (world a)))
  <= current_repair_cycle (local a') - current_repair_cycle (local a).
Proof.
  cbv zeta. destruct (advances_process input a) as (_ & _ & H & _). exact H.
Qed.

Lemma halt_events_kept_refl (a : Sentinel) : halt_events_kept a a.
Proof. reflexivity. Qed.

Lemma halt_events_kept_trans (a b c : Sentinel) :
  halt_events_kept a b -> halt_events_kept b c -> halt_events_kept a c.
Proof. unfold halt_events_kept. congruence. Qed.

Lemma halt_events_kept_check_anti_paralysis :
  ensures halt_events_kept (_check_anti_paralysis format_float).
Proof.
  unfold _check_anti_paralysis, with_local, BaseAgent.log_reflective,
    BaseAgent.publish, BaseAgent.redis_publish, BaseAgent.utcnow,
    BaseAgent.with_world.
  ensure halt_events_kept_refl halt_events_kept_trans fail counter_leaf.
Qed.

(** The row a failure inserts, on every path of [_issue_halt] with a
    dictionary for context. *)
Lemma issue_halt_event (a : Sentinel) (reason fault_code : string)
    (context : dict) :
  halt_events
    (world (snd (_issue_halt format_float reason fault_code
                             (JDict context) a))) =
    (halt_events (world a) ++ [halt_event_of a reason context])%list.
Proof.
  unfold _issue_halt, halt_event_of. run. cbn.
  destruct (max_repair_cycles (local a) <=? current_repair_cycle (local a) + 1).
  - reflexivity.
  - match goal with
    | |- context [_check_anti_paralysis _ ?x] =>
        pose proof (halt_events_kept_check_anti_paralysis x) as H;
        destruct (_check_anti_paralysis format_float x) as [[u|e] a1]
    end; cbn in *; rewrite H; reflexivity.
Qed.

(** X6.  The halt event of a failing submission carries the reason of the check
    that failed, the next row id and the cycle just counted, and names as
    halted subsystem the [subsystem_origin] entry of the submission's
    context, [unknown] without one: the submission's own
    [subsystem_origin] field is not what is recorded. *)
Theorem halt_event_names_the_context_origin (a : Sentinel)
    (input artifact origin action_type : Json) (context : dict)
    (reason fault_code : string) :
  submits input artifact origin action_type context ->
  _is_threshold_action (constitution a) action_type = true ->
  fails_veto json_dumps (constitution a) artifact origin action_type context
             reason fault_code ->
  halt_events
    (world (snd (_process_input json_dumps format_float input a))) =
    (halt_events (world a) ++ [halt_event_of a reason context])%list.
Proof.
  intros Hsub Hthr (k & c & Hpass & Hk).
  rewrite (process_input_veto json_dumps format_float
             a _ _ _ _ _ k c _ _ Hsub Hthr Hpass Hk).
  rewrite issue_halt_event. reflexivity.
Qed.



Lemma find_never {A} (l : list A) : find (fun _ => false) l = None.
Proof. induction l; auto. Qed.

(** X8.  Where the constitution lists [violates_legality] among the boundary
    halt conditions, content with [illegal] or [fraud] in it never reaches
    the legal check: the first check fails on it, and the fault code is
    [boundary_violation]. *)
Theorem legality_keywords_fail_as_boundary_violation (cst : Constitution)
    (artifact context : Json) :
  In "violates_legality" (boundary_halt_conditions cst) ->
  contains "illegal" (lower (json_dumps artifact)) = true \/
  contains "fraud" (lower (json_dumps artifact)) = true ->
  exists reason,
    _moral_regression_test json_dumps cst artifact context =
      Failed reason "boundary_violation".
Proof.
  intros Hin Hkw. unfold _moral_regression_test.
  replace (find (_detect_coherence_violation artifact) _) with (@None string)
    by (symmetry; apply find_never).
  destruct (find _ (boundary_halt_conditions cst)) as [c|] eqn:E.
  - eexists. reflexivity.
  - exfalso. pose proof (find_none _ _ E _ Hin) as H.
    unfold _detect_boundary_violation, violation_keywords in H.
    cbn in H. destruct Hkw as [K|K]; rewrite K in H; cbn in H.
    + discriminate.
    + rewrite !orb_true_r in H. discriminate.
Qed.

Lemma constraints_loop_failed (origin : string) (artifact : Json)
    (cs : list string) (reason fault_code : string) :
  constraints_loop origin artifact cs = Ok (Failed reason fault_code) ->
  fault_code = "subsystem_constraint_violation" /\
  in_json "execute_command" artifact = Ok true /\
  exists c, In c cs /\ contains "cannot_execute" c = true /\
            reason = origin ++ " violated constraint: " ++ c.
Proof.
  induction cs as [|c cs IH]; cbn; [discriminate|].
  destruct (contains "cannot_execute" c) eqn:Ec.
  - destruct (in_json "execute_command" artifact) as [[|]|e] eqn:Ei.
    + intros H. injection H as <- <-. repeat split. exists c. auto.
    + intros H. destruct (IH H) as (? & ? & c' & ? & ? & ?).
      repeat split; auto. exists c'. auto.
    + discriminate.
  - intros H. destruct (IH H) as (? & ? & c' & ? & ? & ?).
    repeat split; auto. exists c'. auto.
Qed.

(** X9.  The subsystem check fails in one case only: the origin is the name of
    a configured subsystem one of whose constraints has [cannot_execute]
    in it, and the artifact has [execute_command] for a key, element or
    substring. *)
Theorem subsystem_check_fails_only_on_execute_command (cst : Constitution)
    (artifact origin : Json) (reason fault_code : string) :
  _subsystem_constraint_check cst artifact origin =
    Ok (Failed reason fault_code) ->
  fault_code = "subsystem_constraint_violation" /\
  in_json "execute_command" artifact = Ok true /\
  exists name config c,
    origin = JStr name /\
    lookup_subsystem name (subsystems cst) = Some config /\
    In c (constraints config) /\
    contains "cannot_execute" c = true /\
    reason = name ++ " violated constraint: " ++ c.
Proof.
  unfold _subsystem_constraint_check.
  destruct origin as [| | | |name| |]; try discriminate.
  destruct (lookup_subsystem name (subsystems cst)) as [config|] eqn:E;
    [|discriminate].
  intros H. destruct (constraints_loop_failed _ _ _ _ _ H)
    as (? & ? & c & ? & ? & ?).
  repeat split; auto. exists name, config, c. auto.
Qed.

(** X10.  Once the next failure reaches the maximum of repair cycles, every
    failing submission is answered by an escalation, however many follow:
    the counter keeps counting, and none of them enters the decisions held
    or is followed by a calibration trigger. *)
Theorem escalation_is_permanent (inputs : list Json) (a : Sentinel) :
  well_formed a ->
  at_last_cycle a ->
  Forall (failing_submission json_dumps (constitution a)) inputs ->
  let a' := submit_all json_dumps format_float inputs a in
  Forall escalates (adjudicate_all json_dumps format_float inputs a) /\
  current_repair_cycle (local a') =
    current_repair_cycle (local a) + Z.of_nat (length inputs) /\
  recent_decisions (local a') = recent_decisions (local a) /\
  bus (world a') = bus (world a).
Proof.
  revert a. induction inputs as [|input inputs IH]; intros a Hwf Hmax Hall.
  - cbn. repeat split; auto. lia.
  - inversion Hall as [|? ? Hin Hrest]; subst.
    pose proof Hin as (x & o & t & c & r & f & Hs & Ht & Hf).
    destruct (process_input_fail json_dumps format_float
                a _ _ _ _ _ _ _ Hs Ht Hf Hwf)
      as (d & a1 & E & S1 & Hwf1 & C1 & _ & _ & _ & K).
    unfold at_last_cycle in Hmax.
    replace (max_repair_cycles (local a) <=? _) with true in K
      by (symmetry; now apply Z.leb_le).
    destruct K as (D & _ & Hrd & Hb).
    pose proof S1 as (_ & Hcst & _ & Hm & _).
    assert (Hmax1 : at_last_cycle a1).
    { unfold at_last_cycle. rewrite Hm, C1. lia. }
    rewrite <- Hcst in Hrest.
    destruct (IH a1 Hwf1 Hmax1 Hrest) as (F & C & R & B).
    cbv zeta in *. unfold submit_all in *. cbn [fold_left adjudicate_all].
    rewrite E. cbn [fst snd]. repeat split.
    + constructor; [exists d; auto | exact F].
    + rewrite C, C1. cbn [length]. lia.
    + rewrite R. exact Hrd.
    + rewrite B. exact Hb.
Qed.

End SentinelPaths.

(** ** The wrapper, the request and the mode of every agent *)

Section BasePaths.

Context {L : Type}.
Variable _process_input : Json -> M (Agent L) Json.
Variable _check_constraints : Json -> M (Agent L) bool.

(** X11.  The audit trail is closed: on an active agent whose logic and predicate
    only add to the episodic memory, every call writes the row of its
    input first and a row related to it last, [output_generated] with the
    output when the call returns, [processing_error] with the text of the
    exception when it raises. *)
Theorem every_input_row_is_closed (a : Agent L) (input : Json) :
  active a = true ->
  (forall i, ensures episodic_grows (_process_input i)) ->
  (forall o, ensures episodic_grows (_check_constraints o)) ->
  let r := BaseAgent.process _process_input _check_constraints input a in
  exists between row,
    episodic_memory (world (snd r)) =
      (episodic_memory (world a) ++ [input_row a input] ++ between
         ++ [row])%list /\
    closes input (fst r) (ep_id (input_row a input)) row.
Proof.
  intros Hact Hbody Hcheck. cbv zeta.
  unfold BaseAgent.process. run. rewrite Hact. cbn.
  unfold BaseAgent.write_episodic. run. cbn.
  match goal with
  | |- context [_process_input input ?x] =>
      pose proof (Hbody input x) as [m1 E1];
      destruct (_process_input input x) as [[output|e] a2]
  end; cbn in E1 |- *.
  - pose proof (Hcheck output a2) as [m2 E2].
    destruct (_check_constraints output a2) as [[[|]|e] a3]; cbn in E2 |- *;
      unfold BaseAgent._log_violation, BaseAgent.logger_error; run; cbn;
      rewrite E2, E1; exists (m1 ++ m2)%list; eexists;
      (split; [rewrite <- !app_assoc; reflexivity|]);
      repeat split; rewrite !length_app; cbn; reflexivity.
  - unfold BaseAgent.logger_error. run. cbn.
    rewrite E1. exists m1. eexists.
    split; [rewrite <- !app_assoc; reflexivity|].
    repeat split.
Qed.

(** X12.  No output leaves the wrapper unchecked: when [process] returns an
    output, the agent was active, the output is what the subsystem's logic
    returned on the state that holds the input's row, the predicate
    returned [True] on it, and no violation was recorded after that. *)
Theorem returned_output_has_passed_the_check (a a' : Agent L)
    (input output : Json) :
  BaseAgent.process _process_input _check_constraints input a =
    (Ok output, a') ->
  active a = true /\
  exists a2 a3,
    _process_input input
      (snd (BaseAgent.write_episodic "input_received"
              (JDict [("input", input)]) None a)) = (Ok output, a2) /\
    _check_constraints output a2 = (Ok true, a3) /\
    constitutional_violations (world a') =
      constitutional_violations (world a3).
Proof.
  unfold BaseAgent.process. run.
  destruct (active a); cbn; [|discriminate].
  unfold BaseAgent.write_episodic. run. cbn.
  match goal with
  | |- context [_process_input input ?x] =>
      destruct (_process_input input x) as [[out|e] a2]
  end; cbn.
  - destruct (_check_constraints out a2) as [[[|]|e] a3] eqn:Ec; cbn;
      unfold BaseAgent._log_violation, BaseAgent.logger_error; run; cbn;
      intros H; try discriminate H.
    injection H as <- <-. split; [reflexivity|].
    exists a2, a3. repeat split. exact Ec.
  - unfold BaseAgent.logger_error. run. cbn. discriminate.
Qed.

(** After [shutdown] an agent refuses every input: the call raises
    [RuntimeError], the subsystem's logic is not run and nothing is
    recorded. *)
Lemma shut_down_agent_refuses_input (a : Agent L) (input : Json) :
  let a1 := snd (BaseAgent.shutdown a) in
  BaseAgent.process _process_input _check_constraints input a1 =
    (Raise (RuntimeError (subsystem_id a ++ " not active")), a1).
Proof. reflexivity. Qed.

End BasePaths.













(** X15.  [set_mode] logs the new mode as the previous one: whatever mode the
    agent was in, the [previous_mode] of the entry it adds to the log is
    the mode just set. *)
Theorem set_mode_logs_new_mode_as_previous {L : Type} (a : Agent L)
    (mode : Mode) :
  let a' := snd (BaseAgent.set_mode mode a) in
  current_mode a' = Some mode /\
  exists entry,
    logger (world a') = (logger (world a) ++ [LogReflective (JDict entry)])%list /\
    dict_get "type" entry = Some (JStr "mode_change") /\
    dict_get "metadata" entry =
      Some (JDict [("previous_mode", JStr (mode_value mode))]).
Proof.
  cbn. split; [reflexivity|]. eexists. split; [reflexivity|].
  split; reflexivity.
Qed.

(** ** The executor's sandbox *)





Lemma violations_kept_refl {L} (a : Agent L) : violations_kept a a.
Proof. reflexivity. Qed.

Lemma violations_kept_trans {L} (a b c : Agent L) :
  violations_kept a b -> violations_kept b c -> violations_kept a c.
Proof. unfold violations_kept. congruence. Qed.

Ltac kept_leaf := intros ?; reflexivity.

Section WrapperViolations.

Context {L : Type}.
Variable _process_input : Json -> M (Agent L) Json.
Variable _check_constraints : Json -> M (Agent L) bool.

(** The wrapper adds a violation record only when the predicate returns
    [False]. *)
Lemma process_keeps_violations (input : Json) :
  (forall i, ensures violations_kept (_process_input i)) ->
  (forall o, ensures violations_kept (_check_constraints o)) ->
  (forall o a, fst (_check_constraints o a) <> Ok false) ->
  ensures violations_kept
    (BaseAgent.process _process_input _check_constraints input).
Proof.
  intros Hbody Hcheck Hnever a.
  unfold BaseAgent.process. run. destruct (active a); cbn; [|reflexivity].
  unfold BaseAgent.write_episodic. run. cbn.
  match goal with
  | |- context [_process_input input ?x] =>
      pose proof (Hbody input x) as E1;
      destruct (_process_input input x) as [[output|e] a2]
  end; cbn in E1 |- *.
  - pose proof (Hcheck output a2) as E2.
    pose proof (Hnever output a2) as N.
    destruct (_check_constraints output a2) as [[[|]|e] a3]; cbn in E2, N |- *;
      try congruence;
      unfold BaseAgent.logger_error; run; cbn;
      unfold violations_kept in *; cbn in *; congruence.
  - unfold BaseAgent.logger_error. run. cbn.
    unfold violations_kept in *; cbn in *; congruence.
Qed.

End WrapperViolations.

Section ExecutorPaths.

Variable json_dumps : Json -> string.
Variable format_float : string -> float -> string.
Variable py_str : Json -> string.
Variable path_str : string -> string.
Variable default_constitution : Constitution.








(** X17.  A task of a type the sandbox does not dispatch on, [file_delete] and
    [financial] of the approval mapping among them, is answered by a
    result of status [failure] that names the type: no operating-system
    action is taken, the task does not enter the execution history, and an
    [execution_error] row is written. *)
Theorem unsupported_task_type_is_a_failure (e : ExecutorAgent.Executor)
    (input task task_type parameters skip : Json) :
  getitem input "task" = Ok task ->
  get_method input "skip_approval" (JBool false) = Ok skip ->
  ExecutorAgent.truthy skip = true ->
  getitem task "type" = Ok task_type ->
  getitem task "parameters" = Ok parameters ->
  existsb (eq_str task_type) supported_types = false ->
  exists t e' row,
    ExecutorAgent._process_input json_dumps format_float py_str path_str
      default_constitution input e =
      (Ok (JDict [("execution_result",
                   ExecutorAgent.result_dict "failure" JNull
                     [JStr ("Unsupported task type: " ++ py_str task_type)]
                     false);
                  ("executed_at", JStr t)]), e') /\
    os_of (world e') = os_of (world e) /\
    ExecutorAgent.execution_history (local e') =
      ExecutorAgent.execution_history (local e) /\
    episodic_memory (world e') = (episodic_memory (world e) ++ [row])%list /\
    ep_event_type row = "execution_error".
Proof.
  intros Htask Hskip Htruthy Htype Hparams Hun.
  unfold supported_types in Hun. cbn in Hun.
  repeat (apply orb_false_elim in Hun; destruct Hun as [? Hun]).
  unfold ExecutorAgent._process_input, ExecutorAgent._execute_sandboxed,
    ExecutorAgent._handle_execution_error, BaseAgent.write_episodic,
    BaseAgent.logger_error. run.
  rewrite Htask, Hskip, Htruthy. cbn. rewrite Htype, Hparams. cbn.
  repeat match goal with H : eq_str _ _ = false |- _ => rewrite H end.
  cbn. do 3 eexists. repeat split.
Qed.

(** X18.  A task without a [type] defeats the error handler: the sandbox raises
    on reading the type, the handler reads it again for its log line and
    raises in turn, and the exception leaves [_process_input] with no
    failure result, no log line and no row written. *)
Theorem task_without_type_escapes_the_handler (e : ExecutorAgent.Executor)
    (input task skip : Json) (error : Exn) :
  getitem input "task" = Ok task ->
  get_method input "skip_approval" (JBool false) = Ok skip ->
  ExecutorAgent.truthy skip = true ->
  getitem task "type" = Raise error ->
  ExecutorAgent._process_input json_dumps format_float py_str path_str
    default_constitution input e = (Raise error, e).
Proof.
  intros Htask Hskip Htruthy Htype.
  unfold ExecutorAgent._process_input, ExecutorAgent._execute_sandboxed,
    ExecutorAgent._handle_execution_error. run.
  rewrite Htask, Hskip, Htruthy. cbn. rewrite Htype. reflexivity.
Qed.

Lemma violations_kept_sentinel_process (input : Json) :
  ensures violations_kept
    (SentinelAgent.process json_dumps format_float input).
Proof.
  apply process_keeps_violations.
  - intros i.
    unfold SentinelAgent._process_input, _issue_halt, _check_anti_paralysis,
      call, SentinelAgent.with_local, BaseAgent.log_reflective,
      BaseAgent.publish, BaseAgent.redis_publish, BaseAgent.utcnow,
      BaseAgent.with_world.
    ensure (@violations_kept_refl SentinelState)
           (@violations_kept_trans SentinelState) fail kept_leaf.
  - intros o a. reflexivity.
  - intros o a. cbn. discriminate.
Qed.

Lemma violations_kept_approval (task : Json) :
  ensures violations_kept
    (ExecutorAgent._request_sentinel_approval json_dumps format_float
       default_constitution task).
Proof.
  intros e. unfold ExecutorAgent._request_sentinel_approval.
  match goal with
  | |- context [?session (SentinelAgent.new ?c ?w)] =>
      assert (H : ensures violations_kept session)
  end.
  { unfold BaseAgent.initialize, BaseAgent.shutdown, BaseAgent.logger_info,
      BaseAgent.with_world.
    ensure (@violations_kept_refl SentinelState)
           (@violations_kept_trans SentinelState)
           ltac:(auto using violations_kept_sentinel_process) kept_leaf. }
  match goal with
  | |- context [?session (SentinelAgent.new ?c ?w)] =>
      specialize (H (SentinelAgent.new c w));
      destruct (session (SentinelAgent.new c w)) as [r s']
  end.
  exact H.
Qed.

(** X19.  The executor never records a constitutional violation: its predicate
    returns [True] or raises on every output, so no call of the executor,
    the adjudication it asks for included, adds a row to the violations. *)
Theorem executor_never_records_a_violation (input : Json)
    (e : ExecutorAgent.Executor) :
  constitutional_violations
    (world (snd (ExecutorAgent.process json_dumps format_float py_str
                   path_str default_constitution input e))) =
    constitutional_violations (world e).
Proof.
  revert e.
  change (ensures violations_kept
            (ExecutorAgent.process json_dumps format_float py_str path_str
               default_constitution input)).
  apply process_keeps_violations.
  - intros i.
    unfold ExecutorAgent._process_input, ExecutorAgent._execute_sandboxed,
      ExecutorAgent._execute_file_write, ExecutorAgent._execute_file_read,
      ExecutorAgent._execute_command, ExecutorAgent._execute_api_call,
      ExecutorAgent._handle_execution_error, ExecutorAgent.os_event,
      ExecutorAgent.with_local, BaseAgent.write_episodic,
      BaseAgent.logger_error, BaseAgent.with_world, BaseAgent.utcnow.
    ensure (@violations_kept_refl ExecutorAgent.ExecutorState)
           (@violations_kept_trans ExecutorAgent.ExecutorState)
           ltac:(auto using violations_kept_approval) kept_leaf.
  - intros o.
    unfold ExecutorAgent._check_constraints.
    ensure (@violations_kept_refl ExecutorAgent.ExecutorState)
           (@violations_kept_trans ExecutorAgent.ExecutorState)
           fail kept_leaf.
  - intros o a. unfold ExecutorAgent._check_constraints. run.
    destruct (get_method o "execution_result" (JDict [])) as [x|?]; cbn;
      [|discriminate].
    destruct (get_method x "status" JNull) as [st|?]; cbn; [|discriminate].
    destruct (eq_str st "rejected"); discriminate.
Qed.

(** The wrapper leaves the halt events to the adjudication. *)
Lemma sentinel_process_halt_events (input : Json) (a : Sentinel) :
  active a = true ->
  halt_events
    (world (snd (SentinelAgent.process json_dumps format_float input a))) =
  halt_events
    (world (snd (SentinelAgent._process_input json_dumps format_float input
                   (snd (BaseAgent.write_episodic "input_received"
                           (JDict [("input", input)]) None a))))).
Proof.
  intros Hact. unfold SentinelAgent.process.
  generalize (SentinelAgent._process_input json_dumps format_float).
  intros body. unfold BaseAgent.process. run.
  rewrite Hact. cbn. unfold BaseAgent.write_episodic. run. cbn.
  match goal with
  | |- context [body input ?x] => destruct (body input x) as [[o|err] a2]
  end; cbn; unfold BaseAgent.logger_error; run; reflexivity.
Qed.

(** X20.  Every task the adjudicator refuses to the executor is recorded as the
    first repair cycle of an unknown subsystem: the adjudicator of an
    approval is created for it, so its counter starts at zero, and the
    approval's context is empty, so the halt event does not name the
    executor. *)
Theorem executor_rejections_name_no_subsystem (e : ExecutorAgent.Executor)
    (task : Json) (action_type reason fault_code : string) :
  ExecutorAgent._map_task_to_action_type task = Ok action_type ->
  _is_threshold_action default_constitution (JStr action_type) = true ->
  fails_veto json_dumps default_constitution task (JStr "executor")
             (JStr action_type) [] reason fault_code ->
  halt_events
    (world (snd (ExecutorAgent._request_sentinel_approval json_dumps
                   format_float default_constitution task e))) =
    (halt_events (world e) ++
       [{| he_id := Z.of_nat (length (halt_events (world e))) + 1;
           he_halted_subsystem := JStr "unknown";
           he_halt_reason := reason;
           he_repair_cycle_count := 1 |}])%list.
Proof.
  intros Hmap Hthr Hfail.
  unfold ExecutorAgent._request_sentinel_approval. run. cbn.
  rewrite Hmap.
  destruct Hfail as (k & c & Hpass & Hk).
  match goal with
  | |- context [SentinelAgent.process _ _ ?i ?s0] =>
      pose proof (sentinel_process_halt_events i s0 eq_refl) as Hp;
      rewrite (process_input_veto json_dumps format_float
                 _ i task (JStr "executor") (JStr action_type) [] k c
                 reason fault_code) in Hp;
      [ rewrite issue_halt_event in Hp;
        destruct (SentinelAgent.process json_dumps format_float i s0)
          as [[decision|err] s1]
      | repeat split | exact Hthr | exact Hpass | exact Hk ]
  end; cbn in Hp |- *.
  - destruct (getitem decision "decision") as [verdict|?]; cbn;
      [|exact Hp].
    destruct (get_method decision "halt_reason" (JStr "")); cbn; exact Hp.
  - exact Hp.
Qed.

End ExecutorPaths.

(** ** The predicates of the mirror and the interpreter on their own output *)

(** X21.  The mirror accepts what it generates: whatever the coherence score,
    the emotional load and the alignment, the recommendations of
    [_generate_recommendations] are not empty and pass the mirror's own
    check for command-like language. *)
Theorem mirror_accepts_its_own_recommendations {L : Type} (a : Agent L)
    (coherence_score : float) (emotional_load : string)
    (philosophical_alignment : bool) (reflection : Json) :
  MirrorAgent._generate_recommendations coherence_score emotional_load
    philosophical_alignment <> [] /\
  MirrorAgent._check_constraints
    (JDict [("reflection", reflection);
            ("recommendations",
             JList (map JStr
                      (MirrorAgent._generate_recommendations coherence_score
                         emotional_load philosophical_alignment)))]) a =
    (Ok true, a).
Proof.
  unfold MirrorAgent._generate_recommendations.
  destruct (PrimFloat.ltb coherence_score 0.5);
    [|destruct (PrimFloat.ltb 0.9 coherence_score)];
    (destruct (String.eqb emotional_load "high");
       [|destruct (String.eqb emotional_load "low")]);
    destruct philosophical_alignment;
    (split; [discriminate | reflexivity]).
Qed.

(** X22.  The interpreter's routing passes the interpreter's own check: a
    routing that [_route_to_subsystem] returns never sends an [execute] or
    [create] intent to the interpreter itself. *)
Theorem interpreter_routing_passes_its_own_check {L : Type} (a : Agent L)
    (intent context routing : Json) :
  InterpreterAgent._route_to_subsystem intent context = Ok routing ->
  InterpreterAgent._check_constraints
    (JDict [("intent", intent); ("routing", routing)]) a = (Ok true, a).
Proof.
  intros H. unfold InterpreterAgent._route_to_subsystem in H.
  destruct intent as [| | | | | |d]; try discriminate H.
  unfold getitem in H.
  destruct (dict_get "action_type" d) as [action_type|] eqn:Hat;
    [|discriminate].
  destruct (dict_get "original_input" d) as [[| | | |text| |]|];
    try discriminate.
  unfold InterpreterAgent._check_constraints. run.
  unfold get_method at 1. unfold get_default at 1.
  cbn [dict_get String.eqb Ascii.eqb Bool.eqb].
  destruct (get_method (JDict d) "ambiguities" JNull) as [amb|] eqn:Hamb;
    [|destruct action_type as [| | | |k| |]; cbn in H;
      repeat match type of H with
             | context [if ?b then _ else _] => destruct b
             end; discriminate].
  assert (Hget : forall target mode confidence,
             routing = JDict [("target_subsystem", JStr target);
                              ("suggested_mode", JStr mode);
                              ("confidence", JFloat confidence)] ->
             (target <> "interpreter" \/
              in_strings action_type ["execute"; "create"] = false) ->
             (t <- lift (get_method routing "target_subsystem" JNull) ;;
              if eq_str t "interpreter"
              then
                i <- lift (get_method
                             (JDict [("intent", JDict d);
                                     ("routing", routing)])
                             "intent" (JDict [])) ;;
                action <- lift (get_method i "action_type" JNull) ;;
                if in_strings action ["execute"; "create"]
                then
                  BaseAgent.logger_error
                    "Constraint violation: Interpreter attempted to handle execution/creation" ;;;
                  ret false
                else ret true
              else ret true) a = (Ok true, a)).
  { intros target mode confidence -> Hcase. run. cbn.
    destruct (String.eqb target "interpreter") eqn:Et; [|reflexivity].
    destruct Hcase as [Hne|Hin].
    - apply String.eqb_eq in Et. contradiction.
    - unfold get_default. rewrite Hat.
      unfold in_strings in Hin. cbn in Hin. rewrite Hin. reflexivity. }
  destruct action_type as [| | | |k| |]; cbn in H; try discriminate;
    try (injection H as <-; eapply Hget; [reflexivity | right; reflexivity]).
  destruct (String.eqb k "query") eqn:E1.
  { apply String.eqb_eq in E1. subst k. cbn in H.
    repeat match type of H with
           | context [if ?b then _ else _] => destruct b
           end;
      injection H as <-; eapply Hget;
      try reflexivity; right; reflexivity. }
  destruct (String.eqb k "create") eqn:E2.
  { apply String.eqb_eq in E2. subst k. cbn in H.
    repeat match type of H with
           | context [if ?b then _ else _] => destruct b
           end;
      injection H as <-; eapply Hget;
      try reflexivity; left; discriminate. }
  destruct (String.eqb k "execute") eqn:E3.
  { apply String.eqb_eq in E3. subst k. cbn in H.
    repeat match type of H with
           | context [if ?b then _ else _] => destruct b
           end;
      injection H as <-; eapply Hget;
      try reflexivity; left; discriminate. }
  assert (Hin : in_strings (JStr k) ["execute"; "create"] = false).
  { cbn -[String.eqb]. rewrite E2, E3. reflexivity. }
  cbn -[String.eqb] in H. rewrite ?E1, ?E2, ?E3 in H.
  repeat match type of H with
         | context [if ?b then _ else _] => destruct b
         end;
    cbn in H;
    repeat match type of H with
           | context [if ?b then _ else _] => destruct b
           end;
    injection H as <-; eapply Hget; try reflexivity; right; exact Hin.
Qed.

(** ** The orchestrator *)

Lemma fails_bind_left {S A B} (m : M S A) (k : A -> M S B) :
  fails m -> fails (bind m k).
Proof.
  intros H s. destruct (H s) as [e E]. exists e. unfold bind.
  destruct (m s) as [[x|e'] s']; cbn in *; congruence.
Qed.

Lemma fails_bind_right {S A B} (m : M S A) (k : A -> M S B) :
  (forall x, fails (k x)) -> fails (bind m k).
Proof.
  intros H s. unfold bind.
  destruct (m s) as [[x|e'] s']; cbn; [apply H | eauto].
Qed.

Lemma fails_raise {S A} (e : Exn) : fails (S:=S) (A:=A) (raise e).
Proof. intros s. exists e. reflexivity. Qed.

Section OrchestratorFacts.

Variable R : Type.
Variable interpreter_process : Json -> M R Json.
Variable strategist_process : Json -> M R Json.
Variable artisan_process : Json -> M R Json.
Variable ledger_process : Json -> M R Json.
Variable executor_process : Json -> M R Json.
Variable mirror_process : Json -> M R Json.
Variable py_str : Json -> string.

Lemma fails_ask (process : Json -> M R Json) (input : Json) :
  fails (process input) -> fails (Orchestrator.ask R process input).
Proof.
  intros H s. destruct (H (Orchestrator.agents s)) as [e E]. exists e.
  unfold Orchestrator.ask.
  destruct (process input (Orchestrator.agents s)) as [r s']. exact E.
Qed.

(** X23.  The reflection is not optional: when the mirror cannot answer, no
    request is answered, in whatever mode and whatever the other agents
    have returned or done by then. *)
Theorem no_answer_without_the_mirror (user_input mode : string)
    (context : Json) (require_consensus : bool) :
  (forall input, fails (mirror_process input)) ->
  fails (Orchestrator.process_request R interpreter_process
           strategist_process artisan_process ledger_process
           executor_process mirror_process py_str user_input mode context
           require_consensus).
Proof.
  intros Hmirror. unfold Orchestrator.process_request.
  apply fails_bind_right. intros s.
  destruct (negb (Orchestrator.initialized s)); [apply fails_raise|].
  do 3 (apply fails_bind_right; intros).
  apply fails_bind_left. unfold Orchestrator._get_reflection.
  do 5 (apply fails_bind_right; intros).
  apply fails_bind_left. apply fails_ask. apply Hmirror.
Qed.

End OrchestratorFacts.

(** ** The executor's approvals and its history *)

Lemma in_strings_In (t : string) (l : list string) :
  In t l -> in_strings (JStr t) l = true.
Proof.
  unfold in_strings. induction l as [|x l IH]; cbn; [contradiction|].
  intros [->|H].
  - now rewrite String.eqb_refl.
  - rewrite IH by exact H. apply orb_true_r.
Qed.

(** X24.  No task of the executor goes round the veto checks: under a
    constitution whose thresholds list [real_world_execution] and
    [financial_exposure], the action type the executor submits for a task,
    whatever its type, is a threshold action. *)
Theorem executor_tasks_are_always_adjudicated (cst : Constitution)
    (task : Json) (action_type : string) :
  In "real_world_execution" (restriction_thresholds cst) ->
  In "financial_exposure" (restriction_thresholds cst) ->
  ExecutorAgent._map_task_to_action_type task = Ok action_type ->
  _is_threshold_action cst (JStr action_type) = true.
Proof.
  intros Hr Hf Hmap. unfold _is_threshold_action.
  assert (action_type = "real_world_execution" \/
          action_type = "financial_exposure") as [-> | ->];
    [|now apply in_strings_In | now apply in_strings_In].
  unfold ExecutorAgent._map_task_to_action_type in Hmap.
  destruct (get_method task "type" (JStr "")) as [[| | | |ty| |]|];
    try discriminate; try (injection Hmap as <-; now left).
  cbn in Hmap.
  repeat match type of Hmap with
         | context [if ?b then _ else _] => destruct b
         end;
    injection Hmap as <-; auto.
Qed.

Section ExecutorHistory.

Variable json_dumps : Json -> string.
Variable format_float : string -> float -> string.
Variable py_str : Json -> string.
Variable path_str : string -> string.
Variable default_constitution : Constitution.

(** X25.  A write the sandbox refuses is recorded as executed: for a path under
    no allowed prefix the result has status [failure] and nothing reaches
    the file system, yet the task gets its [task_executed] row and its
    entry in the execution history like a write that succeeded. *)
Theorem refused_write_is_recorded_as_executed (e : ExecutorAgent.Executor)
    (input task parameters content skip : Json) (path : string) :
  getitem input "task" = Ok task ->
  get_method input "skip_approval" (JBool false) = Ok skip ->
  ExecutorAgent.truthy skip = true ->
  getitem task "type" = Ok (JStr "file_write") ->
  getitem task "parameters" = Ok parameters ->
  getitem parameters "path" = Ok (JStr path) ->
  getitem parameters "content" = Ok content ->
  ExecutorAgent.path_allowed (ExecutorAgent.allowed_file_paths (local e))
    (path_str path) = false ->
  let r := ExecutorAgent._process_input json_dumps format_float py_str
             path_str default_constitution input e in
  let result :=
    ExecutorAgent.result_dict "failure" JNull
      [JStr ("Path " ++ path_str path ++ " not in allowed directories")]
      false in
  (exists t, fst r = Ok (JDict [("execution_result", result);
                                ("executed_at", JStr t)])) /\
  os_of (world (snd r)) = os_of (world e) /\
  (exists row,
     episodic_memory (world (snd r)) =
       (episodic_memory (world e) ++ [row])%list /\
     ep_event_type row = "task_executed" /\
     ep_context row = JDict [("task", task); ("result", result)]) /\
  (exists t,
     ExecutorAgent.execution_history (local (snd r)) =
       (ExecutorAgent.execution_history (local e) ++
          [JDict [("task", task); ("result", result);
                  ("timestamp", JStr t)]])%list).
Proof.
  intros Htask Hskip Htruthy Htype Hparams Hpath Hcontent Hdenied.
  cbv zeta.
  unfold ExecutorAgent._process_input, ExecutorAgent._execute_sandboxed,
    ExecutorAgent._execute_file_write, ExecutorAgent.path_of,
    ExecutorAgent.with_local, BaseAgent.write_episodic. run.
  rewrite Htask, Hskip, Htruthy. cbn. rewrite Htype, Hparams. cbn.
  rewrite Hpath, Hcontent. cbn. rewrite Hdenied. cbn.
  repeat split; eexists; repeat split.
Qed.

End ExecutorHistory.

(** ** The adjudicator answers; the sandbox reads back what it wrote *)

Section SentinelAnswers.

Variable json_dumps : Json -> string.
Variable format_float : string -> float -> string.

(** X26.  The adjudicator always answers a well-formed submission: holding
    decisions that are dictionaries with a [decision] entry, on a
    submission with its fields present, a dictionary for context and a
    subsystem check that does not raise, [_process_input] returns a
    decision, and it is one of [approve], [halt] and [escalate]. *)
Theorem adjudication_always_answers (a : Sentinel)
    (input artifact origin action_type : Json) (context : dict) :
  well_formed a ->
  submits input artifact origin action_type context ->
  (exists r, _subsystem_constraint_check (constitution a) artifact origin =
               Ok r) ->
  exists d a' verdict,
    _process_input json_dumps format_float input a = (Ok (JDict d), a') /\
    dict_get "decision" d = Some (JStr verdict) /\
    In verdict ["approve"; "halt"; "escalate"].
Proof.
  intros Hwf Hsub [r Hr].
  destruct (_is_threshold_action (constitution a) action_type) eqn:Hthr.
  - assert (Hcase :
      passes_veto json_dumps (constitution a) artifact origin action_type
                  context \/
      exists reason fault_code,
        fails_veto json_dumps (constitution a) artifact origin action_type
                   context reason fault_code).
    { unfold passes_veto, fails_veto, veto_checks, passed.
      destruct (_moral_regression_test json_dumps (constitution a) artifact
                  (JDict context)) as [|r1 f1] eqn:E1;
        [|right; exists r1, f1, 0%nat, MoralRegressionTest;
          split; [cbn; constructor | reflexivity]].
      destruct (_ethical_boundary_check json_dumps (constitution a) artifact
                  (JDict context)) as [|r2 f2] eqn:E2;
        [|right; exists r2, f2, 1%nat, EthicalBoundaryCheck;
          split; [cbn; repeat constructor | reflexivity]].
      destruct (_legal_constraint_check json_dumps artifact action_type)
        as [|r3 f3] eqn:E3;
        [|right; exists r3, f3, 2%nat, LegalConstraintCheck;
          split; [cbn; repeat constructor | reflexivity]].
      rewrite Hr. destruct r as [|r4 f4].
      - left. repeat constructor.
      - right. exists r4, f4, 3%nat, SubsystemConstraintCheck.
        split; [cbn; repeat constructor | reflexivity]. }
    destruct Hcase as [Hpass | (reason & fault_code & Hfail)].
    + destruct (process_input_clear json_dumps format_float a _ _ _ _ _
                  Hsub Hthr Hpass Hwf)
        as (d & a' & E & _ & _ & _ & _ & _ & D & _).
      exists d, a', "approve". repeat split; auto. now left.
    + destruct (process_input_fail json_dumps format_float a _ _ _ _ _ _ _
                  Hsub Hthr Hfail Hwf)
        as (d & a' & E & _ & _ & _ & _ & _ & _ & K).
      destruct (max_repair_cycles (local a) <=? _).
      * destruct K as (D & _). exists d, a', "escalate".
        repeat split; auto. right. right. now left.
      * destruct K as (D & _). exists d, a', "halt".
        repeat split; auto. right. now left.
  - destruct Hsub as (Ha & Ho & Ht & Hc).
    unfold _process_input. run. rewrite Ha, Ho, Ht, Hc. cbn.
    rewrite Hthr. cbn.
    do 2 eexists. exists "approve". repeat split. now left.
Qed.

End SentinelAnswers.

Section ExecutorRoundTrip.

Variable path_str : string -> string.


End ExecutorRoundTrip.

(** ** Concrete runs of the further properties *)

Lemma decision_window_stays_bounded_witness :
  within_window (snd (Demo._process_input Demo.illegal Demo.sentinel0)).
Proof.
  apply (decision_window_stays_bounded Demo.json_dumps Demo.format_float
           Demo.illegal Demo.sentinel0).
  - cbn. lia.
  - unfold within_window, window_bound. cbn. lia.
Defined.

Lemma zero_window_keeps_every_decision_witness :
  recent_decisions
    (local (snd (_check_anti_paralysis Demo.format_float
                   Scenarios.unbounded))) =
    repeat Scenarios.approval 12.
Proof.
  apply (zero_window_keeps_every_decision Demo.format_float
           Scenarios.unbounded).
  reflexivity.
Defined.

Lemma halt_event_names_the_context_origin_witness :
  halt_events (world (snd (Demo._process_input Demo.illegal Demo.sentinel0)))
    = [{| he_id := 1;
          he_halted_subsystem := JStr "unknown";
          he_halt_reason := "Crosses boundary: violates_legality";
          he_repair_cycle_count := 1 |}] /\
  halt_events (world (snd (Demo._process_input Scenarios.traced
                             Demo.sentinel0)))
    = [{| he_id := 1;
          he_halted_subsystem := JStr "executor";
          he_halt_reason := "Crosses boundary: violates_legality";
          he_repair_cycle_count := 1 |}].
Proof.
  split.
  - apply (halt_event_names_the_context_origin Demo.json_dumps
             Demo.format_float Demo.sentinel0 Demo.illegal
             (JDict [("content", JStr "illegal activity")])
             (JStr "executor") (JStr "execution") []
             "Crosses boundary: violates_legality" "boundary_violation").
    + repeat split.
    + reflexivity.
    + exists 0%nat, MoralRegressionTest. split; [constructor | reflexivity].
  - apply (halt_event_names_the_context_origin Demo.json_dumps
             Demo.format_float Demo.sentinel0 Scenarios.traced
             (JDict [("content", JStr "illegal activity")])
             (JStr "executor") (JStr "execution")
             [("subsystem_origin", JStr "executor")]
             "Crosses boundary: violates_legality" "boundary_violation").
    + repeat split.
    + reflexivity.
    + exists 0%nat, MoralRegressionTest. split; [constructor | reflexivity].
Defined.


Lemma legality_keywords_fail_as_boundary_violation_witness :
  exists reason,
    _moral_regression_test Demo.json_dumps Demo.test_constitution
      (JDict [("content", JStr "tax fraud scheme")]) (JDict []) =
      Failed reason "boundary_violation".
Proof.
  apply (legality_keywords_fail_as_boundary_violation Demo.json_dumps
           Demo.test_constitution
           (JDict [("content", JStr "tax fraud scheme")]) (JDict [])).
  - cbn. right. left. reflexivity.
  - right. reflexivity.
Defined.

Lemma subsystem_check_fails_only_on_execute_command_witness :
  "subsystem_constraint_violation" = "subsystem_constraint_violation" /\
  in_json "execute_command" (JDict [("execute_command", JStr "ls")]) =
    Ok true /\
  exists name config c,
    JStr "interpreter" = JStr name /\
    lookup_subsystem name (subsystems Demo.test_constitution) =
      Some config /\
    In c (constraints config) /\
    contains "cannot_execute" c = true /\
    "interpreter violated constraint: cannot_execute_actions" =
      name ++ " violated constraint: " ++ c.
Proof.
  apply (subsystem_check_fails_only_on_execute_command
           Demo.test_constitution (JDict [("execute_command", JStr "ls")])
           (JStr "interpreter")
           "interpreter violated constraint: cannot_execute_actions"
           "subsystem_constraint_violation").
  reflexivity.
Defined.

Lemma escalation_is_permanent_witness :
  let inputs := [Demo.illegal; Demo.harmful; Demo.illegal] in
  let a' := submit_all Demo.json_dumps Demo.format_float inputs
              (Demo.sentinel_with 1) in
  Forall escalates
    (adjudicate_all Demo.json_dumps Demo.format_float inputs
       (Demo.sentinel_with 1)) /\
  current_repair_cycle (local a') = 3 /\
  recent_decisions (local a') = [] /\
  bus (world a') = [].
Proof.
  apply (escalation_is_permanent Demo.json_dumps Demo.format_float
           [Demo.illegal; Demo.harmful; Demo.illegal]
           (Demo.sentinel_with 1)).
  - apply demo_well_formed.
  - unfold at_last_cycle. cbn. lia.
  - repeat constructor;
      [apply illegal_fails | apply harmful_fails | apply illegal_fails].
Defined.

Lemma every_input_row_is_closed_witness :
  exists between row,
    episodic_memory
      (world (snd (SentinelAgent.process Demo.json_dumps Demo.format_float
                     Demo.illegal Demo.sentinel0))) =
      ([input_row Demo.sentinel0 Demo.illegal] ++ between ++ [row])%list /\
    closes Demo.illegal
      (fst (SentinelAgent.process Demo.json_dumps Demo.format_float
              Demo.illegal Demo.sentinel0))
      1 row.
Proof.
  apply (every_input_row_is_closed
           (SentinelAgent._process_input Demo.json_dumps Demo.format_float)
           (SentinelAgent._check_constraints)
           Demo.sentinel0 Demo.illegal).
  - reflexivity.
  - intros i a.
    destruct (advances_process_input Demo.json_dumps Demo.format_float i a)
      as (_ & _ & _ & G & _).
    exact G.
  - intros o a. exists []. cbn. now rewrite app_nil_r.
Defined.

Lemma unsupported_task_type_is_a_failure_witness :
  exists t e' row,
    ExecutorAgent._process_input Demo.json_dumps Demo.format_float
      Demo.py_str Demo.path_str Demo.test_constitution
      (Scenarios.skipping Scenarios.delete_task) Demo.executor0 =
      (Ok (JDict [("execution_result",
                   ExecutorAgent.result_dict "failure" JNull
                     [JStr "Unsupported task type: file_delete"] false);
                  ("executed_at", JStr t)]), e') /\
    os_of (world e') = ([], []) /\
    ExecutorAgent.execution_history (local e') = [] /\
    episodic_memory (world e') = [row] /\
    ep_event_type row = "execution_error".
Proof.
  apply (unsupported_task_type_is_a_failure Demo.json_dumps
           Demo.format_float Demo.py_str Demo.path_str
           Demo.test_constitution Demo.executor0
           (Scenarios.skipping Scenarios.delete_task) Scenarios.delete_task
           (JStr "file_delete")
           (JDict [("path", JStr "/tmp/report.txt")]) (JBool true));
    reflexivity.
Defined.

Lemma task_without_type_escapes_the_handler_witness :
  ExecutorAgent._process_input Demo.json_dumps Demo.format_float
    Demo.py_str Demo.path_str Demo.test_constitution
    (Scenarios.skipping Scenarios.untyped_task) Demo.executor0 =
    (Raise (KeyError "type"), Demo.executor0).
Proof.
  apply (task_without_type_escapes_the_handler Demo.json_dumps
           Demo.format_float Demo.py_str Demo.path_str
           Demo.test_constitution Demo.executor0
           (Scenarios.skipping Scenarios.untyped_task)
           Scenarios.untyped_task (JBool true) (KeyError "type"));
    reflexivity.
Defined.

Lemma executor_rejections_name_no_subsystem_witness :
  halt_events
    (world (snd (ExecutorAgent._request_sentinel_approval Demo.json_dumps
                   Demo.format_float Demo.test_constitution
                   Demo.refused_task Demo.executor0))) =
    [{| he_id := 1;
        he_halted_subsystem := JStr "unknown";
        he_halt_reason := "Potential legal violation detected: steal";
        he_repair_cycle_count := 1 |}].
Proof.
  apply (executor_rejections_name_no_subsystem Demo.json_dumps
           Demo.format_float Demo.test_constitution Demo.executor0
           Demo.refused_task "real_world_execution"
           "Potential legal violation detected: steal" "legal_violation").
  - reflexivity.
  - reflexivity.
  - exists 2%nat, LegalConstraintCheck.
    split; [repeat constructor | reflexivity].
Defined.

Lemma interpreter_routing_passes_its_own_check_witness :
  InterpreterAgent._check_constraints
    (JDict [("intent", Scenarios.run_tests);
            ("routing",
             JDict [("target_subsystem", JStr "executor");
                    ("suggested_mode", JStr "execution");
                    ("confidence", JFloat 0.8%float)])])
    Scenarios.interpreter0 = (Ok true, Scenarios.interpreter0).
Proof.
  apply (interpreter_routing_passes_its_own_check Scenarios.interpreter0
           Scenarios.run_tests (JDict [])).
  reflexivity.
Defined.

Lemma no_answer_without_the_mirror_witness :
  fails (Orchestrator.process_request unit Scenarios.answering
           Scenarios.answering Scenarios.answering Scenarios.answering
           Scenarios.answering Scenarios.mirror_down Demo.py_str
           "What is the status?" "inquiry" JNull false).
Proof.
  apply (no_answer_without_the_mirror unit Scenarios.answering
           Scenarios.answering Scenarios.answering Scenarios.answering
           Scenarios.answering Scenarios.mirror_down Demo.py_str
           "What is the status?" "inquiry" JNull false).
  intros input s. exists (RuntimeError "mirror not active"). reflexivity.
Defined.

Lemma executor_tasks_are_always_adjudicated_witness :
  _is_threshold_action Demo.test_constitution (JStr "financial_exposure") =
    true.
Proof.
  apply (executor_tasks_are_always_adjudicated Demo.test_constitution
           (JDict [("type", JStr "financial")]) "financial_exposure").
  - cbn. right. left. reflexivity.
  - cbn. right. right. right. left. reflexivity.
  - reflexivity.
Defined.

Lemma refused_write_is_recorded_as_executed_witness :
  let input :=
    Scenarios.skipping
      (JDict [("type", JStr "file_write");
              ("parameters",
               JDict [("path", JStr "/etc/passwd");
                      ("content", JStr "root")])]) in
  let r := ExecutorAgent._process_input Demo.json_dumps Demo.format_float
             Demo.py_str Demo.path_str Demo.test_constitution input
             Demo.executor0 in
  let result :=
    ExecutorAgent.result_dict "failure" JNull
      [JStr "Path /etc/passwd not in allowed directories"] false in
  (exists t, fst r = Ok (JDict [("execution_result", result);
                                ("executed_at", JStr t)])) /\
  os_of (world (snd r)) = ([], []) /\
  (exists row,
     episodic_memory (world (snd r)) = [row] /\
     ep_event_type row = "task_executed" /\
     ep_context row =
       JDict [("task",
               JDict [("type", JStr "file_write");
                      ("parameters",
                       JDict [("path", JStr "/etc/passwd");
                              ("content", JStr "root")])]);
              ("result", result)]) /\
  (exists t,
     ExecutorAgent.execution_history (local (snd r)) =
       [JDict [("task",
                JDict [("type", JStr "file_write");
                       ("parameters",
                        JDict [("path", JStr "/etc/passwd");
                               ("content", JStr "root")])]);
               ("result", result);
               ("timestamp", JStr t)]]).
Proof.
  apply (refused_write_is_recorded_as_executed Demo.json_dumps
           Demo.format_float Demo.py_str Demo.path_str
           Demo.test_constitution Demo.executor0
           (Scenarios.skipping
              (JDict [("type", JStr "file_write");
                      ("parameters",
                       JDict [("path", JStr "/etc/passwd");
                              ("content", JStr "root")])]))
           (JDict [("type", JStr "file_write");
                   ("parameters",
                    JDict [("path", JStr "/etc/passwd");
                           ("content", JStr "root")])])
           (JDict [("path", JStr "/etc/passwd"); ("content", JStr "root")])
           (JStr "root") (JBool true) "/etc/passwd");
    reflexivity.
Defined.

Lemma returned_output_has_passed_the_check_witness :
  let input := JDict [("user_input", JStr "Run the tests")] in
  let output := JDict [("intent", Scenarios.run_tests);
                       ("routing", Scenarios.routing_to_executor)] in
  let a' := snd (BaseAgent.process Scenarios.routing_logic
                   InterpreterAgent._check_constraints input
                   Scenarios.interpreter0) in
  active Scenarios.interpreter0 = true /\
  exists a2 a3,
    Scenarios.routing_logic input
      (snd (BaseAgent.write_episodic "input_received"
              (JDict [("input", input)]) None Scenarios.interpreter0)) =
      (Ok output, a2) /\
    InterpreterAgent._check_constraints output a2 = (Ok true, a3) /\
    constitutional_violations (world a') =
      constitutional_violations (world a3).
Proof.
  apply (returned_output_has_passed_the_check Scenarios.routing_logic
           InterpreterAgent._check_constraints Scenarios.interpreter0).
  reflexivity.
Defined.

Lemma adjudication_always_answers_witness :
  exists d a' verdict,
    Demo._process_input Demo.benign Demo.sentinel0 = (Ok (JDict d), a') /\
    dict_get "decision" d = Some (JStr verdict) /\
    In verdict ["approve"; "halt"; "escalate"].
Proof.
  apply (adjudication_always_answers Demo.json_dumps Demo.format_float
           Demo.sentinel0 Demo.benign
           (JDict [("content", JStr "benign operation")])
           (JStr "executor") (JStr "execution") []).
  - apply demo_well_formed.
  - repeat split.
  - exists Passed. reflexivity.
Defined.

